(** * PsychOculusVRCore: the device registry and the query adapters

    A shallow embedding of
    [PsychSourceGL/Source/Common/PsychOculusVRCore/PsychOculusVR.c].

    The driver keeps a table of ten device records and a few process-wide
    variables, and forwards every request to the Oculus SDK.  The global
    variables are threaded as an explicit state, [PsychErrorExitMsg] is an
    error outcome that leaves the subfunction, and every call into the SDK
    is logged, with the SDK's answer supplied by an oracle record. *)

From Stdlib Require Import ZArith List String Lia Bool.
From Stdlib Require Import Floats.PrimFloat.
From stdpp Require Import base list.
Import ListNotations.

Open Scope Z_scope.

(** ** Data of the SDK (OVR_CAPI.h), restricted to the fields the driver touches *)

(** C [double] and [float] values are IEEE binary64 numbers; every binary32
    value is also a binary64 value, so the widening the driver performs when
    it stores an SDK [float] in a [double] output is the identity. *)
Definition double : Set := float.

(** [ovrHmd] is a pointer to a device descriptor owned by the SDK. *)
Definition ovrHmd : Set := Z.
Definition NULL : Z := 0.

Record ovrSizei : Set := { w : Z; h : Z }.
Record ovrVector2i : Set := { ix : Z; iy : Z }.
Record ovrRecti : Set := { Pos : ovrVector2i; Size : ovrSizei }.
Record ovrVector2f : Set := { x2 : float; y2 : float }.
Record ovrVector3f : Set := { x3 : float; y3 : float; z3 : float }.
Record ovrQuatf : Set := { qx : float; qy : float; qz : float; qw : float }.
Record ovrPosef : Set := { Orientation : ovrQuatf; Position : ovrVector3f }.

Record ovrPoseStatef : Set := {
  ThePose : ovrPosef;
  AngularVelocity : ovrVector3f;
  LinearVelocity : ovrVector3f;
  AngularAcceleration : ovrVector3f;
  LinearAcceleration : ovrVector3f;
  TimeInSeconds : double
}.

Record ovrTrackingState : Set := {
  HeadPose : ovrPoseStatef;
  StatusFlags : Z;
  LastCameraFrameCounter : Z
}.

Record ovrFovPort : Set := {
  UpTan : float; DownTan : float; LeftTan : float; RightTan : float
}.

Record ovrEyeRenderDesc : Set := {
  Eye : Z;
  Fov : ovrFovPort;
  DistortedViewport : ovrRecti;
  PixelsPerTanAngleAtCenter : ovrVector2f;
  HmdToEyeViewOffset : ovrVector3f
}.

Record ovrDistortionVertex : Set := {
  ScreenPosNDC : ovrVector2f;
  TimeWarpFactor : float;
  VignetteFactor : float;
  TanEyeAnglesR : ovrVector2f;
  TanEyeAnglesG : ovrVector2f;
  TanEyeAnglesB : ovrVector2f
}.

(** The two buffers of a mesh live in SDK memory; the record holds their
    addresses. *)
Record ovrDistortionMesh : Set := {
  pVertexData : Z;
  pIndexData : Z;
  VertexCount : Z;
  IndexCount : Z
}.

(** [float M[4][4]], in memory order. *)
Record ovrMatrix4f : Set := { M : list float }.

(** ** The device record and the globals of the driver *)

Definition MAX_PSYCH_OCULUS_DEVS : Z := 10.

Record PsychOculusDevice : Set := {
  hmd : ovrHmd;
  isTracking : bool;
  texSize : ovrSizei;
  eyeRenderDesc : ovrEyeRenderDesc * ovrEyeRenderDesc;
  eyeDistortionMesh : ovrDistortionMesh * ovrDistortionMesh;
  UVScaleOffset : (ovrVector2f * ovrVector2f) * (ovrVector2f * ovrVector2f);
  timeWarpMatrices : ovrMatrix4f * ovrMatrix4f;
  headPose : ovrPosef * ovrPosef
}.

(** Arrays of two elements, indexed by the eye. *)
Definition get2 {A : Type} (a : A * A) (i : Z) : A :=
  if i =? 0 then fst a else snd a.
Definition set2 {A : Type} (a : A * A) (i : Z) (v : A) : A * A :=
  if i =? 0 then (v, snd a) else (fst a, v).

Definition set_hmd (v : ovrHmd) (d : PsychOculusDevice) : PsychOculusDevice :=
  {| hmd := v; isTracking := isTracking d; texSize := texSize d;
     eyeRenderDesc := eyeRenderDesc d; eyeDistortionMesh := eyeDistortionMesh d;
     UVScaleOffset := UVScaleOffset d; timeWarpMatrices := timeWarpMatrices d;
     headPose := headPose d |}.
Definition set_isTracking (v : bool) (d : PsychOculusDevice) : PsychOculusDevice :=
  {| hmd := hmd d; isTracking := v; texSize := texSize d;
     eyeRenderDesc := eyeRenderDesc d; eyeDistortionMesh := eyeDistortionMesh d;
     UVScaleOffset := UVScaleOffset d; timeWarpMatrices := timeWarpMatrices d;
     headPose := headPose d |}.
Definition set_texSize (v : ovrSizei) (d : PsychOculusDevice) : PsychOculusDevice :=
  {| hmd := hmd d; isTracking := isTracking d; texSize := v;
     eyeRenderDesc := eyeRenderDesc d; eyeDistortionMesh := eyeDistortionMesh d;
     UVScaleOffset := UVScaleOffset d; timeWarpMatrices := timeWarpMatrices d;
     headPose := headPose d |}.
Definition set_eyeRenderDesc (i : Z) (v : ovrEyeRenderDesc) (d : PsychOculusDevice)
  : PsychOculusDevice :=
  {| hmd := hmd d; isTracking := isTracking d; texSize := texSize d;
     eyeRenderDesc := set2 (eyeRenderDesc d) i v;
     eyeDistortionMesh := eyeDistortionMesh d;
     UVScaleOffset := UVScaleOffset d; timeWarpMatrices := timeWarpMatrices d;
     headPose := headPose d |}.
Definition set_eyeDistortionMesh (i : Z) (v : ovrDistortionMesh) (d : PsychOculusDevice)
  : PsychOculusDevice :=
  {| hmd := hmd d; isTracking := isTracking d; texSize := texSize d;
     eyeRenderDesc := eyeRenderDesc d;
     eyeDistortionMesh := set2 (eyeDistortionMesh d) i v;
     UVScaleOffset := UVScaleOffset d; timeWarpMatrices := timeWarpMatrices d;
     headPose := headPose d |}.
Definition set_UVScaleOffset (i : Z) (v : ovrVector2f * ovrVector2f) (d : PsychOculusDevice)
  : PsychOculusDevice :=
  {| hmd := hmd d; isTracking := isTracking d; texSize := texSize d;
     eyeRenderDesc := eyeRenderDesc d; eyeDistortionMesh := eyeDistortionMesh d;
     UVScaleOffset := set2 (UVScaleOffset d) i v;
     timeWarpMatrices := timeWarpMatrices d; headPose := headPose d |}.
Definition set_timeWarpMatrices (v : ovrMatrix4f * ovrMatrix4f) (d : PsychOculusDevice)
  : PsychOculusDevice :=
  {| hmd := hmd d; isTracking := isTracking d; texSize := texSize d;
     eyeRenderDesc := eyeRenderDesc d; eyeDistortionMesh := eyeDistortionMesh d;
     UVScaleOffset := UVScaleOffset d; timeWarpMatrices := v;
     headPose := headPose d |}.
Definition set_headPose (i : Z) (v : ovrPosef) (d : PsychOculusDevice)
  : PsychOculusDevice :=
  {| hmd := hmd d; isTracking := isTracking d; texSize := texSize d;
     eyeRenderDesc := eyeRenderDesc d; eyeDistortionMesh := eyeDistortionMesh d;
     UVScaleOffset := UVScaleOffset d; timeWarpMatrices := timeWarpMatrices d;
     headPose := set2 (headPose d) i v |}.

(** The all-zero record: what static storage holds at program start and
    what [memset(&oculusdevices[handle], 0, sizeof(PsychOculusDevice))]
    leaves behind. *)
Definition zero_v2 : ovrVector2f := {| x2 := 0; y2 := 0 |}.
Definition zero_v3 : ovrVector3f := {| x3 := 0; y3 := 0; z3 := 0 |}.
Definition zero_pose : ovrPosef :=
  {| Orientation := {| qx := 0; qy := 0; qz := 0; qw := 0 |}; Position := zero_v3 |}.
Definition zero_fov : ovrFovPort :=
  {| UpTan := 0; DownTan := 0; LeftTan := 0; RightTan := 0 |}.
Definition zero_desc : ovrEyeRenderDesc :=
  {| Eye := 0; Fov := zero_fov;
     DistortedViewport := {| Pos := {| ix := 0; iy := 0 |}; Size := {| w := 0; h := 0 |} |};
     PixelsPerTanAngleAtCenter := zero_v2; HmdToEyeViewOffset := zero_v3 |}.
Definition zero_mesh : ovrDistortionMesh :=
  {| pVertexData := NULL; pIndexData := NULL; VertexCount := 0; IndexCount := 0 |}.
Definition zero_matrix : ovrMatrix4f := {| M := repeat 0%float 16 |}.
Definition zero_device : PsychOculusDevice :=
  {| hmd := NULL; isTracking := false; texSize := {| w := 0; h := 0 |};
     eyeRenderDesc := (zero_desc, zero_desc);
     eyeDistortionMesh := (zero_mesh, zero_mesh);
     UVScaleOffset := ((zero_v2, zero_v2), (zero_v2, zero_v2));
     timeWarpMatrices := (zero_matrix, zero_matrix);
     headPose := (zero_pose, zero_pose) |}.

(** [oculusdevices], [available_devices], [devicecount] and [initialized].
    [devicecount] is an [unsigned int]: its increments and decrements wrap
    at 2^32. *)
Record Globals : Set := {
  oculusdevices : list PsychOculusDevice;
  available_devices : Z;
  devicecount : Z;
  initialized : bool
}.

(** [static unsigned int verbosity = 3;] is never assigned in the file. *)
Definition verbosity : Z := 3.

Definition UINT_MOD : Z := 2 ^ 32.

(** [oculusdevices[i]]; every access in the driver is guarded by
    [0 <= i < MAX_PSYCH_OCULUS_DEVS]. *)
Definition slot (g : Globals) (i : Z) : PsychOculusDevice :=
  default zero_device (oculusdevices g !! Z.to_nat i).

Definition with_devices (l : list PsychOculusDevice) (g : Globals) : Globals :=
  {| oculusdevices := l; available_devices := available_devices g;
     devicecount := devicecount g; initialized := initialized g |}.
Definition with_available (n : Z) (g : Globals) : Globals :=
  {| oculusdevices := oculusdevices g; available_devices := n;
     devicecount := devicecount g; initialized := initialized g |}.
Definition with_devicecount (n : Z) (g : Globals) : Globals :=
  {| oculusdevices := oculusdevices g; available_devices := available_devices g;
     devicecount := n; initialized := initialized g |}.
Definition with_initialized (b : bool) (g : Globals) : Globals :=
  {| oculusdevices := oculusdevices g; available_devices := available_devices g;
     devicecount := devicecount g; initialized := b |}.

Definition update_slot (i : Z) (f : PsychOculusDevice -> PsychOculusDevice)
  (g : Globals) : Globals :=
  with_devices (<[Z.to_nat i := f (slot g i)]> (oculusdevices g)) g.

(** The state of the program image before any code of the driver ran. *)
Definition startup : Globals :=
  {| oculusdevices := repeat zero_device 10; available_devices := 0;
     devicecount := 0; initialized := false |}.

(** ** Outcomes, the call log and the SDK oracle *)

Inductive PsychError : Set :=
| PsychError_none
| PsychError_user
| PsychError_system
| PsychError_internal.

(** Calls into the SDK, in the order they are made.  Calls that only fetch
    text for a message ([ovr_GetVersionString], [ovrHmd_GetLastError]) are
    not recorded. *)
Inductive SdkCall : Set :=
| Call_ovr_Initialize
| Call_ovr_Shutdown
| Call_ovrHmd_Detect
| Call_ovrHmd_Create (index : Z)
| Call_ovrHmd_CreateDebug (type : Z)
| Call_ovrHmd_Destroy (hmd : ovrHmd)
| Call_ovrHmd_ConfigureTracking (hmd : ovrHmd) (supportedCaps requiredCaps : Z)
| Call_ovrHmd_GetTrackingState (hmd : ovrHmd) (absTime : double)
| Call_ovrHmd_GetFovTextureSize (hmd : ovrHmd) (eye : Z) (fov : ovrFovPort)
    (pixelsPerDisplayPixel : float)
| Call_ovrHmd_GetRenderDesc (hmd : ovrHmd) (eye : Z) (fov : ovrFovPort)
| Call_ovrHmd_CreateDistortionMesh (hmd : ovrHmd) (eye : Z) (fov : ovrFovPort)
    (caps : Z) (before after : ovrDistortionMesh)
| Call_ovrHmd_DestroyDistortionMesh (mesh : ovrDistortionMesh)
| Call_ovrHmd_GetRenderScaleAndOffset (fov : ovrFovPort) (size : ovrSizei)
    (viewport : ovrRecti)
| Call_ovrHmd_GetHmdPosePerEye (hmd : ovrHmd) (eye : Z)
| Call_ovrHmd_GetEyeTimewarpMatrices (hmd : ovrHmd) (eye : Z) (pose : ovrPosef).

(** What the SDK, the memory it owns and libm answer during one call of a
    subfunction.  Nothing is assumed about the answers. *)
Record Sdk : Type := {
  (* enumerators of OVR_CAPI.h the driver names *)
  ovrHmd_DK2 : Z;
  ovrTrackingCap_Orientation : Z;
  ovrTrackingCap_MagYawCorrection : Z;
  ovrTrackingCap_Position : Z;
  (* answers of the entry points *)
  sdk_Initialize : bool;
  sdk_Detect_at_init : Z;
  sdk_Detect : Z;
  sdk_Create : Z -> ovrHmd;
  sdk_CreateDebug : Z -> ovrHmd;
  sdk_ConfigureTracking : ovrHmd -> Z -> Z -> bool;
  sdk_GetTrackingState : ovrHmd -> double -> ovrTrackingState;
  sdk_GetFovTextureSize : ovrHmd -> Z -> ovrFovPort -> float -> ovrSizei;
  sdk_GetRenderDesc : ovrHmd -> Z -> ovrFovPort -> ovrEyeRenderDesc;
  sdk_CreateDistortionMesh :
    ovrHmd -> Z -> ovrFovPort -> Z -> ovrDistortionMesh -> bool * ovrDistortionMesh;
  sdk_DestroyDistortionMesh : ovrDistortionMesh -> ovrDistortionMesh;
  sdk_GetRenderScaleAndOffset :
    ovrFovPort -> ovrSizei -> ovrRecti -> ovrVector2f * ovrVector2f;
  sdk_GetHmdPosePerEye : ovrHmd -> Z -> ovrPosef;
  sdk_GetEyeTimewarpMatrices : ovrHmd -> Z -> ovrPosef -> ovrMatrix4f * ovrMatrix4f;
  (* fields of the descriptor [*hmd] *)
  hmd_DefaultEyeFov : ovrHmd -> Z -> ovrFovPort;
  hmd_EyeRenderOrder : ovrHmd -> Z -> Z;
  (* contents of the mesh buffers *)
  mem_vertices : Z -> list ovrDistortionVertex;
  mem_indices : Z -> list Z;
  (* libm *)
  c_tan : double -> double
}.

Inductive Outcome (A : Type) : Type :=
| Done (a : A)
| ErrorExit (e : PsychError) (msg : string)
| Fault.
Arguments Done {A} a.
Arguments ErrorExit {A} e msg.
Arguments Fault {A}.

Record Run (A : Type) : Type := {
  outcome : Outcome A;
  globals : Globals;
  calls : list SdkCall
}.
Arguments outcome {A} _.
Arguments globals {A} _.
Arguments calls {A} _.

Definition Cmd (A : Type) : Type := Globals -> Run A.

Definition ret {A : Type} (a : A) : Cmd A :=
  fun g => {| outcome := Done a; globals := g; calls := [] |}.

Definition bind {A B : Type} (m : Cmd A) (f : A -> Cmd B) : Cmd B :=
  fun g =>
    let r := m g in
    match outcome r with
    | Done a =>
        let r' := f a (globals r) in
        {| outcome := outcome r'; globals := globals r'; calls := calls r ++ calls r' |}
    | ErrorExit e msg =>
        {| outcome := ErrorExit e msg; globals := globals r; calls := calls r |}
    | Fault => {| outcome := Fault; globals := globals r; calls := calls r |}
    end.

Declare Scope cmd_scope.
Delimit Scope cmd_scope with cmd.
Notation "x <- c1 ;; c2" := (bind c1 (fun x => c2))
  (at level 100, c1 at next level, right associativity) : cmd_scope.
Notation "c1 ;; c2" := (bind c1 (fun _ => c2))
  (at level 100, right associativity) : cmd_scope.
Open Scope cmd_scope.

Definition get : Cmd Globals :=
  fun g => {| outcome := Done g; globals := g; calls := [] |}.
Definition modify (f : Globals -> Globals) : Cmd unit :=
  fun g => {| outcome := Done tt; globals := f g; calls := [] |}.
Definition sdk_call {A : Type} (c : SdkCall) (a : A) : Cmd A :=
  fun g => {| outcome := Done a; globals := g; calls := [c] |}.

(** [PsychErrorExitMsg] does not return to its caller. *)
Definition PsychErrorExitMsg {A : Type} (e : PsychError) (msg : string) : Cmd A :=
  fun g => {| outcome := ErrorExit e msg; globals := g; calls := [] |}.

(** A read through a NULL pointer or outside of an array. *)
Definition fault {A : Type} : Cmd A :=
  fun g => {| outcome := Fault; globals := g; calls := [] |}.

Definition when (b : bool) (c : Cmd unit) : Cmd unit := if b then c else ret tt.

(** [for (i = lo; i < lo + n; i++) body(i);] *)
Fixpoint for_range (lo : Z) (n : nat) (body : Z -> Cmd unit) : Cmd unit :=
  match n with
  | O => ret tt
  | S n' => body lo ;; for_range (lo + 1) n' body
  end.

(** ** The driver *)

Section Driver.

Variable sdk : Sdk.

(** The SDK entry points: each logs the call and returns the oracle's answer. *)
Definition ovr_Initialize : Cmd bool :=
  sdk_call Call_ovr_Initialize (sdk_Initialize sdk).
Definition ovr_Shutdown : Cmd unit := sdk_call Call_ovr_Shutdown tt.
Definition ovrHmd_Detect_at_init : Cmd Z :=
  sdk_call Call_ovrHmd_Detect (sdk_Detect_at_init sdk).
Definition ovrHmd_Detect : Cmd Z := sdk_call Call_ovrHmd_Detect (sdk_Detect sdk).
Definition ovrHmd_Create (index : Z) : Cmd ovrHmd :=
  sdk_call (Call_ovrHmd_Create index) (sdk_Create sdk index).
Definition ovrHmd_CreateDebug (type : Z) : Cmd ovrHmd :=
  sdk_call (Call_ovrHmd_CreateDebug type) (sdk_CreateDebug sdk type).
Definition ovrHmd_Destroy (p : ovrHmd) : Cmd unit :=
  sdk_call (Call_ovrHmd_Destroy p) tt.
Definition ovrHmd_ConfigureTracking (p : ovrHmd) (supported required : Z) : Cmd bool :=
  sdk_call (Call_ovrHmd_ConfigureTracking p supported required)
           (sdk_ConfigureTracking sdk p supported required).
Definition ovrHmd_GetTrackingState (p : ovrHmd) (absTime : double) : Cmd ovrTrackingState :=
  sdk_call (Call_ovrHmd_GetTrackingState p absTime) (sdk_GetTrackingState sdk p absTime).
Definition ovrHmd_GetFovTextureSize (p : ovrHmd) (eye : Z) (fov : ovrFovPort)
  (pixelsPerDisplayPixel : float) : Cmd ovrSizei :=
  sdk_call (Call_ovrHmd_GetFovTextureSize p eye fov pixelsPerDisplayPixel)
           (sdk_GetFovTextureSize sdk p eye fov pixelsPerDisplayPixel).
Definition ovrHmd_GetRenderDesc (p : ovrHmd) (eye : Z) (fov : ovrFovPort)
  : Cmd ovrEyeRenderDesc :=
  sdk_call (Call_ovrHmd_GetRenderDesc p eye fov) (sdk_GetRenderDesc sdk p eye fov).
(** The mesh is an in-out parameter: the answer carries what the SDK left
    in [*meshData]. *)
Definition ovrHmd_CreateDistortionMesh (p : ovrHmd) (eye : Z) (fov : ovrFovPort)
  (caps : Z) (meshData : ovrDistortionMesh) : Cmd (bool * ovrDistortionMesh) :=
  let r := sdk_CreateDistortionMesh sdk p eye fov caps meshData in
  sdk_call (Call_ovrHmd_CreateDistortionMesh p eye fov caps meshData (snd r)) r.
Definition ovrHmd_DestroyDistortionMesh (meshData : ovrDistortionMesh)
  : Cmd ovrDistortionMesh :=
  sdk_call (Call_ovrHmd_DestroyDistortionMesh meshData)
           (sdk_DestroyDistortionMesh sdk meshData).
Definition ovrHmd_GetRenderScaleAndOffset (fov : ovrFovPort) (size : ovrSizei)
  (viewport : ovrRecti) : Cmd (ovrVector2f * ovrVector2f) :=
  sdk_call (Call_ovrHmd_GetRenderScaleAndOffset fov size viewport)
           (sdk_GetRenderScaleAndOffset sdk fov size viewport).
Definition ovrHmd_GetHmdPosePerEye (p : ovrHmd) (eye : Z) : Cmd ovrPosef :=
  sdk_call (Call_ovrHmd_GetHmdPosePerEye p eye) (sdk_GetHmdPosePerEye sdk p eye).
Definition ovrHmd_GetEyeTimewarpMatrices (p : ovrHmd) (eye : Z) (pose : ovrPosef)
  : Cmd (ovrMatrix4f * ovrMatrix4f) :=
  sdk_call (Call_ovrHmd_GetEyeTimewarpMatrices p eye pose)
           (sdk_GetEyeTimewarpMatrices sdk p eye pose).

Definition M_PI : double := 0x1.921fb54442d18p+1%float.

Definition deg2rad (deg : double) : double :=
  (deg / 360 * 2 * M_PI)%float.

(** [PsychGetOculus]: the result is the index of the record the returned
    pointer designates, [None] for [NULL]. *)
Definition PsychGetOculus (handle : Z) (dontfail : bool) : Cmd (option Z) :=
  g <- get ;;
  if (handle <? 1) || (handle >? MAX_PSYCH_OCULUS_DEVS)
     || (hmd (slot g (handle - 1)) =? NULL)
  then
    when (negb dontfail)
         (PsychErrorExitMsg PsychError_user "Invalid Oculus handle.") ;;
    ret None
  else ret (Some (handle - 1)).

Definition clamp_detected (n : Z) : Z := if n <? 0 then 0 else n.

Definition PsychOculusVRCheckInit : Cmd unit :=
  g <- get ;;
  if initialized g then ret tt
  else
    ok <- ovr_Initialize ;;
    if ok then
      n <- ovrHmd_Detect_at_init ;;
      modify (with_available (clamp_detected n)) ;;
      modify (with_initialized true)
    else
      PsychErrorExitMsg PsychError_system
        "PsychOculusVRCore-ERROR: Initialization of VR runtime failed. Driver disabled!".

Definition PsychOculusStop (handle : Z) : Cmd unit :=
  oculus <- PsychGetOculus handle true ;;
  match oculus with
  | None => ret tt
  | Some i =>
      g <- get ;;
      if negb (isTracking (slot g i)) then ret tt
      else
        ok <- ovrHmd_ConfigureTracking (hmd (slot g i)) 0 0 ;;
        when (negb ok)
             (PsychErrorExitMsg PsychError_system
                "Stop of Oculus HMD tracking failed for reason given above.") ;;
        modify (update_slot i (set_isTracking false))
  end.

(** Release of one eye's mesh in [PsychOculusClose]. *)
Definition release_mesh (i eye : Z) : Cmd unit :=
  g <- get ;;
  let mesh := get2 (eyeDistortionMesh (slot g i)) eye in
  if negb (pVertexData mesh =? NULL) then
    mesh' <- ovrHmd_DestroyDistortionMesh mesh ;;
    modify (update_slot i (set_eyeDistortionMesh eye mesh'))
  else ret tt.

Definition PsychOculusClose (handle : Z) : Cmd unit :=
  oculus <- PsychGetOculus handle true ;;
  match oculus with
  | None => ret tt
  | Some i =>
      PsychOculusStop handle ;;
      release_mesh i 0 ;;
      release_mesh i 1 ;;
      g <- get ;;
      ovrHmd_Destroy (hmd (slot g i)) ;;
      modify (update_slot i (set_hmd NULL)) ;;
      modify (fun g => with_devicecount ((devicecount g - 1) mod UINT_MOD) g)
  end.

Definition PsychOculusVRInit : Cmd unit :=
  for_range 0 (Z.to_nat MAX_PSYCH_OCULUS_DEVS)
    (fun handle => modify (update_slot handle (set_hmd NULL))) ;;
  modify (with_available 0) ;;
  modify (with_devicecount 0) ;;
  modify (with_initialized false).

Definition PsychOculusVRShutDown : Cmd PsychError :=
  g <- get ;;
  when (initialized g)
       (for_range 0 (Z.to_nat MAX_PSYCH_OCULUS_DEVS) PsychOculusClose ;;
        ovr_Shutdown) ;;
  modify (with_initialized false) ;;
  ret PsychError_none.

(** *** Subfunctions.  The arguments of the host call are the parameters;
    an optional argument the caller left out is [None].  The help text and
    the checks of the number of arguments are the host's business and come
    before everything modelled here. *)

Definition PSYCHOCULUSVRGetCount : Cmd Z :=
  PsychOculusVRCheckInit ;;
  n <- ovrHmd_Detect ;;
  modify (with_available (clamp_detected n)) ;;
  g <- get ;;
  ret (available_devices g).

(** [for (handle = 0; (handle < MAX_PSYCH_OCULUS_DEVS) && oculusdevices[handle].hmd; handle++);] *)
Fixpoint find_free_slot (g : Globals) (handle : Z) (fuel : nat) : option Z :=
  if (handle <? MAX_PSYCH_OCULUS_DEVS) && negb (hmd (slot g handle) =? NULL) then
    match fuel with
    | O => None
    | S fuel' => find_free_slot g (handle + 1) fuel'
    end
  else Some handle.

Definition PSYCHOCULUSVROpen (deviceIndexArg : option Z) : Cmd Z :=
  PsychOculusVRCheckInit ;;
  g <- get ;;
  match find_free_slot g 0 (Z.to_nat MAX_PSYCH_OCULUS_DEVS) with
  | None => fault
  | Some handle =>
      when ((handle >=? MAX_PSYCH_OCULUS_DEVS) || negb (hmd (slot g handle) =? NULL))
           (PsychErrorExitMsg PsychError_internal
              "Maximum number of simultaneously open Oculus VR devices reached.") ;;
      let deviceIndex := default 0 deviceIndexArg in
      when (deviceIndex <? -1)
           (PsychErrorExitMsg PsychError_user
              "Invalid 'deviceIndex' provided. Must be greater or equal to zero!") ;;
      n <- ovrHmd_Detect ;;
      modify (with_available (clamp_detected n)) ;;
      g <- get ;;
      when ((deviceIndex >=? 0) && (deviceIndex >=? available_devices g))
           (PsychErrorExitMsg PsychError_user
              "Invalid 'deviceIndex' provided. Not enough HMDs available!") ;;
      modify (update_slot handle (fun _ => zero_device)) ;;
      (if deviceIndex >=? 0 then
         p <- ovrHmd_Create deviceIndex ;;
         modify (update_slot handle (set_hmd p)) ;;
         when (p =? NULL)
              (PsychErrorExitMsg PsychError_user
                 "Could not connect to Rift device with given 'deviceIndex'! [ovrHmd_Create() failed]")
       else
         p <- ovrHmd_CreateDebug (ovrHmd_DK2 sdk) ;;
         modify (update_slot handle (set_hmd p))) ;;
      (* "Stats for nerds": the printout reads oculus->hmd->ProductName etc. *)
      g <- get ;;
      when (verbosity >=? 3)
           (if hmd (slot g handle) =? NULL then fault else ret tt) ;;
      modify (fun g => with_devicecount ((devicecount g + 1) mod UINT_MOD) g) ;;
      ret (handle + 1)
  end.

Definition PSYCHOCULUSVRClose (handleArg : option Z) : Cmd unit :=
  PsychOculusVRCheckInit ;;
  let handle := default (-1) handleArg in
  if handle >=? 1 then PsychOculusClose handle
  else PsychOculusVRShutDown ;; ret tt.

Definition PSYCHOCULUSVRStart (handle : Z) : Cmd unit :=
  PsychOculusVRCheckInit ;;
  oculus <- PsychGetOculus handle false ;;
  match oculus with
  | None => fault
  | Some i =>
      g <- get ;;
      when (isTracking (slot g i))
           (PsychErrorExitMsg PsychError_user
              "Tried to start tracking on HMD, but tracking already active.") ;;
      ok <- ovrHmd_ConfigureTracking (hmd (slot g i))
              (Z.lor (Z.lor (ovrTrackingCap_Orientation sdk)
                            (ovrTrackingCap_MagYawCorrection sdk))
                     (ovrTrackingCap_Position sdk)) 0 ;;
      when (negb ok)
           (PsychErrorExitMsg PsychError_system
              "Start of Oculus HMD tracking failed for reason given above.") ;;
      modify (update_slot i (set_isTracking true))
  end.

Definition PSYCHOCULUSVRStop (handle : Z) : Cmd unit :=
  PsychOculusVRCheckInit ;;
  PsychOculusStop handle.

Definition tracking_vector (state : ovrTrackingState) : list double :=
  let hp := HeadPose state in
  [ TimeInSeconds hp;
    x3 (Position (ThePose hp)); y3 (Position (ThePose hp)); z3 (Position (ThePose hp));
    qx (Orientation (ThePose hp)); qy (Orientation (ThePose hp));
    qz (Orientation (ThePose hp)); qw (Orientation (ThePose hp));
    x3 (LinearVelocity hp); y3 (LinearVelocity hp); z3 (LinearVelocity hp);
    x3 (AngularVelocity hp); y3 (AngularVelocity hp); z3 (AngularVelocity hp);
    x3 (LinearAcceleration hp); y3 (LinearAcceleration hp); z3 (LinearAcceleration hp);
    x3 (AngularAcceleration hp); y3 (AngularAcceleration hp); z3 (AngularAcceleration hp) ].

Definition PSYCHOCULUSVRGetTrackingState (handle : Z) (predictionTimeArg : option double)
  : Cmd (list double) :=
  PsychOculusVRCheckInit ;;
  oculus <- PsychGetOculus handle false ;;
  match oculus with
  | None => fault
  | Some i =>
      let predictionTime := default 0%float predictionTimeArg in
      g <- get ;;
      state <- ovrHmd_GetTrackingState (hmd (slot g i)) predictionTime ;;
      ret (tracking_vector state)
  end.

(** The vertex loop: ten doubles per vertex. *)
Definition vertex_fields (v : ovrDistortionVertex) : list double :=
  [ x2 (ScreenPosNDC v); y2 (ScreenPosNDC v);
    TimeWarpFactor v;
    VignetteFactor v;
    x2 (TanEyeAnglesR v); (y2 (TanEyeAnglesR v) * -1)%float;
    x2 (TanEyeAnglesG v); (y2 (TanEyeAnglesG v) * -1)%float;
    x2 (TanEyeAnglesB v); (y2 (TanEyeAnglesB v) * -1)%float ].

Fixpoint vertex_loop (vs : list ovrDistortionVertex) : list double :=
  match vs with
  | [] => []
  | v :: vs' => vertex_fields v ++ vertex_loop vs'
  end.

(** Reading [n] consecutive elements of a buffer from its start; reading
    past its end has no defined result. *)
Definition read_buffer {A : Type} (buf : list A) (n : Z) : Cmd (list A) :=
  if Z.of_nat (length buf) <? n then fault else ret (firstn (Z.to_nat n) buf).

Record FovTextureSizeResult : Type := {
  out_width : Z;
  out_height : Z;
  out_viewPx : Z; out_viewPy : Z; out_viewPw : Z; out_viewPh : Z;
  out_pptax : double; out_pptay : double;
  out_hmdShiftx : double; out_hmdShifty : double; out_hmdShiftz : double;
  out_meshVertices : list double;
  out_meshIndices : list Z;
  out_uvScaleX : double; out_uvScaleY : double;
  out_uvOffsetX : double; out_uvOffsetY : double;
  out_eyeRotStartMatrix : list double;
  out_eyeRotEndMatrix : list double
}.

Definition set_Pos_x (v : Z) (d : ovrEyeRenderDesc) : ovrEyeRenderDesc :=
  {| Eye := Eye d; Fov := Fov d;
     DistortedViewport :=
       {| Pos := {| ix := v; iy := iy (Pos (DistortedViewport d)) |};
          Size := Size (DistortedViewport d) |};
     PixelsPerTanAngleAtCenter := PixelsPerTanAngleAtCenter d;
     HmdToEyeViewOffset := HmdToEyeViewOffset d |}.
Definition set_Pos_y (v : Z) (d : ovrEyeRenderDesc) : ovrEyeRenderDesc :=
  {| Eye := Eye d; Fov := Fov d;
     DistortedViewport :=
       {| Pos := {| ix := ix (Pos (DistortedViewport d)); iy := v |};
          Size := Size (DistortedViewport d) |};
     PixelsPerTanAngleAtCenter := PixelsPerTanAngleAtCenter d;
     HmdToEyeViewOffset := HmdToEyeViewOffset d |}.
Definition set_Size_w (v : Z) (d : ovrEyeRenderDesc) : ovrEyeRenderDesc :=
  {| Eye := Eye d; Fov := Fov d;
     DistortedViewport :=
       {| Pos := Pos (DistortedViewport d);
          Size := {| w := v; h := h (Size (DistortedViewport d)) |} |};
     PixelsPerTanAngleAtCenter := PixelsPerTanAngleAtCenter d;
     HmdToEyeViewOffset := HmdToEyeViewOffset d |}.
Definition set_Size_h (v : Z) (d : ovrEyeRenderDesc) : ovrEyeRenderDesc :=
  {| Eye := Eye d; Fov := Fov d;
     DistortedViewport :=
       {| Pos := Pos (DistortedViewport d);
          Size := {| w := w (Size (DistortedViewport d)); h := v |} |};
     PixelsPerTanAngleAtCenter := PixelsPerTanAngleAtCenter d;
     HmdToEyeViewOffset := HmdToEyeViewOffset d |}.

(** [oculus->eyeRenderDesc[eyeIndex].field = v] *)
Definition update_desc (i eyeIndex : Z) (f : ovrEyeRenderDesc -> ovrEyeRenderDesc)
  : Cmd unit :=
  modify (fun g =>
    update_slot i (set_eyeRenderDesc eyeIndex (f (get2 (eyeRenderDesc (slot g i)) eyeIndex))) g).

(** The optional 'fov' argument is the matrix the host passes, given by its
    [n * m * p] elements. *)
Definition PSYCHOCULUSVRGetFovTextureSize (handle eyeIndex : Z)
  (fovArg : option (list double)) (pixelsPerDisplayArg : option double)
  : Cmd FovTextureSizeResult :=
  PsychOculusVRCheckInit ;;
  oculus <- PsychGetOculus handle false ;;
  match oculus with
  | None => fault
  | Some i =>
      when ((eyeIndex <? 0) || (eyeIndex >? 1))
           (PsychErrorExitMsg PsychError_user
              "Invalid 'eye' specified. Must be 0 or 1 for left- or right eye.") ;;
      g <- get ;;
      ofov <- match fovArg with
              | Some fov =>
                  when (negb (Z.of_nat (length fov) =? 4))
                       (PsychErrorExitMsg PsychError_user
                          "Invalid 'fov' specified. Must be a 4-component vector of form [leftdeg, rightdeg, updeg, downdeg].") ;;
                  ret {| LeftTan := c_tan sdk (deg2rad (nth 0 fov 0%float));
                         RightTan := c_tan sdk (deg2rad (nth 1 fov 0%float));
                         UpTan := c_tan sdk (deg2rad (nth 2 fov 0%float));
                         DownTan := c_tan sdk (deg2rad (nth 3 fov 0%float)) |}
              | None => ret (hmd_DefaultEyeFov sdk (hmd (slot g i)) eyeIndex)
              end ;;
      let pixelsPerDisplay := default 1%float pixelsPerDisplayArg in
      when (pixelsPerDisplay <=? 0)%float
           (PsychErrorExitMsg PsychError_user
              "Invalid 'pixelsPerDisplay' specified. Must be greater than zero.") ;;
      size <- ovrHmd_GetFovTextureSize (hmd (slot g i)) eyeIndex ofov pixelsPerDisplay ;;
      modify (update_slot i (set_texSize size)) ;;
      modify (update_slot i (fun d => set_texSize {| w := 1680; h := h (texSize d) |} d)) ;;
      modify (update_slot i (fun d => set_texSize {| w := w (texSize d); h := 1050 |} d)) ;;
      modify (update_slot i (fun d => set_texSize {| w := 1080; h := h (texSize d) |} d)) ;;
      modify (update_slot i (fun d => set_texSize {| w := w (texSize d); h := 1920 |} d)) ;;
      g <- get ;;
      let width := w (texSize (slot g i)) in
      let height := h (texSize (slot g i)) in
      desc <- ovrHmd_GetRenderDesc (hmd (slot g i)) eyeIndex ofov ;;
      modify (update_slot i (set_eyeRenderDesc eyeIndex desc)) ;;
      update_desc i eyeIndex (set_Pos_x 0) ;;
      update_desc i eyeIndex (set_Pos_y 0) ;;
      update_desc i eyeIndex (set_Size_w width) ;;
      update_desc i eyeIndex (set_Size_h height) ;;
      g <- get ;;
      let rd := get2 (eyeRenderDesc (slot g i)) eyeIndex in
      let distortionCaps := 0 in
      r <- ovrHmd_CreateDistortionMesh (hmd (slot g i)) (Eye rd) (Fov rd) distortionCaps
             (get2 (eyeDistortionMesh (slot g i)) eyeIndex) ;;
      modify (update_slot i (set_eyeDistortionMesh eyeIndex (snd r))) ;;
      when (negb (fst r))
           (PsychErrorExitMsg PsychError_system
              "Failed to compute distortion mesh for eye.") ;;
      g <- get ;;
      let mesh := get2 (eyeDistortionMesh (slot g i)) eyeIndex in
      vs <- read_buffer (mem_vertices sdk (pVertexData mesh)) (VertexCount mesh) ;;
      let outVertexMesh := vertex_loop vs in
      outIndexMesh <- read_buffer (mem_indices sdk (pIndexData mesh)) (IndexCount mesh) ;;
      uv <- ovrHmd_GetRenderScaleAndOffset (Fov rd) (texSize (slot g i))
              (DistortedViewport rd) ;;
      modify (update_slot i (set_UVScaleOffset eyeIndex uv)) ;;
      let eye := hmd_EyeRenderOrder sdk (hmd (slot g i)) eyeIndex in
      pose <- ovrHmd_GetHmdPosePerEye (hmd (slot g i)) eye ;;
      (if (eye <? 0) || (eye >? 1) then fault
       else modify (update_slot i (set_headPose eye pose))) ;;
      g <- get ;;
      tw <- ovrHmd_GetEyeTimewarpMatrices (hmd (slot g i)) eyeIndex
              (get2 (headPose (slot g i)) eyeIndex) ;;
      modify (update_slot i (set_timeWarpMatrices tw)) ;;
      ret {| out_width := width; out_height := height;
             out_viewPx := ix (Pos (DistortedViewport rd));
             out_viewPy := iy (Pos (DistortedViewport rd));
             out_viewPw := w (Size (DistortedViewport rd));
             out_viewPh := h (Size (DistortedViewport rd));
             out_pptax := x2 (PixelsPerTanAngleAtCenter rd);
             out_pptay := y2 (PixelsPerTanAngleAtCenter rd);
             out_hmdShiftx := x3 (HmdToEyeViewOffset rd);
             out_hmdShifty := y3 (HmdToEyeViewOffset rd);
             out_hmdShiftz := z3 (HmdToEyeViewOffset rd);
             out_meshVertices := outVertexMesh;
             out_meshIndices := outIndexMesh;
             out_uvScaleX := x2 (fst uv); out_uvScaleY := y2 (fst uv);
             out_uvOffsetX := x2 (snd uv); out_uvOffsetY := y2 (snd uv);
             out_eyeRotStartMatrix := M (fst tw);
             out_eyeRotEndMatrix := M (snd tw) |}
  end.

End Driver.

(** ** Requests of the host *)

Inductive Request : Type :=
| GetCount
| Open (deviceIndex : option Z)
| Close (handle : option Z)
| Start (handle : Z)
| Stop (handle : Z)
| GetTrackingState (handle : Z) (predictionTime : option double)
| GetFovTextureSize (handle eye : Z) (fov : option (list double))
    (pixelsPerDisplay : option double).

Definition discard {A : Type} (c : Cmd A) : Cmd unit := _ <- c ;; ret tt.

Definition dispatch (sdk : Sdk) (r : Request) : Cmd unit :=
  match r with
  | GetCount => discard (PSYCHOCULUSVRGetCount sdk)
  | Open deviceIndex => discard (PSYCHOCULUSVROpen sdk deviceIndex)
  | Close handle => PSYCHOCULUSVRClose sdk handle
  | Start handle => PSYCHOCULUSVRStart sdk handle
  | Stop handle => PSYCHOCULUSVRStop sdk handle
  | GetTrackingState handle t => discard (PSYCHOCULUSVRGetTrackingState sdk handle t)
  | GetFovTextureSize handle eye fov ppd =>
      discard (PSYCHOCULUSVRGetFovTextureSize sdk handle eye fov ppd)
  end.

(** The registry after module load. *)
Definition loaded : Globals := globals (PsychOculusVRInit startup).

(** States the driver can be in: after module load, and after any request
    that returned to the host (normally or through an error exit),
    whatever the SDK answered. *)
Inductive reachable : Globals -> Prop :=
| reachable_loaded : reachable loaded
| reachable_request (g : Globals) (sdk : Sdk) (r : Request) :
    reachable g ->
    outcome (dispatch sdk r g) <> Fault ->
    reachable (globals (dispatch sdk r g)).

(** Running a list of requests, each with the SDK's answers during it. *)
Fixpoint run_requests (l : list (Sdk * Request)) (g : Globals) : Globals :=
  match l with
  | [] => g
  | (sdk, r) :: l' => run_requests l' (globals (dispatch sdk r g))
  end.

(** A handle designates an open device. *)
Definition is_open (g : Globals) (handle : Z) : Prop :=
  1 <= handle <= MAX_PSYCH_OCULUS_DEVS /\ hmd (slot g (handle - 1)) <> NULL.

(** The table is [PsychOculusDevice oculusdevices[MAX_PSYCH_OCULUS_DEVS]]
    and [devicecount] an [unsigned int]. *)
Definition well_typed (g : Globals) : Prop :=
  length (oculusdevices g) = Z.to_nat MAX_PSYCH_OCULUS_DEVS /\
  0 <= devicecount g < UINT_MOD.

(** [PsychOculusVRCheckInit] returns: the runtime is up already, or the SDK
    agrees to start. *)
Definition runtime_starts (sdk : Sdk) (g : Globals) : Prop :=
  initialized g = true \/ sdk_Initialize sdk = true.

(** *** A sample SDK: one attached headset; devices and meshes are created at
    the given addresses, every request is granted.  The enumerators have the
    values of the header of SDK 0.5; no property depends on them. *)
Definition sample_state : ovrTrackingState :=
  {| HeadPose :=
       {| ThePose := {| Orientation := {| qx := 0; qy := 0; qz := 0; qw := 1 |};
                        Position := {| x3 := 1; y3 := 2; z3 := 3 |} |};
          AngularVelocity := {| x3 := 4; y3 := 5; z3 := 6 |};
          LinearVelocity := {| x3 := 7; y3 := 8; z3 := 9 |};
          AngularAcceleration := {| x3 := 10; y3 := 11; z3 := 12 |};
          LinearAcceleration := {| x3 := 13; y3 := 14; z3 := 15 |};
          TimeInSeconds := 0.5%float |};
     StatusFlags := 0; LastCameraFrameCounter := 0 |}.

Definition sample_vertex : ovrDistortionVertex :=
  {| ScreenPosNDC := {| x2 := 0.25; y2 := 0.5 |};
     TimeWarpFactor := 0.75; VignetteFactor := 1;
     TanEyeAnglesR := {| x2 := 2; y2 := 3 |};
     TanEyeAnglesG := {| x2 := 4; y2 := 5 |};
     TanEyeAnglesB := {| x2 := 6; y2 := 7 |} |}.

Definition sample_sdk (device mesh : Z) : Sdk :=
  {| ovrHmd_DK2 := 6;
     ovrTrackingCap_Orientation := 16;
     ovrTrackingCap_MagYawCorrection := 32;
     ovrTrackingCap_Position := 64;
     sdk_Initialize := true;
     sdk_Detect_at_init := 1;
     sdk_Detect := 1;
     sdk_Create := fun _ => device;
     sdk_CreateDebug := fun _ => device;
     sdk_ConfigureTracking := fun _ _ _ => true;
     sdk_GetTrackingState := fun _ _ => sample_state;
     sdk_GetFovTextureSize := fun _ _ _ _ => {| w := 1182; h := 1464 |};
     sdk_GetRenderDesc := fun _ eye fov =>
       {| Eye := eye; Fov := fov;
          DistortedViewport := {| Pos := {| ix := 0; iy := 0 |};
                                  Size := {| w := 960; h := 1080 |} |};
          PixelsPerTanAngleAtCenter := zero_v2; HmdToEyeViewOffset := zero_v3 |};
     sdk_CreateDistortionMesh := fun _ _ _ _ _ =>
       (true, {| pVertexData := mesh; pIndexData := mesh + 1;
                 VertexCount := 3; IndexCount := 3 |});
     sdk_DestroyDistortionMesh := fun _ => zero_mesh;
     sdk_GetRenderScaleAndOffset := fun _ _ _ => (zero_v2, zero_v2);
     sdk_GetHmdPosePerEye := fun _ _ => zero_pose;
     sdk_GetEyeTimewarpMatrices := fun _ _ _ => (zero_matrix, zero_matrix);
     hmd_DefaultEyeFov := fun _ _ => zero_fov;
     hmd_EyeRenderOrder := fun _ eye => eye;
     mem_vertices := fun _ => [sample_vertex; sample_vertex; sample_vertex];
     mem_indices := fun _ => [0; 1; 2];
     c_tan := fun x => x |}.

(** ** The synopsis of the module *)

Definition MAX_SYNOPSIS_STRINGS : Z := 40.

(** [static const char *synopsisSYNOPSIS[MAX_SYNOPSIS_STRINGS]]; a [NULL]
    entry is [None]. *)
Definition Synopsis : Type := list (option string).

(** The character '\n'. *)
Definition newline : string :=
  String (Ascii.Ascii false true false true false false false false) EmptyString.

(** The right-hand sides of the assignments of [InitializeSynopsis], in
    order. *)
Definition usage : list (option string) :=
  [ Some ("PsychOculusVRCore - A Psychtoolbox driver for Oculus VR hardware." ++ newline)%string;
    Some ("This driver allows to control Oculus Rift DK1/DK2 and future Oculus devices." ++ newline)%string;
    Some "The PsychOculusVRCore driver is licensed to you under the terms of the MIT license."%string;
    Some ("See 'help License.txt' in the Psychtoolbox root folder for more details." ++ newline)%string;
    Some newline;
    Some "Usage:"%string;
    Some newline;
    Some "numHMDs = PsychOculusVRCore('GetCount');"%string;
    Some "oculusPtr = PsychOculusVRCore('Open' [, deviceIndex=0]);"%string;
    Some "PsychOculusVRCore('Close' [, oculusPtr]);"%string;
    Some "PsychOculusVRCore('Start', oculusPtr);"%string;
    Some "PsychOculusVRCore('Stop', oculusPtr);"%string;
    Some "state = PsychOculusVRCore('GetTrackingState', oculusPtr [, predictionTime=0]);"%string;
    Some "[width, height] = PsychOculusVRCore('GetFovTextureSize', oculusPtr, eye [, fov=[45,45,45,45]][, pixelsPerDisplay=1]);"%string;
    None ].

(** [synopsis[i++] = s;] *)
Definition put (st : Synopsis * Z) (s : option string) : Synopsis * Z :=
  (<[Z.to_nat (snd st) := s]> (fst st), snd st + 1).

(** The table after the assignments; [None] when the check of the size
    ends the program through [PrintfExit]. *)
Definition InitializeSynopsis (synopsisSYNOPSIS : Synopsis) : option Synopsis :=
  let st := fold_left put usage (synopsisSYNOPSIS, 0) in
  if snd st >? MAX_SYNOPSIS_STRINGS then None else Some (fst st).

(** [for (i = 0; synopsisSYNOPSIS[i] != NULL; i++) printf("%s\n", synopsisSYNOPSIS[i]);]
    on the table from entry [i] on: the strings printed, or [None] when the
    loop reads beyond the last entry of the table. *)
Fixpoint PsychOculusVRDisplaySynopsis (synopsisSYNOPSIS : Synopsis)
  : option (list string) :=
  match synopsisSYNOPSIS with
  | [] => None
  | None :: _ => Some []
  | Some s :: rest =>
      match PsychOculusVRDisplaySynopsis rest with
      | Some out => Some ((s ++ newline)%string :: out)
      | None => None
      end
  end.

(** ** Vocabulary of the properties *)

(** A handle that designates no open device. *)
Definition not_open (g : Globals) (handle : Z) : Prop :=
  handle < 1 \/ handle > MAX_PSYCH_OCULUS_DEVS \/ hmd (slot g (handle - 1)) = NULL.

(** The state in which a subfunction goes on after
    [PsychOculusVRCheckInit]. *)
Definition checked (sdk : Sdk) (g : Globals) : Globals :=
  globals (PsychOculusVRCheckInit sdk g).

(** The request ended in the user error of [PsychGetOculus], and did
    nothing besides the initialisation check. *)
Definition rejected_as_invalid {A : Type} (sdk : Sdk) (g : Globals) (r : Run A) : Prop :=
  outcome r = ErrorExit PsychError_user "Invalid Oculus handle." /\
  globals r = checked sdk g /\
  calls r = calls (PsychOculusVRCheckInit sdk g).

(** The request returned normally, and did nothing besides the
    initialisation check. *)
Definition silently_ignored (sdk : Sdk) (g : Globals) (r : Run unit) : Prop :=
  outcome r = Done tt /\
  globals r = checked sdk g /\
  calls r = calls (PsychOculusVRCheckInit sdk g).

(** The slot 'Open' would claim: the first one whose [hmd] is [NULL]. *)
Definition first_free (g : Globals) (k : Z) : Prop :=
  0 <= k < MAX_PSYCH_OCULUS_DEVS /\
  hmd (slot g k) = NULL /\
  forall j, 0 <= j < k -> hmd (slot g j) <> NULL.

(** A run with further calls logged in front of it. *)
Definition logged {A : Type} (l : list SdkCall) (r : Run A) : Run A :=
  {| outcome := outcome r; globals := globals r; calls := l ++ calls r |}.

(** The device index the caller asked for, and the pointer the SDK
    answers for it. *)
Definition created (sdk : Sdk) (deviceIndex : Z) : ovrHmd :=
  if deviceIndex >=? 0 then sdk_Create sdk deviceIndex
  else sdk_CreateDebug sdk (ovrHmd_DK2 sdk).

(** The call of 'Open' that builds the device. *)
Definition create_call (sdk : Sdk) (deviceIndex : Z) : SdkCall :=
  if deviceIndex >=? 0 then Call_ovrHmd_Create deviceIndex
  else Call_ovrHmd_CreateDebug (ovrHmd_DK2 sdk).

(** The index passes the argument checks of 'Open' and the SDK hands out
    a device for it. *)
Definition admits (sdk : Sdk) (arg : option Z) : Prop :=
  -1 <= default 0 arg /\
  (0 <= default 0 arg -> default 0 arg < clamp_detected (sdk_Detect sdk)) /\
  created sdk (default 0 arg) <> NULL.

(** The registry after a successful 'Open' into slot [k]. *)
Definition after_open (sdk : Sdk) (arg : option Z) (k : Z) (g : Globals) : Globals :=
  let g1 := with_available (clamp_detected (sdk_Detect sdk)) (checked sdk g) in
  let g2 := update_slot k (fun _ => zero_device) g1 in
  let g3 := update_slot k (set_hmd (created sdk (default 0 arg))) g2 in
  with_devicecount ((devicecount g3 + 1) mod UINT_MOD) g3.

(** The SDK grants the stop of tracking that closing [handle] asks for. *)
Definition stop_granted (sdk : Sdk) (g : Globals) (handle : Z) : Prop :=
  isTracking (slot g (handle - 1)) = true ->
  sdk_ConfigureTracking sdk (hmd (slot g (handle - 1))) 0 0 = true.

(** What closing [handle] in [g] leaves behind. *)
Definition closed_from (g : Globals) (handle : Z) (g' : Globals) : Prop :=
  hmd (slot g' (handle - 1)) = NULL /\
  isTracking (slot g' (handle - 1)) = false /\
  (forall j, 0 <= j -> j <> handle - 1 -> slot g' j = slot g j) /\
  devicecount g' = (devicecount g - 1) mod UINT_MOD /\
  available_devices g' = available_devices g /\
  initialized g' = initialized g /\
  well_typed g'.

(** Successive 'Open' requests, each with the SDK's answers during it. *)
Fixpoint open_each (l : list (Sdk * option Z)) (g : Globals)
  : list (Outcome Z) * Globals :=
  match l with
  | [] => ([], g)
  | (sdk, arg) :: l' =>
      let r := PSYCHOCULUSVROpen sdk arg g in
      let rest := open_each l' (globals r) in
      (outcome r :: fst rest, snd rest)
  end.

(** The first [n] slots hold a device, the others are free. *)
Definition filled (n : nat) (g : Globals) : Prop :=
  well_typed g /\
  (forall j, 0 <= j < Z.of_nat n -> hmd (slot g j) <> NULL) /\
  (forall j, Z.of_nat n <= j < MAX_PSYCH_OCULUS_DEVS -> hmd (slot g j) = NULL).

(** Ten requests for an emulated device, built at the addresses 101 to 110. *)
Definition ten_opens : list (Sdk * option Z) :=
  map (fun p => (sample_sdk p 200, Some (-1)))
      [101; 102; 103; 104; 105; 106; 107; 108; 109; 110].

(** The capabilities 'Start' asks for. *)
Definition start_caps (sdk : Sdk) : Z :=
  Z.lor (Z.lor (ovrTrackingCap_Orientation sdk) (ovrTrackingCap_MagYawCorrection sdk))
        (ovrTrackingCap_Position sdk).

(** On the emulated headset opened as handle 1, which is not tracking. *)
Definition one_open : Globals :=
  globals (PSYCHOCULUSVROpen (sample_sdk 100 200) (Some (-1)) loaded).

(** The mesh of an eye, as cached in the record of a handle. *)
Definition cached_mesh (g : Globals) (handle eye : Z) : ovrDistortionMesh :=
  get2 (eyeDistortionMesh (slot g (handle - 1))) eye.

(** The calls of a list of requests, in order. *)
Fixpoint calls_of_requests (l : list (Sdk * Request)) (g : Globals) : list SdkCall :=
  match l with
  | [] => []
  | (sdk, r) :: l' =>
      calls (dispatch sdk r g) ++ calls_of_requests l' (globals (dispatch sdk r g))
  end.

(** Vertex buffers the SDK handed out, and vertex buffers handed back. *)
Fixpoint acquired (l : list SdkCall) : list Z :=
  match l with
  | [] => []
  | Call_ovrHmd_CreateDistortionMesh _ _ _ _ _ after :: l' => pVertexData after :: acquired l'
  | _ :: l' => acquired l'
  end.

Fixpoint released (l : list SdkCall) : list Z :=
  match l with
  | [] => []
  | Call_ovrHmd_DestroyDistortionMesh mesh :: l' => pVertexData mesh :: released l'
  | _ :: l' => released l'
  end.

(** Meshes overwritten while the record still held a buffer. *)
Fixpoint overwritten (l : list SdkCall) : list Z :=
  match l with
  | [] => []
  | Call_ovrHmd_CreateDistortionMesh _ _ _ _ before _ :: l' =>
      if pVertexData before =? NULL then overwritten l'
      else pVertexData before :: overwritten l'
  | _ :: l' => overwritten l'
  end.

(** 'Open' of the emulated headset, 'GetFovTextureSize' for the left eye
    twice (the SDK builds the meshes at 200 and at 300), then 'Close'. *)
Definition mesh_twice : list (Sdk * Request) :=
  [ (sample_sdk 100 200, Open (Some (-1)));
    (sample_sdk 100 200, GetFovTextureSize 1 0 None None);
    (sample_sdk 100 300, GetFovTextureSize 1 0 None None);
    (sample_sdk 100 300, Close (Some 1)) ].

(** The test of [PsychGetOculus], as a boolean. *)
Definition handle_open (g : Globals) (handle : Z) : bool :=
  negb ((handle <? 1) || (handle >? MAX_PSYCH_OCULUS_DEVS)
        || (hmd (slot g (handle - 1)) =? NULL)).

(** The number of open handles among [lo], ..., [lo + n - 1]. *)
Fixpoint open_between (g : Globals) (lo : Z) (n : nat) : Z :=
  match n with
  | O => 0
  | S n' => (if handle_open g lo then 1 else 0) + open_between g (lo + 1) n'
  end.

(** What a shutdown started in [g] leaves behind.  The loop of
    [PsychOculusVRShutDown] visits the handles up to 9. *)
Definition shut_down_from (g g' : Globals) : Prop :=
  initialized g' = false /\
  (forall h, h <= 9 -> not_open g' h) /\
  (not_open g 10 -> forall h, not_open g' h) /\
  devicecount g' = (devicecount g - open_between g 1 9) mod UINT_MOD /\
  (not_open g 10 -> devicecount g = open_between g 1 10 -> devicecount g' = 0) /\
  available_devices g' = available_devices g.

(** The attached headset opened as handle 1. *)
Definition one_real : Globals :=
  globals (dispatch (sample_sdk 100 200) (Open None) loaded).

(** A command keeps [I] whatever its outcome. *)
Definition keeps {A : Type} (I : Globals -> Prop) (c : Cmd A) : Prop :=
  forall g, I g -> I (globals (c g)).

(** *** Vocabulary of the further properties *)

(** The message of [PsychOculusVRCheckInit] when the runtime does not
    start. *)
Definition runtime_failed_msg : string :=
  "PsychOculusVRCore-ERROR: Initialization of VR runtime failed. Driver disabled!".

(** The sample SDK with some of its answers changed. *)
Definition answering (init : bool) (detect : Z) (create : ovrHmd) (configure : bool)
  (mesh_ok : bool) (base : Sdk) : Sdk :=
  {| ovrHmd_DK2 := ovrHmd_DK2 base;
     ovrTrackingCap_Orientation := ovrTrackingCap_Orientation base;
     ovrTrackingCap_MagYawCorrection := ovrTrackingCap_MagYawCorrection base;
     ovrTrackingCap_Position := ovrTrackingCap_Position base;
     sdk_Initialize := init;
     sdk_Detect_at_init := detect;
     sdk_Detect := detect;
     sdk_Create := fun _ => create;
     sdk_CreateDebug := sdk_CreateDebug base;
     sdk_ConfigureTracking := fun _ _ _ => configure;
     sdk_GetTrackingState := sdk_GetTrackingState base;
     sdk_GetFovTextureSize := sdk_GetFovTextureSize base;
     sdk_GetRenderDesc := sdk_GetRenderDesc base;
     sdk_CreateDistortionMesh := fun p e f c m =>
       (mesh_ok, snd (sdk_CreateDistortionMesh base p e f c m));
     sdk_DestroyDistortionMesh := sdk_DestroyDistortionMesh base;
     sdk_GetRenderScaleAndOffset := sdk_GetRenderScaleAndOffset base;
     sdk_GetHmdPosePerEye := sdk_GetHmdPosePerEye base;
     sdk_GetEyeTimewarpMatrices := sdk_GetEyeTimewarpMatrices base;
     hmd_DefaultEyeFov := hmd_DefaultEyeFov base;
     hmd_EyeRenderOrder := hmd_EyeRenderOrder base;
     mem_vertices := mem_vertices base;
     mem_indices := mem_indices base;
     c_tan := c_tan base |}.

(** The SDK refuses to start the runtime. *)
Definition no_runtime : Sdk := answering false 1 100 true true (sample_sdk 100 200).

(** The SDK's server process cannot be reached: detection answers -1. *)
Definition no_server : Sdk := answering true (-1) 100 true true (sample_sdk 100 200).

(** The headset is in use elsewhere: [ovrHmd_Create] answers [NULL]. *)
Definition in_use : Sdk := answering true 1 NULL true true (sample_sdk 100 200).

(** The SDK refuses every change of tracking. *)
Definition refusing : Sdk := answering true 1 100 false true (sample_sdk 100 200).

(** The emulated headset opened as handle 1 and tracking. *)
Definition one_tracking : Globals :=
  globals (PSYCHOCULUSVRStart (sample_sdk 100 200) 1 one_open).

(** The calls by which [PsychOculusClose] stops the tracking of a handle
    and releases the mesh of one of its eyes. *)
Definition stop_calls (g : Globals) (handle : Z) : list SdkCall :=
  if isTracking (slot g (handle - 1))
  then [Call_ovrHmd_ConfigureTracking (hmd (slot g (handle - 1))) 0 0]
  else [].

Definition release_calls (g : Globals) (handle eye : Z) : list SdkCall :=
  if pVertexData (cached_mesh g handle eye) =? NULL then []
  else [Call_ovrHmd_DestroyDistortionMesh (cached_mesh g handle eye)].

(** Handle 1 open, tracking, and holding the mesh of the left eye. *)
Definition one_busy : Globals :=
  run_requests [ (sample_sdk 100 200, Open (Some (-1)));
                 (sample_sdk 100 200, Start 1);
                 (sample_sdk 100 200, GetFovTextureSize 1 0 None None) ] loaded.

(** The count of open devices is the number of open handles. *)
Definition counted (g : Globals) : Prop :=
  devicecount g = open_between g 1 (Z.to_nat MAX_PSYCH_OCULUS_DEVS).

(** No free slot is marked as tracking. *)
Definition idle_when_closed (g : Globals) : Prop :=
  forall j, 0 <= j -> hmd (slot g j) = NULL -> isTracking (slot g j) = false.

(** What every request keeps. *)
Definition sound (g : Globals) : Prop :=
  well_typed g /\ counted g /\ idle_when_closed g.

(** Every call a command makes to the SDK satisfies [P], whatever its
    outcome. *)
Definition emits {A : Type} (P : SdkCall -> Prop) (c : Cmd A) : Prop :=
  forall g, Forall P (calls (c g)).

(** Calls that end the life of an object of the SDK. *)
Definition releases (c : SdkCall) : bool :=
  match c with
  | Call_ovr_Shutdown | Call_ovrHmd_Destroy _ | Call_ovrHmd_DestroyDistortionMesh _ => true
  | _ => false
  end.

(** Handles 1 and 2 open, handle 2 tracking. *)
Definition two_open : Globals :=
  run_requests [ (sample_sdk 100 200, Open (Some (-1)));
                 (sample_sdk 101 200, Open (Some (-1)));
                 (sample_sdk 100 200, Start 2) ] loaded.

(** The field of view 'GetFovTextureSize' works with: the tangents of the
    four angles of the 'fov' argument, or the default of the headset. *)
Definition fov_port (sdk : Sdk) (p : ovrHmd) (eye : Z) (fovArg : option (list double))
  : ovrFovPort :=
  match fovArg with
  | Some fov => {| LeftTan := c_tan sdk (deg2rad (nth 0 fov 0%float));
                   RightTan := c_tan sdk (deg2rad (nth 1 fov 0%float));
                   UpTan := c_tan sdk (deg2rad (nth 2 fov 0%float));
                   DownTan := c_tan sdk (deg2rad (nth 3 fov 0%float)) |}
  | None => hmd_DefaultEyeFov sdk p eye
  end.

(** The size and the viewport 'GetFovTextureSize' settles on. *)
Definition fixed_size : ovrSizei := {| w := 1080; h := 1920 |}.
Definition fixed_viewport : ovrRecti := {| Pos := {| ix := 0; iy := 0 |}; Size := fixed_size |}.

(** The head pose 'GetFovTextureSize' hands to [ovrHmd_GetEyeTimewarpMatrices]
    for [eye] on the device [d] at [p]. *)
Definition timewarp_pose (sdk : Sdk) (d : PsychOculusDevice) (eye : Z) : ovrPosef :=
  let order := hmd_EyeRenderOrder sdk (hmd d) eye in
  if order =? eye then sdk_GetHmdPosePerEye sdk (hmd d) order
  else get2 (headPose d) eye.

(** The SDK reports a failure when asked for a distortion mesh. *)
Definition no_mesh : Sdk :=
  answering true 1 100 true false (sample_sdk 100 200).

(** The calls by which [PsychOculusClose] closes a handle, and those of
    closing the handles [lo], ..., [lo + n - 1] in turn. *)
Definition close_calls (g : Globals) (handle : Z) : list SdkCall :=
  if handle_open g handle then
    stop_calls g handle ++ release_calls g handle 0 ++ release_calls g handle 1
    ++ [Call_ovrHmd_Destroy (hmd (slot g (handle - 1)))]
  else [].

Fixpoint close_calls_between (g : Globals) (lo : Z) (n : nat) : list SdkCall :=
  match n with
  | O => []
  | S n' => close_calls g lo ++ close_calls_between g (lo + 1) n'
  end.

(** ** Properties *)

(** *** The table *)

Lemma slot_update_slot_same (g : Globals) (i : Z) (f : PsychOculusDevice -> PsychOculusDevice) :
  (Z.to_nat i < length (oculusdevices g))%nat ->
  slot (update_slot i f g) i = f (slot g i).
Proof.
  intros Hi. unfold slot at 1, update_slot. simpl.
  rewrite list_lookup_insert_eq by exact Hi. reflexivity.
Qed.

Lemma slot_update_slot_other (g : Globals) (i j : Z) (f : PsychOculusDevice -> PsychOculusDevice) :
  Z.to_nat i <> Z.to_nat j ->
  slot (update_slot i f g) j = slot g j.
Proof.
  intros Hij. unfold slot, update_slot. simpl.
  rewrite list_lookup_insert_ne by exact Hij. reflexivity.
Qed.

Lemma length_update_slot (g : Globals) (i : Z) (f : PsychOculusDevice -> PsychOculusDevice) :
  length (oculusdevices (update_slot i f g)) = length (oculusdevices g).
Proof. unfold update_slot. simpl. apply length_insert. Qed.

(** An update whose function keeps a field keeps it in every slot. *)
Lemma slot_update_slot_field {B : Type} (proj : PsychOculusDevice -> B)
  (g : Globals) (i j : Z) (f : PsychOculusDevice -> PsychOculusDevice) :
  (forall d, proj (f d) = proj d) ->
  proj (slot (update_slot i f g) j) = proj (slot g j).
Proof.
  intros Hf. unfold slot, update_slot. simpl.
  destruct (decide (Z.to_nat i = Z.to_nat j)) as [e | n].
  - rewrite <- e.
    destruct (decide (Z.to_nat i < length (oculusdevices g))%nat) as [Hlt | Hge].
    + rewrite list_lookup_insert_eq by exact Hlt. simpl. rewrite Hf. reflexivity.
    + rewrite list_insert_ge by lia. reflexivity.
  - rewrite list_lookup_insert_ne by exact n. reflexivity.
Qed.

(** *** Sequencing and handle resolution *)

Lemma bind_done {A B : Type} (m : Cmd A) (f : A -> Cmd B) (g : Globals) (a : A) :
  outcome (m g) = Done a ->
  bind m f g =
  {| outcome := outcome (f a (globals (m g)));
     globals := globals (f a (globals (m g)));
     calls := calls (m g) ++ calls (f a (globals (m g))) |}.
Proof. intros H. unfold bind. rewrite H. reflexivity. Qed.

Lemma bind_error {A B : Type} (m : Cmd A) (f : A -> Cmd B) (g : Globals)
  (e : PsychError) (msg : string) :
  outcome (m g) = ErrorExit e msg ->
  bind m f g =
  {| outcome := ErrorExit e msg; globals := globals (m g); calls := calls (m g) |}.
Proof. intros H. unfold bind. rewrite H. reflexivity. Qed.

Lemma not_open_test (g : Globals) (handle : Z) :
  not_open g handle ->
  (handle <? 1) || (handle >? MAX_PSYCH_OCULUS_DEVS)
  || (hmd (slot g (handle - 1)) =? NULL) = true.
Proof.
  intros [H | [H | H]].
  - apply Z.ltb_lt in H. rewrite H. reflexivity.
  - apply Z.gt_lt, Z.gtb_lt in H. rewrite H. apply orb_true_iff. left. apply orb_true_r.
  - apply Z.eqb_eq in H. rewrite H. apply orb_true_r.
Qed.

Lemma is_open_test (g : Globals) (handle : Z) :
  is_open g handle ->
  (handle <? 1) || (handle >? MAX_PSYCH_OCULUS_DEVS)
  || (hmd (slot g (handle - 1)) =? NULL) = false.
Proof.
  intros [[H1 H2] H3].
  apply Z.ltb_ge in H1. rewrite H1.
  assert ((handle >? MAX_PSYCH_OCULUS_DEVS) = false) as -> by (rewrite Z.gtb_ltb; apply Z.ltb_ge; exact H2).
  apply Z.eqb_neq in H3. rewrite H3. reflexivity.
Qed.

Lemma PsychGetOculus_not_open_fail (g : Globals) (handle : Z) :
  not_open g handle ->
  PsychGetOculus handle false g =
  {| outcome := ErrorExit PsychError_user "Invalid Oculus handle.";
     globals := g; calls := [] |}.
Proof.
  intros H. unfold PsychGetOculus, bind, get. simpl.
  rewrite (not_open_test _ _ H). reflexivity.
Qed.

Lemma PsychGetOculus_not_open_dontfail (g : Globals) (handle : Z) :
  not_open g handle ->
  PsychGetOculus handle true g = {| outcome := Done None; globals := g; calls := [] |}.
Proof.
  intros H. unfold PsychGetOculus, bind, get. simpl.
  rewrite (not_open_test _ _ H). reflexivity.
Qed.

Lemma PsychGetOculus_open (g : Globals) (handle : Z) (dontfail : bool) :
  is_open g handle ->
  PsychGetOculus handle dontfail g =
  {| outcome := Done (Some (handle - 1)); globals := g; calls := [] |}.
Proof.
  intros H. unfold PsychGetOculus, bind, get. simpl.
  rewrite (is_open_test _ _ H). reflexivity.
Qed.

(** *** Runtime initialisation *)

Lemma CheckInit_initialized (sdk : Sdk) (g : Globals) :
  initialized g = true ->
  PsychOculusVRCheckInit sdk g = {| outcome := Done tt; globals := g; calls := [] |}.
Proof. intros H. unfold PsychOculusVRCheckInit, bind, get. simpl. rewrite H. reflexivity. Qed.

Lemma CheckInit_starts (sdk : Sdk) (g : Globals) :
  runtime_starts sdk g -> outcome (PsychOculusVRCheckInit sdk g) = Done tt.
Proof.
  intros H. unfold PsychOculusVRCheckInit, bind, get. simpl.
  destruct (initialized g) eqn:Hi; [reflexivity |].
  destruct H as [H | H]; [congruence |].
  unfold ovr_Initialize, sdk_call. simpl. rewrite H. reflexivity.
Qed.

Lemma checked_table (sdk : Sdk) (g : Globals) :
  oculusdevices (checked sdk g) = oculusdevices g /\
  devicecount (checked sdk g) = devicecount g.
Proof.
  unfold checked, PsychOculusVRCheckInit, bind, get. simpl.
  destruct (initialized g); [split; reflexivity |].
  unfold ovr_Initialize, sdk_call. simpl.
  destruct (sdk_Initialize sdk); split; reflexivity.
Qed.

Lemma checked_initialized (sdk : Sdk) (g : Globals) :
  initialized g = true -> checked sdk g = g.
Proof. intros H. unfold checked. rewrite CheckInit_initialized by exact H. reflexivity. Qed.

Lemma checked_runtime_up (sdk : Sdk) (g : Globals) :
  runtime_starts sdk g -> initialized (checked sdk g) = true.
Proof.
  intros H. unfold checked, PsychOculusVRCheckInit, bind, get. simpl.
  destruct (initialized g) eqn:Hi; [exact Hi |].
  destruct H as [H | H]; [congruence |].
  unfold ovr_Initialize, sdk_call. simpl. rewrite H. reflexivity.
Qed.

Lemma slot_checked (sdk : Sdk) (g : Globals) (i : Z) :
  slot (checked sdk g) i = slot g i.
Proof. unfold slot. rewrite (proj1 (checked_table sdk g)). reflexivity. Qed.

Lemma not_open_checked (sdk : Sdk) (g : Globals) (handle : Z) :
  not_open g handle -> not_open (checked sdk g) handle.
Proof. unfold not_open. rewrite slot_checked. tauto. Qed.

Lemma is_open_checked (sdk : Sdk) (g : Globals) (handle : Z) :
  is_open g handle -> is_open (checked sdk g) handle.
Proof. unfold is_open. rewrite slot_checked. tauto. Qed.

(** After the initialisation check, a command runs in the checked state. *)
Lemma after_CheckInit {A : Type} (sdk : Sdk) (g : Globals) (c : Cmd A) :
  runtime_starts sdk g ->
  outcome ((PsychOculusVRCheckInit sdk ;; c) g) = outcome (c (checked sdk g)) /\
  globals ((PsychOculusVRCheckInit sdk ;; c) g) = globals (c (checked sdk g)) /\
  calls ((PsychOculusVRCheckInit sdk ;; c) g) =
    calls (PsychOculusVRCheckInit sdk g) ++ calls (c (checked sdk g)).
Proof.
  intros H. rewrite (bind_done _ _ g tt) by (apply CheckInit_starts; exact H).
  simpl. unfold checked. repeat split.
Qed.

(** *** Requests on a handle that is not open *)

Lemma rejected_after_CheckInit {A : Type} (sdk : Sdk) (g : Globals) (handle : Z)
  (k : option Z -> Cmd A) :
  not_open g handle -> runtime_starts sdk g ->
  rejected_as_invalid sdk g
    ((PsychOculusVRCheckInit sdk ;; oculus <- PsychGetOculus handle false ;; k oculus) g).
Proof.
  intros Hno Hrt.
  destruct (after_CheckInit sdk g (oculus <- PsychGetOculus handle false ;; k oculus) Hrt)
    as (Ho & Hg & Hc).
  unfold rejected_as_invalid. rewrite Ho, Hg, Hc.
  pose proof (PsychGetOculus_not_open_fail _ _ (not_open_checked sdk g handle Hno)) as Hget.
  rewrite (bind_error _ _ _ PsychError_user "Invalid Oculus handle.")
    by (rewrite Hget; reflexivity).
  rewrite Hget. simpl. rewrite app_nil_r. repeat split.
Qed.

Lemma PsychOculusStop_not_open (sdk : Sdk) (g : Globals) (handle : Z) :
  not_open g handle ->
  PsychOculusStop sdk handle g = {| outcome := Done tt; globals := g; calls := [] |}.
Proof.
  intros Hno. unfold PsychOculusStop.
  rewrite (bind_done _ _ _ None) by (rewrite PsychGetOculus_not_open_dontfail by exact Hno; reflexivity).
  rewrite PsychGetOculus_not_open_dontfail by exact Hno. reflexivity.
Qed.

Lemma PsychOculusClose_not_open (sdk : Sdk) (g : Globals) (handle : Z) :
  not_open g handle ->
  PsychOculusClose sdk handle g = {| outcome := Done tt; globals := g; calls := [] |}.
Proof.
  intros Hno. unfold PsychOculusClose.
  rewrite (bind_done _ _ _ None) by (rewrite PsychGetOculus_not_open_dontfail by exact Hno; reflexivity).
  rewrite PsychGetOculus_not_open_dontfail by exact Hno. reflexivity.
Qed.

(** C1 (as the driver has it): on a handle that is not open, and with the
    runtime up or starting, 'Start', 'GetTrackingState' and
    'GetFovTextureSize' end in the user error "Invalid Oculus handle.",
    while 'Stop' and 'Close' of a handle of at least 1 return normally;
    none of the five does anything besides the initialisation check, which
    leaves the device table and the count of open devices as they were (and
    the whole state when the runtime was up). *)
Theorem C1_requests_on_a_closed_handle (sdk : Sdk) (g : Globals) (handle : Z) :
  not_open g handle ->
  runtime_starts sdk g ->
  rejected_as_invalid sdk g (PSYCHOCULUSVRStart sdk handle g) /\
  (forall t, rejected_as_invalid sdk g (PSYCHOCULUSVRGetTrackingState sdk handle t g)) /\
  (forall eye fov ppd,
      rejected_as_invalid sdk g (PSYCHOCULUSVRGetFovTextureSize sdk handle eye fov ppd g)) /\
  silently_ignored sdk g (PSYCHOCULUSVRStop sdk handle g) /\
  (1 <= handle -> silently_ignored sdk g (PSYCHOCULUSVRClose sdk (Some handle) g)) /\
  oculusdevices (checked sdk g) = oculusdevices g /\
  devicecount (checked sdk g) = devicecount g /\
  (initialized g = true -> checked sdk g = g).
Proof.
  intros Hno Hrt.
  pose proof (not_open_checked sdk g handle Hno) as Hno'.
  split; [| split; [| split; [| split; [| split]]]].
  - apply rejected_after_CheckInit; assumption.
  - intros t. apply rejected_after_CheckInit; assumption.
  - intros eye fov ppd. apply rejected_after_CheckInit; assumption.
  - unfold PSYCHOCULUSVRStop, silently_ignored.
    destruct (after_CheckInit sdk g (PsychOculusStop sdk handle) Hrt) as (Ho & Hg & Hc).
    rewrite Ho, Hg, Hc, PsychOculusStop_not_open by exact Hno'.
    simpl. rewrite app_nil_r. repeat split.
  - intros Hge. unfold PSYCHOCULUSVRClose, silently_ignored. simpl.
    apply Z.geb_le in Hge. rewrite Hge.
    destruct (after_CheckInit sdk g (PsychOculusClose sdk handle) Hrt) as (Ho & Hg & Hc).
    rewrite Ho, Hg, Hc, PsychOculusClose_not_open by exact Hno'.
    simpl. rewrite app_nil_r. repeat split.
  - pose proof (checked_table sdk g) as [Ht Hd].
    split; [exact Ht | split; [exact Hd | apply checked_initialized]].
Qed.

(** At handle 5 of the freshly loaded driver, with the sample SDK. *)
Lemma C1_requests_on_a_closed_handle_witness :
  not_open loaded 5 /\
  runtime_starts (sample_sdk 100 200) loaded /\
  rejected_as_invalid (sample_sdk 100 200) loaded
    (PSYCHOCULUSVRStart (sample_sdk 100 200) 5 loaded) /\
  silently_ignored (sample_sdk 100 200) loaded
    (PSYCHOCULUSVRStop (sample_sdk 100 200) 5 loaded).
Proof.
  assert (Hno : not_open loaded 5) by (right; right; reflexivity).
  assert (Hrt : runtime_starts (sample_sdk 100 200) loaded) by (right; reflexivity).
  pose proof (C1_requests_on_a_closed_handle (sample_sdk 100 200) loaded 5 Hno Hrt)
    as (Hstart & _ & _ & Hstop & _).
  exact (conj Hno (conj Hrt (conj Hstart Hstop))).
Defined.

(** C1 as stated fails: 'Stop' and 'Close' on handle 5, which is not open,
    return normally instead of ending in a user error. *)
Lemma C1_stop_and_close_do_not_fail :
  not_open loaded 5 /\
  outcome (PSYCHOCULUSVRStop (sample_sdk 100 200) 5 loaded) = Done tt /\
  outcome (PSYCHOCULUSVRClose (sample_sdk 100 200) (Some 5) loaded) = Done tt /\
  ~ (exists msg, outcome (PSYCHOCULUSVRStop (sample_sdk 100 200) 5 loaded)
                 = ErrorExit PsychError_user msg).
Proof.
  split; [right; right; reflexivity |].
  split; [reflexivity |]. split; [reflexivity |].
  intros [msg H]. discriminate H.
Qed.

(** *** The search for a free slot *)

Lemma find_free_slot_spec (g : Globals) (fuel : nat) :
  forall s k, find_free_slot g s fuel = Some k ->
    s <= k /\
    (k < MAX_PSYCH_OCULUS_DEVS -> hmd (slot g k) = NULL) /\
    (forall j, s <= j < k -> j < MAX_PSYCH_OCULUS_DEVS /\ hmd (slot g j) <> NULL).
Proof.
  induction fuel as [| fuel IH]; intros s k; simpl;
    destruct ((s <? MAX_PSYCH_OCULUS_DEVS) && negb (hmd (slot g s) =? NULL)) eqn:Hc.
  - discriminate.
  - intros [= <-]. split; [lia |]. split; [| lia].
    intros Hlt. apply Z.ltb_lt in Hlt. rewrite Hlt in Hc. simpl in Hc.
    apply negb_false_iff, Z.eqb_eq in Hc. exact Hc.
  - intros Hk. apply IH in Hk. destruct Hk as (Hle & Hfree & Hocc).
    apply andb_true_iff in Hc. destruct Hc as [Hs Hh].
    apply Z.ltb_lt in Hs. apply negb_true_iff, Z.eqb_neq in Hh.
    split; [lia |]. split; [exact Hfree |].
    intros j Hj. destruct (Z.eq_dec j s) as [-> | Hne]; [split; assumption |].
    apply Hocc. lia.
  - intros [= <-]. split; [lia |]. split; [| lia].
    intros Hlt. apply Z.ltb_lt in Hlt. rewrite Hlt in Hc. simpl in Hc.
    apply negb_false_iff, Z.eqb_eq in Hc. exact Hc.
Qed.

(** The loop ends: at most [MAX_PSYCH_OCULUS_DEVS] increments from 0. *)
Lemma find_free_slot_ends (g : Globals) (fuel : nat) :
  forall s, MAX_PSYCH_OCULUS_DEVS <= s + Z.of_nat fuel ->
    exists k, find_free_slot g s fuel = Some k /\ k <= Z.max s MAX_PSYCH_OCULUS_DEVS.
Proof.
  induction fuel as [| fuel IH]; intros s Hs; simpl;
    destruct ((s <? MAX_PSYCH_OCULUS_DEVS) && negb (hmd (slot g s) =? NULL)) eqn:Hc.
  - apply andb_true_iff in Hc. destruct Hc as [Hlt _]. apply Z.ltb_lt in Hlt. lia.
  - exists s. split; [reflexivity | lia].
  - apply andb_true_iff in Hc. destruct Hc as [Hlt _]. apply Z.ltb_lt in Hlt.
    destruct (IH (s + 1)) as (k & Hk & Hle); [lia |].
    exists k. split; [exact Hk | lia].
  - exists s. split; [reflexivity | lia].
Qed.

Lemma find_free_slot_table (g g' : Globals) (fuel : nat) :
  oculusdevices g' = oculusdevices g ->
  forall s, find_free_slot g' s fuel = find_free_slot g s fuel.
Proof.
  intros Ht. induction fuel as [| fuel IH]; intros s; simpl;
    unfold slot; rewrite Ht; [reflexivity |].
  destruct ((s <? MAX_PSYCH_OCULUS_DEVS) &&
            negb (hmd (default zero_device (oculusdevices g !! Z.to_nat s)) =? NULL));
    [apply IH | reflexivity].
Qed.

Lemma find_free_slot_first_free (g : Globals) (k : Z) :
  first_free g k ->
  find_free_slot g 0 (Z.to_nat MAX_PSYCH_OCULUS_DEVS) = Some k.
Proof.
  intros (Hk & Hnull & Hocc).
  destruct (find_free_slot_ends g (Z.to_nat MAX_PSYCH_OCULUS_DEVS) 0) as (k' & Hk' & Hle);
    [unfold MAX_PSYCH_OCULUS_DEVS; lia |].
  rewrite Hk'. f_equal.
  destruct (find_free_slot_spec g _ _ _ Hk') as (H0 & Hfree & Hbefore).
  destruct (Z.lt_trichotomy k' k) as [Hlt | [Heq | Hgt]]; [| exact Heq |].
  - exfalso. apply (Hocc k'); [lia |]. apply Hfree. lia.
  - exfalso. destruct (Hbefore k) as [_ Hne]; [lia |]. apply Hne. exact Hnull.
Qed.

(** *** Symbolic execution of commands *)

Lemma bind_ret_eq {A B : Type} (a : A) (f : A -> Cmd B) (g : Globals) :
  bind (ret a) f g = f a g.
Proof. unfold bind, ret. simpl. destruct (f a g); reflexivity. Qed.

Lemma bind_get_eq {B : Type} (f : Globals -> Cmd B) (g : Globals) :
  bind get f g = f g g.
Proof. unfold bind, get. simpl. destruct (f g g); reflexivity. Qed.

Lemma bind_modify_eq {B : Type} (u : Globals -> Globals) (f : unit -> Cmd B) (g : Globals) :
  bind (modify u) f g = f tt (u g).
Proof. unfold bind, modify. simpl. destruct (f tt (u g)); reflexivity. Qed.

Lemma bind_sdk_call_eq {A B : Type} (c : SdkCall) (a : A) (f : A -> Cmd B) (g : Globals) :
  bind (sdk_call c a) f g = logged [c] (f a g).
Proof. reflexivity. Qed.

Lemma bind_error_eq {A B : Type} (e : PsychError) (msg : string) (f : A -> Cmd B) (g : Globals) :
  bind (PsychErrorExitMsg e msg) f g =
  {| outcome := ErrorExit e msg; globals := g; calls := [] |}.
Proof. reflexivity. Qed.

Lemma bind_fault_eq {A B : Type} (f : A -> Cmd B) (g : Globals) :
  bind fault f g = {| outcome := Fault; globals := g; calls := [] |}.
Proof. reflexivity. Qed.

Lemma bind_assoc_eq {A B C : Type} (m : Cmd A) (f : A -> Cmd B) (k : B -> Cmd C) (g : Globals) :
  bind (bind m f) k g = bind m (fun a => bind (f a) k) g.
Proof.
  unfold bind. destruct (m g) as [[a | e msg |] g1 l1]; simpl; try reflexivity.
  destruct (f a g1) as [[b | e msg |] g2 l2]; simpl; try reflexivity.
  rewrite app_assoc. reflexivity.
Qed.

Lemma outcome_logged {A : Type} (l : list SdkCall) (r : Run A) :
  outcome (logged l r) = outcome r.
Proof. reflexivity. Qed.

Lemma globals_logged {A : Type} (l : list SdkCall) (r : Run A) :
  globals (logged l r) = globals r.
Proof. reflexivity. Qed.

Lemma calls_logged {A : Type} (l : list SdkCall) (r : Run A) :
  calls (logged l r) = l ++ calls r.
Proof. reflexivity. Qed.

Ltac unfold_sdk :=
  unfold ovr_Initialize, ovr_Shutdown, ovrHmd_Detect_at_init, ovrHmd_Detect, ovrHmd_Create,
    ovrHmd_CreateDebug, ovrHmd_Destroy, ovrHmd_ConfigureTracking, ovrHmd_GetTrackingState,
    ovrHmd_GetFovTextureSize, ovrHmd_GetRenderDesc, ovrHmd_CreateDistortionMesh,
    ovrHmd_DestroyDistortionMesh, ovrHmd_GetRenderScaleAndOffset, ovrHmd_GetHmdPosePerEye,
    ovrHmd_GetEyeTimewarpMatrices, discard, update_desc, read_buffer.

(** One step of the command at the head of the goal. *)
Ltac step :=
  first [ rewrite bind_assoc_eq
        | rewrite bind_ret_eq
        | rewrite bind_get_eq
        | rewrite bind_modify_eq
        | rewrite bind_sdk_call_eq
        | rewrite bind_error_eq
        | rewrite bind_fault_eq
        | rewrite outcome_logged
        | rewrite globals_logged
        | rewrite calls_logged
        | progress cbn [when negb] ];
  cbv beta zeta.

(** Case split on a test of the command; a case at odds with a hypothesis
    is closed at once. *)
Ltac branch :=
  match goal with
  | |- context [when ?b _] => destruct b eqn:?
  | |- context [if ?b then _ else _] => destruct b eqn:?
  | |- context [match ?o with Some _ => _ | None => _ end] => destruct o eqn:?
  end; try congruence.

(** The last command of a sequence. *)
Ltac finish :=
  cbv beta iota zeta delta
    [ret get modify sdk_call PsychErrorExitMsg fault logged outcome globals calls].

Ltac run := repeat (step || branch); finish.

(** *** Fields of a modified state *)

Lemma slot_with_available (n : Z) (g : Globals) (i : Z) :
  slot (with_available n g) i = slot g i.
Proof. reflexivity. Qed.

Lemma slot_with_devicecount (n : Z) (g : Globals) (i : Z) :
  slot (with_devicecount n g) i = slot g i.
Proof. reflexivity. Qed.

Lemma slot_with_initialized (b : bool) (g : Globals) (i : Z) :
  slot (with_initialized b g) i = slot g i.
Proof. reflexivity. Qed.

Lemma find_free_slot_with_initialized (b : bool) (g : Globals) (s : Z) (fuel : nat) :
  find_free_slot (with_initialized b g) s fuel = find_free_slot g s fuel.
Proof. apply find_free_slot_table. reflexivity. Qed.

Lemma find_free_slot_with_available (n : Z) (g : Globals) (s : Z) (fuel : nat) :
  find_free_slot (with_available n g) s fuel = find_free_slot g s fuel.
Proof. apply find_free_slot_table. reflexivity. Qed.

Ltac fold_slots :=
  rewrite ?find_free_slot_with_initialized, ?find_free_slot_with_available in *;
  rewrite ?slot_with_devicecount, ?slot_with_available, ?slot_with_initialized in *.

Lemma to_nat_neq (i j : Z) : 0 <= i -> 0 <= j -> i <> j -> Z.to_nat i <> Z.to_nat j.
Proof. intros Hi Hj Hne E. apply Hne. apply Z2Nat.inj; assumption. Qed.

Lemma in_range (g : Globals) (i : Z) :
  well_typed g -> 0 <= i < MAX_PSYCH_OCULUS_DEVS ->
  (Z.to_nat i < length (oculusdevices g))%nat.
Proof. intros [Hl _] Hi. rewrite Hl. unfold MAX_PSYCH_OCULUS_DEVS in *. lia. Qed.

Lemma well_typed_update_slot (g : Globals) (i : Z) (f : PsychOculusDevice -> PsychOculusDevice) :
  well_typed g -> well_typed (update_slot i f g).
Proof.
  intros [Hl Hd]. split; [rewrite length_update_slot; exact Hl | exact Hd].
Qed.

Lemma well_typed_with_devicecount (g : Globals) (n : Z) :
  well_typed g -> well_typed (with_devicecount (n mod UINT_MOD) g).
Proof.
  intros [Hl _]. split; [exact Hl |]. simpl. apply Z.mod_pos_bound. reflexivity.
Qed.

Lemma well_typed_checked (sdk : Sdk) (g : Globals) :
  well_typed g -> well_typed (checked sdk g).
Proof.
  intros [Hl Hd]. destruct (checked_table sdk g) as [Ht Hc].
  split; [rewrite Ht; exact Hl | rewrite Hc; exact Hd].
Qed.

(** *** 'Open' *)

(** The result of the free-slot test of 'Open'. *)
Lemma free_slot_checked (g : Globals) (k : Z) :
  find_free_slot g 0 (Z.to_nat MAX_PSYCH_OCULUS_DEVS) = Some k ->
  (k >=? MAX_PSYCH_OCULUS_DEVS) || negb (hmd (slot g k) =? NULL) = false ->
  first_free g k.
Proof.
  intros Hk Hc. apply orb_false_iff in Hc. destruct Hc as [Hlt Hnull].
  rewrite Z.geb_leb in Hlt. apply Z.leb_gt in Hlt.
  apply negb_false_iff, Z.eqb_eq in Hnull.
  destruct (find_free_slot_spec _ _ _ _ Hk) as (H0 & _ & Hocc).
  split; [lia |]. split; [exact Hnull |].
  intros j Hj. apply Hocc. lia.
Qed.

Lemma first_free_test (g : Globals) (k : Z) :
  first_free g k ->
  (k >=? MAX_PSYCH_OCULUS_DEVS) || negb (hmd (slot g k) =? NULL) = false.
Proof.
  intros (Hk & Hnull & _). apply orb_false_iff. split.
  - rewrite Z.geb_leb. apply Z.leb_gt. lia.
  - apply negb_false_iff, Z.eqb_eq. exact Hnull.
Qed.

(** 'Open' never touches the record of an open device. *)
Lemma Open_frame (sdk : Sdk) (arg : option Z) (g : Globals) (i : Z) :
  0 <= i -> hmd (slot g i) <> NULL ->
  slot (globals (PSYCHOCULUSVROpen sdk arg g)) i = slot g i.
Proof.
  intros Hi Hopen.
  unfold PSYCHOCULUSVROpen, PsychOculusVRCheckInit. unfold_sdk.
  run; fold_slots; try reflexivity.
  all: match goal with
       | Hk : find_free_slot _ _ _ = Some ?k, Hc : _ || _ = false |- _ =>
           pose proof (free_slot_checked _ _ Hk Hc) as (Hr & Hnull & _);
           assert (Z.to_nat k <> Z.to_nat i)
             by (apply to_nat_neq; [lia | lia | congruence])
       end.
  all: rewrite ?slot_with_devicecount; rewrite ?slot_update_slot_other by assumption;
    reflexivity.
Qed.

Lemma Open_succeeds (sdk : Sdk) (arg : option Z) (g : Globals) (k : Z) :
  well_typed g -> runtime_starts sdk g -> first_free g k -> admits sdk arg ->
  PSYCHOCULUSVROpen sdk arg g =
  {| outcome := Done (k + 1);
     globals := after_open sdk arg k g;
     calls := calls (PsychOculusVRCheckInit sdk g)
              ++ [Call_ovrHmd_Detect; create_call sdk (default 0 arg)] |}.
Proof.
  intros Hwt Hrt Hff (Hge & Hlt & Hp).
  unfold PSYCHOCULUSVROpen, after_open, created, create_call in *.
  rewrite (bind_done _ _ g tt) by (apply CheckInit_starts; exact Hrt).
  fold (checked sdk g).
  assert (Hff1 : first_free (checked sdk g) k)
    by (unfold first_free in *; setoid_rewrite slot_checked; exact Hff).
  pose proof (well_typed_checked sdk g Hwt) as Hwt1.
  set (g1 := checked sdk g) in *.
  set (idx := default 0 arg) in *.
  assert (Hslot : forall n p,
             hmd (slot (update_slot k (set_hmd p)
                          (update_slot k (fun _ => zero_device)
                             (with_available n g1))) k) = p).
  { intros n p. rewrite slot_update_slot_same; [reflexivity |].
    rewrite length_update_slot. apply (in_range g1); [exact Hwt1 | apply Hff1]. }
  unfold_sdk. step.
  rewrite (find_free_slot_first_free g1 k Hff1).
  rewrite (first_free_test g1 k Hff1). repeat step.
  assert (E1 : (idx <? -1) = false) by (apply Z.ltb_ge; lia).
  rewrite E1. repeat step.
  apply Z.eqb_neq in Hp.
  change (verbosity >=? 3) with true.
  destruct (idx >=? 0) eqn:E2.
  - assert (E3 : (idx >=? available_devices
                    (with_available (clamp_detected (sdk_Detect sdk)) g1)) = false).
    { simpl. rewrite Z.geb_leb. apply Z.leb_gt. apply Hlt. apply Z.geb_le. exact E2. }
    rewrite E3. simpl andb. repeat step.
    rewrite Hp. repeat step.
    rewrite Hslot, Hp. repeat step. finish. simpl. reflexivity.
  - simpl andb. repeat step.
    rewrite Hslot, Hp. repeat step. finish. simpl. reflexivity.
Qed.

(** A returned handle tells how 'Open' went. *)
Lemma Open_done_inv (sdk : Sdk) (arg : option Z) (g : Globals) (handle : Z) :
  well_typed g ->
  outcome (PSYCHOCULUSVROpen sdk arg g) = Done handle ->
  runtime_starts sdk g /\ first_free g (handle - 1) /\ admits sdk arg.
Proof.
  intros Hwt.
  unfold PSYCHOCULUSVROpen, PsychOculusVRCheckInit, runtime_starts, admits, created.
  unfold_sdk. change (verbosity >=? 3) with true.
  run; fold_slots; intros [= <-]; rewrite Z.add_simpl_r.
  all: match goal with
       | Hk : find_free_slot _ _ _ = Some ?k, Hc : _ || _ = false |- _ =>
           pose proof (free_slot_checked _ _ Hk Hc) as Hff
       end.
  all: match goal with
       | H : (_ <? -1) = false |- _ => apply Z.ltb_ge in H
       end.
  all: match goal with
       | H : (hmd (slot _ ?k) =? NULL) = false |- _ =>
           rewrite slot_update_slot_same in H
             by (rewrite length_update_slot; apply in_range; [exact Hwt | apply Hff]);
           apply Z.eqb_neq in H; simpl in H
       end.
  all: split; [auto |]; split; [exact Hff |]; split; [assumption |]; split; [| assumption].
  all: match goal with
       | H : (_ >=? 0) = true, H' : true && _ = false |- _ =>
           simpl in H'; rewrite Z.geb_leb in H'; apply Z.leb_gt in H'; intros _; exact H'
       | H : (_ >=? 0) = false |- _ =>
           rewrite Z.geb_leb in H; apply Z.leb_gt in H; intros; lia
       end.
Qed.

Lemma after_open_slot (sdk : Sdk) (arg : option Z) (k : Z) (g : Globals) :
  well_typed g -> 0 <= k < MAX_PSYCH_OCULUS_DEVS ->
  slot (after_open sdk arg k g) k = set_hmd (created sdk (default 0 arg)) zero_device.
Proof.
  intros Hwt Hk. unfold after_open. cbv zeta. rewrite slot_with_devicecount.
  pose proof (in_range _ k (well_typed_checked sdk g Hwt) Hk) as Hr.
  rewrite slot_update_slot_same by (rewrite length_update_slot; exact Hr).
  rewrite slot_update_slot_same by exact Hr. reflexivity.
Qed.

Lemma after_open_other (sdk : Sdk) (arg : option Z) (k j : Z) (g : Globals) :
  0 <= k -> 0 <= j -> j <> k ->
  slot (after_open sdk arg k g) j = slot g j.
Proof.
  intros Hk Hj Hne. unfold after_open. cbv zeta. rewrite slot_with_devicecount.
  rewrite !slot_update_slot_other by (apply to_nat_neq; lia).
  rewrite slot_with_available. apply slot_checked.
Qed.

Lemma after_open_devicecount (sdk : Sdk) (arg : option Z) (k : Z) (g : Globals) :
  devicecount (after_open sdk arg k g) = (devicecount g + 1) mod UINT_MOD.
Proof.
  unfold after_open. cbv zeta. simpl. rewrite (proj2 (checked_table sdk g)). reflexivity.
Qed.

Lemma after_open_initialized (sdk : Sdk) (arg : option Z) (k : Z) (g : Globals) :
  runtime_starts sdk g -> initialized (after_open sdk arg k g) = true.
Proof. intros H. unfold after_open. cbv zeta. simpl. apply checked_runtime_up. exact H. Qed.

Lemma after_open_well_typed (sdk : Sdk) (arg : option Z) (k : Z) (g : Globals) :
  well_typed g -> well_typed (after_open sdk arg k g).
Proof.
  intros Hwt. unfold after_open. cbv zeta.
  apply well_typed_with_devicecount. do 2 apply well_typed_update_slot.
  destruct (well_typed_checked sdk g Hwt) as [Hl Hd]. split; assumption.
Qed.

(** *** 'Close' of one device *)

Lemma PsychOculusClose_open (sdk : Sdk) (g : Globals) (handle : Z) :
  well_typed g -> is_open g handle -> stop_granted sdk g handle ->
  exists g' l,
    PsychOculusClose sdk handle g = {| outcome := Done tt; globals := g'; calls := l |} /\
    closed_from g handle g'.
Proof.
  intros Hwt Hopen Hstop.
  pose proof (is_open_test _ _ Hopen) as Htest.
  assert (Hr : (Z.to_nat (handle - 1) < length (oculusdevices g))%nat)
    by (apply in_range; [exact Hwt | unfold is_open in Hopen; lia]).
  unfold stop_granted in Hstop. destruct Hopen as [[Hge1 _] _].
  unfold PsychOculusClose, PsychOculusStop, PsychGetOculus, release_mesh. unfold_sdk.
  repeat step. rewrite Htest. repeat step. rewrite Htest. repeat step.
  destruct (isTracking (slot g (handle - 1))) eqn:Et;
    [rewrite (Hstop eq_refl) |]; cbn [negb]; run.
  all: eexists _, _; split; [reflexivity |].
  all: unfold closed_from; rewrite !slot_with_devicecount.
  all: split; [rewrite slot_update_slot_same by (rewrite ?length_update_slot; exact Hr);
               reflexivity |].
  all: split;
    [repeat (rewrite (slot_update_slot_field isTracking) by (intros; reflexivity));
     first [exact Et | rewrite slot_update_slot_same by exact Hr; reflexivity] |].
  all: split;
    [intros j Hj Hne; rewrite slot_with_devicecount;
     rewrite !slot_update_slot_other by (apply to_nat_neq; lia);
     reflexivity |].
  all: split; [reflexivity |]; split; [reflexivity |]; split; [reflexivity |].
  all: apply well_typed_with_devicecount; repeat apply well_typed_update_slot; exact Hwt.
Qed.

(** Closing a device that is not tracking and holds no mesh. *)
Lemma PsychOculusClose_idle (sdk : Sdk) (g : Globals) (handle : Z) :
  is_open g handle ->
  isTracking (slot g (handle - 1)) = false ->
  pVertexData (get2 (eyeDistortionMesh (slot g (handle - 1))) 0) = NULL ->
  pVertexData (get2 (eyeDistortionMesh (slot g (handle - 1))) 1) = NULL ->
  PsychOculusClose sdk handle g =
  {| outcome := Done tt;
     globals := with_devicecount ((devicecount g - 1) mod UINT_MOD)
                  (update_slot (handle - 1) (set_hmd NULL) g);
     calls := [Call_ovrHmd_Destroy (hmd (slot g (handle - 1)))] |}.
Proof.
  intros Hopen Ht Hm0 Hm1.
  pose proof (is_open_test _ _ Hopen) as Htest.
  unfold PsychOculusClose, PsychOculusStop, PsychGetOculus, release_mesh. unfold_sdk.
  repeat step. rewrite Htest. repeat step. rewrite Htest. repeat step.
  rewrite Ht. repeat step. rewrite Hm0. change (NULL =? NULL) with true. repeat step.
  rewrite Hm1. change (NULL =? NULL) with true. repeat step.
  finish. reflexivity.
Qed.

Lemma well_typed_loaded : well_typed loaded.
Proof. split; [reflexivity | split; [vm_compute; discriminate | reflexivity]]. Defined.

Lemma first_free_loaded : first_free loaded 0.
Proof.
  split; [unfold MAX_PSYCH_OCULUS_DEVS; lia |]. split; [reflexivity | intros j Hj; lia].
Defined.

(** 'Open' of an emulated device whose construction yields [NULL]: the
    printout of the device data reads through the pointer. *)
Lemma Open_emulated_null (sdk : Sdk) (g : Globals) (k : Z) :
  well_typed g -> runtime_starts sdk g -> first_free g k ->
  sdk_CreateDebug sdk (ovrHmd_DK2 sdk) = NULL ->
  outcome (PSYCHOCULUSVROpen sdk (Some (-1)) g) = Fault /\
  devicecount (globals (PSYCHOCULUSVROpen sdk (Some (-1)) g)) = devicecount g.
Proof.
  intros Hwt Hrt Hff Hnull.
  unfold PSYCHOCULUSVROpen.
  rewrite (bind_done _ _ g tt) by (apply CheckInit_starts; exact Hrt).
  fold (checked sdk g). cbn [outcome globals].
  assert (Hff1 : first_free (checked sdk g) k)
    by (unfold first_free in *; setoid_rewrite slot_checked; exact Hff).
  pose proof (well_typed_checked sdk g Hwt) as Hwt1.
  rewrite <- (proj2 (checked_table sdk g)).
  set (g1 := checked sdk g) in *.
  unfold_sdk. step.
  rewrite (find_free_slot_first_free g1 k Hff1).
  rewrite (first_free_test g1 k Hff1). repeat step.
  change (default 0 (Some (-1))) with (-1).
  change (-1 <? -1) with false. change (-1 >=? 0) with false.
  change (verbosity >=? 3) with true. cbn [andb]. repeat step.
  rewrite slot_update_slot_same
    by (rewrite length_update_slot; apply (in_range g1); [exact Hwt1 | apply Hff1]).
  cbn [hmd set_hmd]. rewrite Hnull. change (NULL =? NULL) with true.
  repeat step. finish. split; reflexivity.
Qed.

(** C10 (as the driver has it): 'Open' with deviceIndex -1 raises no error
    whatever the construction of the emulated device yields; when a slot is
    free, the runtime is up or starts and the construction yields a pointer
    other than [NULL], it increments the count of open devices and returns
    the 1-based handle of the first free slot, which is then open. *)
Theorem C10_open_emulated_unchecked (sdk : Sdk) (g : Globals) (k : Z) :
  well_typed g -> runtime_starts sdk g -> first_free g k ->
  let r := PSYCHOCULUSVROpen sdk (Some (-1)) g in
  (forall e msg, outcome r <> ErrorExit e msg) /\
  (sdk_CreateDebug sdk (ovrHmd_DK2 sdk) <> NULL ->
   outcome r = Done (k + 1) /\
   devicecount (globals r) = (devicecount g + 1) mod UINT_MOD /\
   is_open (globals r) (k + 1)).
Proof.
  intros Hwt Hrt Hff. cbv zeta.
  assert (Hok : sdk_CreateDebug sdk (ovrHmd_DK2 sdk) <> NULL ->
                PSYCHOCULUSVROpen sdk (Some (-1)) g =
                {| outcome := Done (k + 1);
                   globals := after_open sdk (Some (-1)) k g;
                   calls := calls (PsychOculusVRCheckInit sdk g)
                            ++ [Call_ovrHmd_Detect; create_call sdk (-1)] |}).
  { intros Hp. apply Open_succeeds; try assumption.
    split; [simpl; lia |]. split; [simpl; lia | exact Hp]. }
  split.
  - intros e msg.
    destruct (Z.eq_dec (sdk_CreateDebug sdk (ovrHmd_DK2 sdk)) NULL) as [Hnull | Hp].
    + rewrite (proj1 (Open_emulated_null sdk g k Hwt Hrt Hff Hnull)). discriminate.
    + rewrite (Hok Hp). discriminate.
  - intros Hp. rewrite (Hok Hp). cbn [outcome globals].
    split; [reflexivity |]. split; [apply after_open_devicecount |].
    destruct Hff as (Hk & _).
    split; [lia |]. rewrite Z.add_simpl_r.
    rewrite after_open_slot by assumption. exact Hp.
Qed.

(** In the freshly loaded driver, with an SDK that builds the emulated
    device at address 100. *)
Lemma C10_open_emulated_unchecked_witness :
  outcome (PSYCHOCULUSVROpen (sample_sdk 100 200) (Some (-1)) loaded) = Done 1 /\
  devicecount (globals (PSYCHOCULUSVROpen (sample_sdk 100 200) (Some (-1)) loaded)) = 1 /\
  is_open (globals (PSYCHOCULUSVROpen (sample_sdk 100 200) (Some (-1)) loaded)) 1.
Proof.
  pose proof well_typed_loaded as Hwt.
  assert (Hrt : runtime_starts (sample_sdk 100 200) loaded) by (right; reflexivity).
  pose proof first_free_loaded as Hff.
  assert (Hp : sdk_CreateDebug (sample_sdk 100 200) (ovrHmd_DK2 (sample_sdk 100 200)) <> NULL) by discriminate.
  exact (proj2 (C10_open_emulated_unchecked (sample_sdk 100 200) loaded 0 Hwt Hrt Hff) Hp).
Defined.

(** C10 as stated fails: when the construction of the emulated device yields
    [NULL], the call neither increments the count nor returns a handle. *)
Lemma C10_null_device_is_dereferenced :
  sdk_CreateDebug (sample_sdk NULL 200) (ovrHmd_DK2 (sample_sdk NULL 200)) = NULL /\
  outcome (PSYCHOCULUSVROpen (sample_sdk NULL 200) (Some (-1)) loaded) = Fault /\
  devicecount (globals (PSYCHOCULUSVROpen (sample_sdk NULL 200) (Some (-1)) loaded)) = 0 /\
  ~ (exists handle,
        outcome (PSYCHOCULUSVROpen (sample_sdk NULL 200) (Some (-1)) loaded) = Done handle).
Proof.
  split; [reflexivity |]. split; [reflexivity |]. split; [reflexivity |].
  intros [handle H]. discriminate H.
Qed.

(** *** 'Open' followed by 'Close' *)

Lemma devicecount_round_trip (d : Z) :
  0 <= d < UINT_MOD -> ((d + 1) mod UINT_MOD - 1) mod UINT_MOD = d.
Proof.
  intros Hd. rewrite Zminus_mod_idemp_l. rewrite Z.add_simpl_r.
  apply Z.mod_small. exact Hd.
Qed.

Lemma PSYCHOCULUSVRClose_handle (sdk : Sdk) (g : Globals) (handle : Z) :
  initialized g = true -> 1 <= handle ->
  PSYCHOCULUSVRClose sdk (Some handle) g = PsychOculusClose sdk handle g.
Proof.
  intros Hi Hh. unfold PSYCHOCULUSVRClose.
  rewrite (bind_done _ _ g tt) by (rewrite CheckInit_initialized by exact Hi; reflexivity).
  rewrite CheckInit_initialized by exact Hi. cbn [globals calls app default from_option id].
  apply Z.geb_le in Hh. rewrite Hh.
  destruct (PsychOculusClose sdk handle g); reflexivity.
Qed.

(** C5: when 'Open' returns a handle, a 'Close' of that handle right after
    returns normally and restores the registry: the count of open devices is
    the one before the 'Open', the claimed slot holds [NULL] again (its
    record is all zero, as at program start), every slot has the device
    pointer it had (so the same handles are open), the records of the other
    slots are untouched, and a later 'Open' that the SDK lets through claims
    the same slot and returns the same handle. *)
Theorem C5_open_then_close_restores (sdk sdk' : Sdk) (arg : option Z) (g : Globals)
  (handle : Z) :
  well_typed g ->
  outcome (PSYCHOCULUSVROpen sdk arg g) = Done handle ->
  let opened := globals (PSYCHOCULUSVROpen sdk arg g) in
  let closed := globals (PSYCHOCULUSVRClose sdk' (Some handle) opened) in
  first_free g (handle - 1) /\
  outcome (PSYCHOCULUSVRClose sdk' (Some handle) opened) = Done tt /\
  devicecount closed = devicecount g /\
  hmd (slot closed (handle - 1)) = NULL /\
  slot closed (handle - 1) = zero_device /\
  (forall j, 0 <= j -> hmd (slot closed j) = hmd (slot g j)) /\
  (forall h, is_open closed h <-> is_open g h) /\
  (forall j, 0 <= j -> j <> handle - 1 -> slot closed j = slot g j) /\
  (forall sdk'' arg', admits sdk'' arg' ->
     outcome (PSYCHOCULUSVROpen sdk'' arg' closed) = Done handle).
Proof.
  intros Hwt Hdone. cbv zeta.
  destruct (Open_done_inv sdk arg g handle Hwt Hdone) as (Hrt & Hff & Hadm).
  pose proof Hff as (Hk & Hnull & Hocc).
  rewrite (Open_succeeds sdk arg g (handle - 1) Hwt Hrt Hff Hadm). cbn [globals].
  set (g1 := after_open sdk arg (handle - 1) g).
  assert (Hwt1 : well_typed g1) by (apply after_open_well_typed; exact Hwt).
  assert (Hi1 : initialized g1 = true) by (apply after_open_initialized; exact Hrt).
  assert (Hs1 : slot g1 (handle - 1) = set_hmd (created sdk (default 0 arg)) zero_device)
    by (apply after_open_slot; assumption).
  assert (Hopen1 : is_open g1 handle).
  { split; [lia |]. rewrite Hs1. apply Hadm. }
  assert (Hst : stop_granted sdk' g1 handle).
  { unfold stop_granted. rewrite Hs1. discriminate. }
  rewrite PSYCHOCULUSVRClose_handle by (exact Hi1 || lia).
  destruct (PsychOculusClose_open sdk' g1 handle Hwt1 Hopen1 Hst)
    as (g2 & l & E & Hc).
  assert (Hzero : slot g2 (handle - 1) = zero_device).
  { rewrite (PsychOculusClose_idle sdk' g1 handle Hopen1) in E
      by (rewrite Hs1; reflexivity).
    injection E as <- _. rewrite slot_with_devicecount.
    rewrite slot_update_slot_same by (apply in_range; assumption).
    rewrite Hs1. reflexivity. }
  rewrite E. cbn [outcome globals].
  destruct Hc as (Hh2 & Ht2 & Hfr & Hd2 & Ha2 & Hi2 & Hwt2).
  assert (Hother : forall j, 0 <= j -> j <> handle - 1 -> slot g2 j = slot g j).
  { intros j Hj Hne. rewrite Hfr by assumption. apply after_open_other; lia. }
  assert (Hhmd : forall j, 0 <= j -> hmd (slot g2 j) = hmd (slot g j)).
  { intros j Hj. destruct (Z.eq_dec j (handle - 1)) as [-> | Hne].
    - rewrite Hh2, Hnull. reflexivity.
    - rewrite Hother by assumption. reflexivity. }
  split; [exact Hff |]. split; [reflexivity |].
  split.
  { rewrite Hd2. unfold g1. rewrite after_open_devicecount.
    apply devicecount_round_trip. apply Hwt. }
  split; [exact Hh2 |]. split; [exact Hzero |]. split; [exact Hhmd |].
  split.
  { intros h0. unfold is_open.
    destruct (Z_le_gt_dec 1 h0) as [Hh0 | Hh0]; [| lia].
    rewrite Hhmd by lia. reflexivity. }
  split; [exact Hother |].
  intros sdk'' arg' Hadm'.
  assert (Hff2 : first_free g2 (handle - 1)).
  { split; [exact Hk |]. split; [exact Hh2 |].
    intros j Hj. rewrite Hhmd by lia. apply Hocc. exact Hj. }
  rewrite (Open_succeeds sdk'' arg' g2 (handle - 1) Hwt2); try assumption.
  - cbn [outcome]. f_equal. lia.
  - left. rewrite Hi2. exact Hi1.
Qed.

(** From the freshly loaded driver: 'Open' of the attached headset returns
    handle 1. *)
Lemma C5_open_then_close_restores_witness :
  let opened := globals (PSYCHOCULUSVROpen (sample_sdk 100 200) None loaded) in
  let closed := globals (PSYCHOCULUSVRClose (sample_sdk 100 200) (Some 1) opened) in
  devicecount closed = devicecount loaded /\
  hmd (slot closed 0) = NULL.
Proof.
  pose proof (C5_open_then_close_restores (sample_sdk 100 200) (sample_sdk 100 200)
                None loaded 1 well_typed_loaded eq_refl) as H.
  cbv zeta in H. destruct H as (_ & _ & Hd & Hh & _).
  exact (conj Hd Hh).
Defined.

(** *** Filling the table *)

Lemma filled_loaded : filled 0 loaded.
Proof.
  split; [exact well_typed_loaded |]. split; [intros j Hj; lia |].
  intros j Hj. unfold MAX_PSYCH_OCULUS_DEVS in Hj.
  assert (Hc : j = 0 \/ j = 1 \/ j = 2 \/ j = 3 \/ j = 4 \/ j = 5 \/ j = 6 \/ j = 7
               \/ j = 8 \/ j = 9) by lia.
  repeat (destruct Hc as [-> | Hc]; [reflexivity |]). subst j. reflexivity.
Qed.

Lemma filled_first_free (n : nat) (g : Globals) :
  filled n g -> Z.of_nat n < MAX_PSYCH_OCULUS_DEVS -> first_free g (Z.of_nat n).
Proof.
  intros (_ & Hocc & Hfree) Hn. split; [lia |]. split; [apply Hfree; lia | exact Hocc].
Qed.

Lemma filled_after_open (sdk : Sdk) (arg : option Z) (n : nat) (g : Globals) :
  filled n g -> Z.of_nat n < MAX_PSYCH_OCULUS_DEVS -> admits sdk arg ->
  filled (S n) (after_open sdk arg (Z.of_nat n) g).
Proof.
  intros (Hwt & Hocc & Hfree) Hn (_ & _ & Hp).
  split; [apply after_open_well_typed; exact Hwt |]. split.
  - intros j Hj. destruct (Z.eq_dec j (Z.of_nat n)) as [-> | Hne].
    + rewrite after_open_slot by (exact Hwt || lia). exact Hp.
    + rewrite after_open_other by lia. apply Hocc. lia.
  - intros j Hj. rewrite after_open_other by lia. apply Hfree. lia.
Qed.

Lemma open_each_fills (l : list (Sdk * option Z)) :
  forall (n : nat) (g : Globals),
    filled n g ->
    Z.of_nat (n + length l) <= MAX_PSYCH_OCULUS_DEVS ->
    Forall (fun c => admits (fst c) (snd c)) l ->
    (forall c, head l = Some c -> runtime_starts (fst c) g) ->
    fst (open_each l g) = map (fun i => Done (Z.of_nat i + 1)) (seq n (length l)) /\
    filled (n + length l) (snd (open_each l g)) /\
    (l <> [] -> initialized (snd (open_each l g)) = true).
Proof.
  induction l as [| [sdk arg] l IH]; intros n g Hf Hlen Hadm Hrt.
  - simpl. rewrite Nat.add_0_r. split; [reflexivity |]. split; [exact Hf | congruence].
  - simpl in Hlen. inversion Hadm as [| c l0 Hadm1 Hadm2]; subst. simpl in Hadm1.
    assert (Hn : Z.of_nat n < MAX_PSYCH_OCULUS_DEVS) by lia.
    pose proof (Hrt (sdk, arg) eq_refl) as Hrt1. simpl in Hrt1.
    pose proof (Open_succeeds sdk arg g (Z.of_nat n) (proj1 Hf) Hrt1
                  (filled_first_free n g Hf Hn) Hadm1) as Hopen.
    cbn [open_each]. rewrite Hopen. cbn [outcome globals fst snd].
    pose proof (after_open_initialized sdk arg (Z.of_nat n) g Hrt1) as Hinit.
    destruct (IH (S n) (after_open sdk arg (Z.of_nat n) g)) as (Ho & Hfl & Hi).
    + apply filled_after_open; assumption.
    + lia.
    + exact Hadm2.
    + intros c _. left. exact Hinit.
    + split; [| split].
      * cbn [length seq map]. rewrite Ho. reflexivity.
      * replace (n + length ((sdk, arg) :: l))%nat with (S n + length l)%nat
          by (simpl; lia).
        exact Hfl.
      * intros _. destruct l as [| c l']; [exact Hinit | apply Hi; discriminate].
Qed.

(** 'Open' with every slot taken. *)
Lemma Open_full (sdk : Sdk) (arg : option Z) (g : Globals) :
  initialized g = true ->
  (forall j, 0 <= j < MAX_PSYCH_OCULUS_DEVS -> hmd (slot g j) <> NULL) ->
  PSYCHOCULUSVROpen sdk arg g =
  {| outcome :=
       ErrorExit PsychError_internal
         "Maximum number of simultaneously open Oculus VR devices reached.";
     globals := g; calls := [] |}.
Proof.
  intros Hi Hocc. unfold PSYCHOCULUSVROpen.
  rewrite (bind_done _ _ g tt) by (rewrite CheckInit_initialized by exact Hi; reflexivity).
  rewrite CheckInit_initialized by exact Hi. cbn [globals calls app].
  destruct (find_free_slot_ends g (Z.to_nat MAX_PSYCH_OCULUS_DEVS) 0) as (k & Hk & _);
    [unfold MAX_PSYCH_OCULUS_DEVS; lia |].
  step. rewrite Hk.
  assert (Hc : (k >=? MAX_PSYCH_OCULUS_DEVS) || negb (hmd (slot g k) =? NULL) = true).
  { destruct (find_free_slot_spec _ _ _ _ Hk) as (H0 & Hfree & _).
    destruct (k >=? MAX_PSYCH_OCULUS_DEVS) eqn:E; [reflexivity |].
    rewrite Z.geb_leb in E. apply Z.leb_gt in E.
    exfalso. apply (Hocc k); [lia | apply Hfree; exact E]. }
  rewrite Hc. repeat step. reflexivity.
Qed.

(** C4 (as the driver has it): from the freshly loaded driver, ten 'Open'
    requests that the SDK lets through return the handles 1 to 10, and with
    every slot taken any further 'Open' ends in an internal error
    ([PsychError_internal], not a user error) with the message "Maximum
    number of simultaneously open Oculus VR devices reached.", the state
    being left as it was and no SDK call made. *)
Theorem C4_eleventh_open_is_an_internal_error (l : list (Sdk * option Z)) :
  length l = Z.to_nat MAX_PSYCH_OCULUS_DEVS ->
  Forall (fun c => admits (fst c) (snd c)) l ->
  (forall c, head l = Some c -> sdk_Initialize (fst c) = true) ->
  fst (open_each l loaded) =
    [Done 1; Done 2; Done 3; Done 4; Done 5; Done 6; Done 7; Done 8; Done 9; Done 10] /\
  forall sdk arg,
    PSYCHOCULUSVROpen sdk arg (snd (open_each l loaded)) =
    {| outcome :=
         ErrorExit PsychError_internal
           "Maximum number of simultaneously open Oculus VR devices reached.";
       globals := snd (open_each l loaded); calls := [] |}.
Proof.
  intros Hlen Hadm Hinit.
  destruct (open_each_fills l 0 loaded filled_loaded) as (Ho & Hf & Hi).
  - rewrite Hlen. unfold MAX_PSYCH_OCULUS_DEVS. lia.
  - exact Hadm.
  - intros c Hc. right. apply Hinit. exact Hc.
  - rewrite Hlen in *. split; [exact Ho |].
    intros sdk arg. apply Open_full.
    + apply Hi. intros ->. discriminate Hlen.
    + intros j Hj. apply Hf. unfold MAX_PSYCH_OCULUS_DEVS in *. simpl. lia.
Qed.

Lemma C4_eleventh_open_is_an_internal_error_witness :
  fst (open_each ten_opens loaded) =
    [Done 1; Done 2; Done 3; Done 4; Done 5; Done 6; Done 7; Done 8; Done 9; Done 10] /\
  outcome (PSYCHOCULUSVROpen (sample_sdk 111 200) None (snd (open_each ten_opens loaded))) =
    ErrorExit PsychError_internal
      "Maximum number of simultaneously open Oculus VR devices reached.".
Proof.
  assert (Hadm : Forall (fun c => admits (fst c) (snd c)) ten_opens).
  { unfold ten_opens. simpl.
    repeat (constructor; [split; [simpl; lia | split; [simpl; lia | discriminate]] |]).
    constructor. }
  assert (Hinit : forall c, head ten_opens = Some c -> sdk_Initialize (fst c) = true).
  { intros c [= <-]. reflexivity. }
  destruct (C4_eleventh_open_is_an_internal_error ten_opens eq_refl Hadm Hinit) as [Ho Hfull].
  split; [exact Ho |]. rewrite Hfull. reflexivity.
Defined.

(** C4 as stated fails: the error of the eleventh 'Open' is not a user
    error. *)
Lemma C4_eleventh_open_is_not_a_user_error :
  fst (open_each ten_opens loaded) =
    [Done 1; Done 2; Done 3; Done 4; Done 5; Done 6; Done 7; Done 8; Done 9; Done 10] /\
  outcome (PSYCHOCULUSVROpen (sample_sdk 111 200) (Some (-1))
             (snd (open_each ten_opens loaded))) =
    ErrorExit PsychError_internal
      "Maximum number of simultaneously open Oculus VR devices reached." /\
  ~ (exists msg,
        outcome (PSYCHOCULUSVROpen (sample_sdk 111 200) (Some (-1))
                   (snd (open_each ten_opens loaded))) = ErrorExit PsychError_user msg).
Proof.
  split; [vm_compute; reflexivity |]. split; [vm_compute; reflexivity |].
  intros [msg H]. vm_compute in H. discriminate H.
Qed.

(** *** Records of the table under the queries *)

(** Stepping through a long command: every new state gets a name. *)
Ltac step_named :=
  first [ rewrite bind_assoc_eq
        | rewrite bind_ret_eq
        | rewrite bind_get_eq
        | match goal with
          | |- context [bind (modify ?u) ?f ?g] =>
              rewrite (bind_modify_eq u f g);
              let st := fresh "st" in set (st := u g)
          end
        | rewrite bind_sdk_call_eq
        | rewrite bind_error_eq
        | rewrite bind_fault_eq
        | rewrite outcome_logged
        | rewrite globals_logged
        | rewrite calls_logged
        | progress cbn [when negb] ];
  cbv beta zeta.

Ltac run_named := repeat (step_named || branch); finish.

(** 'GetFovTextureSize' writes through setters only: the device pointer and
    the tracking flag of every record stay. *)
Lemma GetFovTextureSize_frame {B : Type} (proj : PsychOculusDevice -> B) (sdk : Sdk)
  (handle eye : Z) (fov : option (list double)) (ppd : option double) (g : Globals) (j : Z) :
  (forall v d, proj (set_texSize v d) = proj d) ->
  (forall e v d, proj (set_eyeRenderDesc e v d) = proj d) ->
  (forall e v d, proj (set_eyeDistortionMesh e v d) = proj d) ->
  (forall e v d, proj (set_UVScaleOffset e v d) = proj d) ->
  (forall e v d, proj (set_headPose e v d) = proj d) ->
  (forall v d, proj (set_timeWarpMatrices v d) = proj d) ->
  proj (slot (globals (PSYCHOCULUSVRGetFovTextureSize sdk handle eye fov ppd g)) j)
  = proj (slot g j).
Proof.
  intros H1 H2 H3 H4 H5 H6.
  unfold PSYCHOCULUSVRGetFovTextureSize, PsychOculusVRCheckInit, PsychGetOculus.
  unfold_sdk.
  run_named.
  all: repeat match goal with
         | st := _ : Globals |- ?p (slot ?st' _) = _ =>
             constr_eq st st'; subst st; cbv beta;
             first [ rewrite slot_with_available
                   | rewrite slot_with_initialized
                   | rewrite (slot_update_slot_field p)
                       by (intros; first [apply H1 | apply H2 | apply H3
                                         | apply H4 | apply H5 | apply H6]) ]
         end.
  all: reflexivity.
Qed.

Lemma PsychGetOculus_test_ge (g : Globals) (handle : Z) :
  (handle <? 1) || (handle >? MAX_PSYCH_OCULUS_DEVS)
  || (hmd (slot g (handle - 1)) =? NULL) = false ->
  1 <= handle.
Proof.
  intros H. apply orb_false_iff in H. destruct H as [H _].
  apply orb_false_iff in H. destruct H as [H _]. apply Z.ltb_ge in H. exact H.
Qed.

Lemma GetCount_frame (sdk : Sdk) (g : Globals) (j : Z) :
  slot (globals (PSYCHOCULUSVRGetCount sdk g)) j = slot g j.
Proof.
  unfold PSYCHOCULUSVRGetCount, PsychOculusVRCheckInit. unfold_sdk. run; reflexivity.
Qed.

Lemma GetTrackingState_frame (sdk : Sdk) (handle : Z) (t : option double) (g : Globals) (j : Z) :
  slot (globals (PSYCHOCULUSVRGetTrackingState sdk handle t g)) j = slot g j.
Proof.
  unfold PSYCHOCULUSVRGetTrackingState, PsychOculusVRCheckInit, PsychGetOculus.
  unfold_sdk. run; reflexivity.
Qed.

(** 'Start' and 'Stop' write to the record of their handle only. *)
Lemma Start_frame (sdk : Sdk) (handle : Z) (g : Globals) (j : Z) :
  0 <= j -> j <> handle - 1 ->
  slot (globals (PSYCHOCULUSVRStart sdk handle g)) j = slot g j.
Proof.
  intros Hj Hne.
  unfold PSYCHOCULUSVRStart, PsychOculusVRCheckInit, PsychGetOculus. unfold_sdk.
  run; fold_slots; try reflexivity.
  all: match goal with
       | H : _ || _ || _ = false |- _ => apply PsychGetOculus_test_ge in H
       end.
  all: rewrite slot_update_slot_other by (apply to_nat_neq; lia); reflexivity.
Qed.

Lemma Stop_frame (sdk : Sdk) (handle : Z) (g : Globals) (j : Z) :
  0 <= j -> j <> handle - 1 ->
  slot (globals (PSYCHOCULUSVRStop sdk handle g)) j = slot g j.
Proof.
  intros Hj Hne.
  unfold PSYCHOCULUSVRStop, PsychOculusStop, PsychOculusVRCheckInit, PsychGetOculus.
  unfold_sdk.
  run; fold_slots; try reflexivity.
  all: match goal with
       | H : _ || _ || _ = false |- _ => apply PsychGetOculus_test_ge in H
       end.
  all: rewrite slot_update_slot_other by (apply to_nat_neq; lia); reflexivity.
Qed.

(** *** Tracking: 'Start' and 'Stop' on an open device *)

Lemma Start_open (sdk : Sdk) (g : Globals) (handle : Z) :
  is_open g handle -> runtime_starts sdk g ->
  PSYCHOCULUSVRStart sdk handle g =
  let g1 := checked sdk g in
  let p := hmd (slot g1 (handle - 1)) in
  if isTracking (slot g1 (handle - 1)) then
    {| outcome := ErrorExit PsychError_user
                    "Tried to start tracking on HMD, but tracking already active.";
       globals := g1;
       calls := calls (PsychOculusVRCheckInit sdk g) |}
  else if sdk_ConfigureTracking sdk p (start_caps sdk) 0 then
    {| outcome := Done tt;
       globals := update_slot (handle - 1) (set_isTracking true) g1;
       calls := calls (PsychOculusVRCheckInit sdk g)
                ++ [Call_ovrHmd_ConfigureTracking p (start_caps sdk) 0] |}
  else
    {| outcome := ErrorExit PsychError_system
                    "Start of Oculus HMD tracking failed for reason given above.";
       globals := g1;
       calls := calls (PsychOculusVRCheckInit sdk g)
                ++ [Call_ovrHmd_ConfigureTracking p (start_caps sdk) 0] |}.
Proof.
  intros Hopen Hrt. cbv zeta. unfold PSYCHOCULUSVRStart.
  rewrite (bind_done _ _ g tt) by (apply CheckInit_starts; exact Hrt).
  fold (checked sdk g). apply (is_open_checked sdk) in Hopen.
  set (g1 := checked sdk g) in *.
  rewrite (bind_done _ _ g1 (Some (handle - 1)))
    by (rewrite PsychGetOculus_open by exact Hopen; reflexivity).
  rewrite PsychGetOculus_open by exact Hopen. cbn [globals calls].
  unfold_sdk. fold (start_caps sdk). repeat step.
  destruct (isTracking (slot g1 (handle - 1))); repeat step.
  - finish. rewrite app_nil_r. reflexivity.
  - destruct (sdk_ConfigureTracking sdk (hmd (slot g1 (handle - 1))) (start_caps sdk) 0);
      repeat step; finish; simpl; reflexivity.
Qed.

Lemma Stop_open (sdk : Sdk) (g : Globals) (handle : Z) :
  is_open g handle -> runtime_starts sdk g ->
  PSYCHOCULUSVRStop sdk handle g =
  let g1 := checked sdk g in
  let p := hmd (slot g1 (handle - 1)) in
  if negb (isTracking (slot g1 (handle - 1))) then
    {| outcome := Done tt; globals := g1;
       calls := calls (PsychOculusVRCheckInit sdk g) |}
  else if sdk_ConfigureTracking sdk p 0 0 then
    {| outcome := Done tt;
       globals := update_slot (handle - 1) (set_isTracking false) g1;
       calls := calls (PsychOculusVRCheckInit sdk g)
                ++ [Call_ovrHmd_ConfigureTracking p 0 0] |}
  else
    {| outcome := ErrorExit PsychError_system
                    "Stop of Oculus HMD tracking failed for reason given above.";
       globals := g1;
       calls := calls (PsychOculusVRCheckInit sdk g)
                ++ [Call_ovrHmd_ConfigureTracking p 0 0] |}.
Proof.
  intros Hopen Hrt. cbv zeta. unfold PSYCHOCULUSVRStop, PsychOculusStop.
  rewrite (bind_done _ _ g tt) by (apply CheckInit_starts; exact Hrt).
  fold (checked sdk g). apply (is_open_checked sdk) in Hopen.
  set (g1 := checked sdk g) in *.
  rewrite (bind_done _ _ g1 (Some (handle - 1)))
    by (rewrite PsychGetOculus_open by exact Hopen; reflexivity).
  rewrite PsychGetOculus_open by exact Hopen. cbn [globals calls].
  unfold_sdk. repeat step.
  destruct (isTracking (slot g1 (handle - 1))); cbn [negb]; repeat step.
  - destruct (sdk_ConfigureTracking sdk (hmd (slot g1 (handle - 1))) 0 0);
      repeat step; finish; simpl; reflexivity.
  - finish. rewrite app_nil_r. reflexivity.
Qed.

Lemma globals_discard {A : Type} (c : Cmd A) (g : Globals) :
  globals (discard c g) = globals (c g).
Proof. unfold discard, bind. destruct (outcome (c g)); reflexivity. Qed.

(** C3: the tracking flag of an open device.  'Start' while the flag is set
    ends in a user error and the flag stays set; 'Stop' while it is clear
    returns normally, asks nothing of the SDK and the flag stays clear;
    'Start' on a clear flag and 'Stop' on a set one, when the SDK grants
    them, set and clear it; and a request that changes the flag is a 'Start'
    or a 'Stop' of this handle, or a 'Close'. *)
Theorem C3_tracking_flag_state_machine (sdk : Sdk) (g : Globals) (handle : Z) :
  well_typed g -> is_open g handle -> runtime_starts sdk g ->
  let tracking := fun st : Globals => isTracking (slot st (handle - 1)) in
  let p := hmd (slot g (handle - 1)) in
  (tracking g = true ->
   outcome (PSYCHOCULUSVRStart sdk handle g) =
     ErrorExit PsychError_user
       "Tried to start tracking on HMD, but tracking already active." /\
   globals (PSYCHOCULUSVRStart sdk handle g) = checked sdk g /\
   tracking (globals (PSYCHOCULUSVRStart sdk handle g)) = true) /\
  (tracking g = false ->
   outcome (PSYCHOCULUSVRStop sdk handle g) = Done tt /\
   globals (PSYCHOCULUSVRStop sdk handle g) = checked sdk g /\
   calls (PSYCHOCULUSVRStop sdk handle g) = calls (PsychOculusVRCheckInit sdk g) /\
   tracking (globals (PSYCHOCULUSVRStop sdk handle g)) = false) /\
  (tracking g = false -> sdk_ConfigureTracking sdk p (start_caps sdk) 0 = true ->
   outcome (PSYCHOCULUSVRStart sdk handle g) = Done tt /\
   tracking (globals (PSYCHOCULUSVRStart sdk handle g)) = true) /\
  (tracking g = true -> sdk_ConfigureTracking sdk p 0 0 = true ->
   outcome (PSYCHOCULUSVRStop sdk handle g) = Done tt /\
   tracking (globals (PSYCHOCULUSVRStop sdk handle g)) = false) /\
  (forall sdk' r,
     tracking (globals (dispatch sdk' r g)) <> tracking g ->
     r = Start handle \/ r = Stop handle \/ exists a, r = Close a).
Proof.
  intros Hwt Hopen Hrt. cbv zeta.
  pose proof (Start_open sdk g handle Hopen Hrt) as HS.
  pose proof (Stop_open sdk g handle Hopen Hrt) as HT.
  cbv zeta in HS, HT. rewrite !slot_checked in HS, HT.
  assert (Hr : (Z.to_nat (handle - 1) < length (oculusdevices (checked sdk g)))%nat).
  { apply in_range; [apply well_typed_checked; exact Hwt | unfold is_open in Hopen; lia]. }
  split; [| split; [| split; [| split]]].
  - intros Ht. rewrite Ht in HS. rewrite HS. cbn [outcome globals].
    rewrite slot_checked. auto.
  - intros Ht. rewrite Ht in HT. cbn [negb] in HT. rewrite HT. cbn [outcome globals calls].
    rewrite slot_checked. auto.
  - intros Ht Hok. rewrite Ht, Hok in HS. rewrite HS. cbn [outcome globals].
    split; [reflexivity |]. rewrite slot_update_slot_same by exact Hr. reflexivity.
  - intros Ht Hok. rewrite Ht, Hok in HT. cbn [negb] in HT. rewrite HT. cbn [outcome globals].
    split; [reflexivity |]. rewrite slot_update_slot_same by exact Hr. reflexivity.
  - intros sdk' r Hchg.
    assert (H0 : 0 <= handle - 1) by (unfold is_open in Hopen; lia).
    assert (Hp : hmd (slot g (handle - 1)) <> NULL) by apply Hopen.
    destruct r as [| idx | a | h' | h' | h' t | h' eye fov ppd];
      cbn [dispatch] in Hchg; rewrite ?globals_discard in Hchg.
    + exfalso. apply Hchg. rewrite GetCount_frame. reflexivity.
    + exfalso. apply Hchg. rewrite Open_frame by assumption. reflexivity.
    + right. right. exists a. reflexivity.
    + destruct (Z.eq_dec h' handle) as [-> | Hne]; [left; reflexivity |].
      exfalso. apply Hchg. rewrite Start_frame by lia. reflexivity.
    + destruct (Z.eq_dec h' handle) as [-> | Hne]; [right; left; reflexivity |].
      exfalso. apply Hchg. rewrite Stop_frame by lia. reflexivity.
    + exfalso. apply Hchg. rewrite GetTrackingState_frame. reflexivity.
    + exfalso. apply Hchg.
      apply (GetFovTextureSize_frame isTracking); intros; reflexivity.
Qed.

Lemma C3_tracking_flag_state_machine_witness :
  outcome (PSYCHOCULUSVRStop (sample_sdk 100 200) 1 one_open) = Done tt /\
  isTracking (slot (globals (PSYCHOCULUSVRStop (sample_sdk 100 200) 1 one_open)) 0) = false /\
  outcome (PSYCHOCULUSVRStart (sample_sdk 100 200) 1 one_open) = Done tt /\
  isTracking (slot (globals (PSYCHOCULUSVRStart (sample_sdk 100 200) 1 one_open)) 0) = true.
Proof.
  assert (Hwt : well_typed one_open)
    by (split; [reflexivity | split; [vm_compute; discriminate | reflexivity]]).
  assert (Hopen : is_open one_open 1)
    by (split; [unfold MAX_PSYCH_OCULUS_DEVS; lia | vm_compute; discriminate]).
  assert (Hrt : runtime_starts (sample_sdk 100 200) one_open) by (left; reflexivity).
  pose proof (C3_tracking_flag_state_machine (sample_sdk 100 200) one_open 1 Hwt Hopen Hrt)
    as H.
  cbv zeta in H. destruct H as (_ & Hstop & Hstart & _).
  destruct (Hstop eq_refl) as (Ho & _ & _ & Hf).
  destruct (Hstart eq_refl eq_refl) as (Ho' & Hf').
  exact (conj Ho (conj Hf (conj Ho' Hf'))).
Defined.

(** *** 'GetTrackingState' *)

Lemma GetTrackingState_open (sdk : Sdk) (g : Globals) (handle : Z) (t : option double) :
  is_open g handle -> runtime_starts sdk g ->
  PSYCHOCULUSVRGetTrackingState sdk handle t g =
  let p := hmd (slot g (handle - 1)) in
  {| outcome := Done (tracking_vector (sdk_GetTrackingState sdk p (default 0%float t)));
     globals := checked sdk g;
     calls := calls (PsychOculusVRCheckInit sdk g)
              ++ [Call_ovrHmd_GetTrackingState p (default 0%float t)] |}.
Proof.
  intros Hopen Hrt. cbv zeta. unfold PSYCHOCULUSVRGetTrackingState.
  rewrite (bind_done _ _ g tt) by (apply CheckInit_starts; exact Hrt).
  fold (checked sdk g). apply (is_open_checked sdk) in Hopen.
  rewrite <- (slot_checked sdk g).
  set (g1 := checked sdk g) in *.
  rewrite (bind_done _ _ g1 (Some (handle - 1)))
    by (rewrite PsychGetOculus_open by exact Hopen; reflexivity).
  rewrite PsychGetOculus_open by exact Hopen. cbn [globals calls].
  unfold_sdk. repeat step. finish. simpl. reflexivity.
Qed.

(** C8: on an open handle, with the runtime up or starting, and for every
    prediction time (0 when left out), 'GetTrackingState' returns twenty
    numbers: the time stamp, the position x y z, the orientation quaternion
    x y z w, the linear velocity, the angular velocity, the linear
    acceleration and the angular acceleration, each x y z, which are the
    fields of the tracking state the SDK answers for that time, as they
    are. *)
Theorem C8_tracking_state_vector (sdk : Sdk) (g : Globals) (handle : Z) (t : option double) :
  is_open g handle -> runtime_starts sdk g ->
  let hp := HeadPose (sdk_GetTrackingState sdk (hmd (slot g (handle - 1)))
                        (default 0%float t)) in
  exists v,
    outcome (PSYCHOCULUSVRGetTrackingState sdk handle t g) = Done v /\
    length v = 20%nat /\
    v !! 0%nat = Some (TimeInSeconds hp) /\
    v !! 1%nat = Some (x3 (Position (ThePose hp))) /\
    v !! 2%nat = Some (y3 (Position (ThePose hp))) /\
    v !! 3%nat = Some (z3 (Position (ThePose hp))) /\
    v !! 4%nat = Some (qx (Orientation (ThePose hp))) /\
    v !! 5%nat = Some (qy (Orientation (ThePose hp))) /\
    v !! 6%nat = Some (qz (Orientation (ThePose hp))) /\
    v !! 7%nat = Some (qw (Orientation (ThePose hp))) /\
    v !! 8%nat = Some (x3 (LinearVelocity hp)) /\
    v !! 9%nat = Some (y3 (LinearVelocity hp)) /\
    v !! 10%nat = Some (z3 (LinearVelocity hp)) /\
    v !! 11%nat = Some (x3 (AngularVelocity hp)) /\
    v !! 12%nat = Some (y3 (AngularVelocity hp)) /\
    v !! 13%nat = Some (z3 (AngularVelocity hp)) /\
    v !! 14%nat = Some (x3 (LinearAcceleration hp)) /\
    v !! 15%nat = Some (y3 (LinearAcceleration hp)) /\
    v !! 16%nat = Some (z3 (LinearAcceleration hp)) /\
    v !! 17%nat = Some (x3 (AngularAcceleration hp)) /\
    v !! 18%nat = Some (y3 (AngularAcceleration hp)) /\
    v !! 19%nat = Some (z3 (AngularAcceleration hp)).
Proof.
  intros Hopen Hrt. cbv zeta.
  rewrite (GetTrackingState_open sdk g handle t Hopen Hrt). cbv zeta. cbn [outcome].
  eexists. split; [reflexivity |]. unfold tracking_vector. cbv zeta.
  repeat split.
Qed.

Lemma C8_tracking_state_vector_witness :
  exists v,
    outcome (PSYCHOCULUSVRGetTrackingState (sample_sdk 100 200) 1 None one_open) = Done v /\
    length v = 20%nat /\
    v !! 0%nat = Some 0.5%float /\
    v !! 1%nat = Some 1%float.
Proof.
  assert (Hopen : is_open one_open 1)
    by (split; [unfold MAX_PSYCH_OCULUS_DEVS; lia | vm_compute; discriminate]).
  assert (Hrt : runtime_starts (sample_sdk 100 200) one_open) by (left; reflexivity).
  destruct (C8_tracking_state_vector (sample_sdk 100 200) one_open 1 None Hopen Hrt)
    as (v & Hv & Hl & H0 & H1 & _).
  exists v. exact (conj Hv (conj Hl (conj H0 H1))).
Defined.

(** *** 'GetFovTextureSize': the check of 'pixelsPerDisplay' *)

Lemma CheckInit_calls (sdk : Sdk) (g : Globals) :
  calls (PsychOculusVRCheckInit sdk g) = [] \/
  calls (PsychOculusVRCheckInit sdk g) = [Call_ovr_Initialize] \/
  calls (PsychOculusVRCheckInit sdk g) = [Call_ovr_Initialize; Call_ovrHmd_Detect].
Proof.
  unfold PsychOculusVRCheckInit. unfold_sdk. run; simpl; auto.
Qed.

(** C9: on an open handle, with eye index 0 or 1 and whatever field of view
    is passed, 'GetFovTextureSize' with a 'pixelsPerDisplay' that is less
    than or equal to zero ends in a user error; up to then it has made no
    call into the SDK but those of the initialisation check, so none with
    that scale factor, and the state is as the check left it.  When the
    field of view is left out or has four components, the error is the one
    about 'pixelsPerDisplay'. *)
Theorem C9_pixelsPerDisplay_not_positive (sdk : Sdk) (g : Globals) (handle eye : Z)
  (fov : option (list double)) (pixelsPerDisplay : double) :
  is_open g handle -> runtime_starts sdk g ->
  0 <= eye <= 1 ->
  (pixelsPerDisplay <=? 0)%float = true ->
  let r := PSYCHOCULUSVRGetFovTextureSize sdk handle eye fov (Some pixelsPerDisplay) g in
  (exists msg, outcome r = ErrorExit PsychError_user msg) /\
  globals r = checked sdk g /\
  calls r = calls (PsychOculusVRCheckInit sdk g) /\
  (forall p e f s, ~ In (Call_ovrHmd_GetFovTextureSize p e f s) (calls r)) /\
  (match fov with Some l => length l = 4%nat | None => True end ->
   outcome r = ErrorExit PsychError_user
                 "Invalid 'pixelsPerDisplay' specified. Must be greater than zero.").
Proof.
  intros Hopen Hrt Heye Hppd. cbv zeta.
  assert (Hcalls : forall l, l = calls (PsychOculusVRCheckInit sdk g) ->
            forall p e f s, ~ In (Call_ovrHmd_GetFovTextureSize p e f s) l).
  { intros l -> p e f s.
    destruct (CheckInit_calls sdk g) as [-> | [-> | ->]]; simpl; intuition discriminate. }
  unfold PSYCHOCULUSVRGetFovTextureSize.
  rewrite (bind_done _ _ g tt) by (apply CheckInit_starts; exact Hrt).
  fold (checked sdk g). apply (is_open_checked sdk) in Hopen.
  set (g1 := checked sdk g) in *.
  rewrite (bind_done _ _ g1 (Some (handle - 1)))
    by (rewrite PsychGetOculus_open by exact Hopen; reflexivity).
  rewrite PsychGetOculus_open by exact Hopen. cbn [globals calls outcome].
  assert (He : (eye <? 0) || (eye >? 1) = false).
  { apply orb_false_iff. split; [apply Z.ltb_ge; lia |].
    rewrite Z.gtb_ltb. apply Z.ltb_ge. lia. }
  rewrite He. repeat step. cbn [default from_option id].
  destruct fov as [l |].
  - repeat step. destruct (Z.of_nat (length l) =? 4) eqn:El; repeat step.
    + rewrite Hppd. repeat step. rewrite !app_nil_r.
      split; [eexists; reflexivity |]. split; [reflexivity |]. split; [reflexivity |].
      split; [apply Hcalls; reflexivity | reflexivity].
    + rewrite !app_nil_r.
      split; [eexists; reflexivity |]. split; [reflexivity |]. split; [reflexivity |].
      split; [apply Hcalls; reflexivity |].
      intros Hl. apply Z.eqb_neq in El. lia.
  - repeat step. rewrite Hppd. repeat step. rewrite !app_nil_r.
    split; [eexists; reflexivity |]. split; [reflexivity |]. split; [reflexivity |].
    split; [apply Hcalls; reflexivity | reflexivity].
Qed.

Lemma C9_pixelsPerDisplay_not_positive_witness :
  outcome (PSYCHOCULUSVRGetFovTextureSize (sample_sdk 100 200) 1 0 None (Some 0%float)
             one_open) =
  ErrorExit PsychError_user
    "Invalid 'pixelsPerDisplay' specified. Must be greater than zero.".
Proof.
  assert (Hopen : is_open one_open 1)
    by (split; [unfold MAX_PSYCH_OCULUS_DEVS; lia | vm_compute; discriminate]).
  assert (Hrt : runtime_starts (sample_sdk 100 200) one_open) by (left; reflexivity).
  assert (Heye : 0 <= 0 <= 1) by lia.
  pose proof (C9_pixelsPerDisplay_not_positive (sample_sdk 100 200) one_open 1 0 None
                0%float Hopen Hrt Heye eq_refl) as H.
  cbv zeta in H. destruct H as (_ & _ & _ & _ & H).
  exact (H I).
Defined.

(** *** 'GetFovTextureSize': the distortion mesh *)

Lemma vertex_loop_length (vs : list ovrDistortionVertex) :
  length (vertex_loop vs) = (10 * length vs)%nat.
Proof. induction vs as [| v vs IH]; simpl; [reflexivity | rewrite IH; lia]. Qed.

Lemma vertex_loop_lookup (vs : list ovrDistortionVertex) :
  forall (i k : nat) (v : ovrDistortionVertex),
    vs !! i = Some v -> (k < 10)%nat ->
    vertex_loop vs !! (10 * i + k)%nat = vertex_fields v !! k.
Proof.
  induction vs as [| v0 vs IH]; intros i k v Hi Hk; [discriminate |].
  destruct i as [| i].
  - injection Hi as ->. cbn [vertex_loop]. rewrite Nat.mul_0_r, Nat.add_0_l.
    apply lookup_app_l. simpl. exact Hk.
  - cbn [vertex_loop]. simpl in Hi.
    replace (10 * S i + k)%nat with (length (vertex_fields v0) + (10 * i + k))%nat
      by (simpl; lia).
    rewrite lookup_app_r by lia.
    replace (length (vertex_fields v0) + (10 * i + k) - length (vertex_fields v0))%nat
      with (10 * i + k)%nat by lia.
    apply IH; assumption.
Qed.

(** When 'GetFovTextureSize' returns, the vertex output is the vertex loop
    run over the buffer of the mesh now cached for that eye. *)
Lemma GetFovTextureSize_vertices (sdk : Sdk) (handle eye : Z) (fov : option (list double))
  (ppd : option double) (g : Globals) :
  forall r, PSYCHOCULUSVRGetFovTextureSize sdk handle eye fov ppd g = r ->
  forall res, outcome r = Done res ->
    let mesh := cached_mesh (globals r) handle eye in
    VertexCount mesh <= Z.of_nat (length (mem_vertices sdk (pVertexData mesh))) /\
    out_meshVertices res =
      vertex_loop (firstn (Z.to_nat (VertexCount mesh)) (mem_vertices sdk (pVertexData mesh))).
Proof.
  unfold PSYCHOCULUSVRGetFovTextureSize, PsychOculusVRCheckInit, PsychGetOculus, cached_mesh.
  unfold_sdk.
  run_named.
  all: intros r <- res; cbn [outcome globals]; intros Hres;
    try discriminate Hres.
  all: apply (f_equal (fun o => match o with
                                | Done x => out_meshVertices x
                                | _ => []
                                end)) in Hres;
    cbv beta iota in Hres; cbn [out_meshVertices] in Hres; rewrite <- Hres; clear Hres.
  all: match goal with
       | H : (Z.of_nat (length (mem_vertices _ _))
              <? VertexCount (get2 (eyeDistortionMesh (slot ?sm _)) _)) = false
         |- context [eyeDistortionMesh (slot ?sf _)] =>
           assert (E : eyeDistortionMesh (slot sf (handle - 1))
                       = eyeDistortionMesh (slot sm (handle - 1)));
           [ repeat (match goal with
                     | |- eyeDistortionMesh (slot ?s _) = eyeDistortionMesh (slot ?s' _) =>
                         first [ constr_eq s s'; fail 1
                               | unfold s;
                                 rewrite (slot_update_slot_field eyeDistortionMesh)
                                   by (intros; reflexivity) ]
                     end); reflexivity
           | rewrite E; apply Z.ltb_ge in H; split; [exact H | reflexivity] ]
       end.
Qed.

(** C6 (as the driver has it): when 'GetFovTextureSize' returns, its vertex
    output holds ten numbers for each of the [VertexCount] vertices of the
    mesh cached for that eye, in vertex order: screen position x and y, the
    time-warp factor, the vignette factor, then for red, green and blue the
    tangent x, copied, and the tangent y multiplied by -1.  The y tangent
    is negated for all three channels, red included; the other seven fields
    are copied. *)
Theorem C6_mesh_vertex_fields (sdk : Sdk) (handle eye : Z) (fov : option (list double))
  (ppd : option double) (g : Globals) (res : FovTextureSizeResult) :
  outcome (PSYCHOCULUSVRGetFovTextureSize sdk handle eye fov ppd g) = Done res ->
  let mesh :=
    cached_mesh (globals (PSYCHOCULUSVRGetFovTextureSize sdk handle eye fov ppd g))
      handle eye in
  let n := Z.to_nat (VertexCount mesh) in
  let vs := firstn n (mem_vertices sdk (pVertexData mesh)) in
  length vs = n /\
  length (out_meshVertices res) = (10 * n)%nat /\
  forall (i : nat) (v : ovrDistortionVertex),
    vs !! i = Some v ->
    out_meshVertices res !! (10 * i + 0)%nat = Some (x2 (ScreenPosNDC v)) /\
    out_meshVertices res !! (10 * i + 1)%nat = Some (y2 (ScreenPosNDC v)) /\
    out_meshVertices res !! (10 * i + 2)%nat = Some (TimeWarpFactor v) /\
    out_meshVertices res !! (10 * i + 3)%nat = Some (VignetteFactor v) /\
    out_meshVertices res !! (10 * i + 4)%nat = Some (x2 (TanEyeAnglesR v)) /\
    out_meshVertices res !! (10 * i + 5)%nat = Some (y2 (TanEyeAnglesR v) * -1)%float /\
    out_meshVertices res !! (10 * i + 6)%nat = Some (x2 (TanEyeAnglesG v)) /\
    out_meshVertices res !! (10 * i + 7)%nat = Some (y2 (TanEyeAnglesG v) * -1)%float /\
    out_meshVertices res !! (10 * i + 8)%nat = Some (x2 (TanEyeAnglesB v)) /\
    out_meshVertices res !! (10 * i + 9)%nat = Some (y2 (TanEyeAnglesB v) * -1)%float.
Proof.
  intros Hres. cbv zeta.
  destruct (GetFovTextureSize_vertices sdk handle eye fov ppd g _ eq_refl res Hres)
    as [Hn Hv].
  cbv zeta in Hn, Hv. rewrite Hv.
  set (mesh := cached_mesh _ handle eye) in *.
  assert (Hlen : length (firstn (Z.to_nat (VertexCount mesh))
                           (mem_vertices sdk (pVertexData mesh)))
                 = Z.to_nat (VertexCount mesh)).
  { rewrite length_firstn. lia. }
  split; [exact Hlen |]. split; [rewrite vertex_loop_length, Hlen; reflexivity |].
  intros i v Hi.
  repeat split; rewrite (vertex_loop_lookup _ i _ v Hi) by lia; reflexivity.
Qed.

(** The emulated headset opened as handle 1; the SDK's mesh has three
    vertices whose red tangent is (2, 3). *)
Lemma C6_mesh_vertex_fields_witness :
  exists res,
    outcome (PSYCHOCULUSVRGetFovTextureSize (sample_sdk 100 200) 1 0 None None one_open)
      = Done res /\
    out_meshVertices res !! 4%nat = Some 2%float /\
    out_meshVertices res !! 5%nat = Some (3 * -1)%float.
Proof.
  assert (Hex : exists res,
             outcome (PSYCHOCULUSVRGetFovTextureSize (sample_sdk 100 200) 1 0 None None
                        one_open) = Done res)
    by (eexists; vm_compute; reflexivity).
  destruct Hex as [res Hres]. exists res. split; [exact Hres |].
  pose proof (C6_mesh_vertex_fields (sample_sdk 100 200) 1 0 None None one_open res Hres)
    as H.
  cbv zeta in H. destruct H as (_ & _ & Hf).
  assert (Hv : firstn
                 (Z.to_nat (VertexCount
                    (cached_mesh
                       (globals (PSYCHOCULUSVRGetFovTextureSize (sample_sdk 100 200) 1 0
                                   None None one_open)) 1 0)))
                 (mem_vertices (sample_sdk 100 200)
                    (pVertexData
                       (cached_mesh
                          (globals (PSYCHOCULUSVRGetFovTextureSize (sample_sdk 100 200) 1 0
                                      None None one_open)) 1 0))) !! 0%nat
               = Some sample_vertex)
    by (vm_compute; reflexivity).
  destruct (Hf 0%nat sample_vertex Hv) as (_ & _ & _ & _ & H4 & H5 & _).
  exact (conj H4 H5).
Defined.

(** C6 as stated fails: the red y tangent is not copied unchanged. *)
Lemma C6_red_tangent_is_negated_too :
  exists res,
    outcome (PSYCHOCULUSVRGetFovTextureSize (sample_sdk 100 200) 1 0 None None one_open)
      = Done res /\
    y2 (TanEyeAnglesR sample_vertex) = 3%float /\
    out_meshVertices res !! 5%nat = Some (-3)%float /\
    out_meshVertices res !! 5%nat <> Some (y2 (TanEyeAnglesR sample_vertex)).
Proof.
  eexists. split; [vm_compute; reflexivity |].
  split; [reflexivity |]. split; [vm_compute; reflexivity |].
  vm_compute. intros H. discriminate H.
Qed.

(** *** Ownership of the distortion meshes *)

(** C7 fails on the code: the second 'GetFovTextureSize' has the SDK write a
    new mesh over the record's mesh at 200 without releasing it, and 'Close'
    releases the mesh at 300 only; the buffer at 200 is never released. *)
Lemma C7_overwritten_mesh_is_never_released :
  acquired (calls_of_requests mesh_twice loaded) = [200; 300] /\
  overwritten (calls_of_requests mesh_twice loaded) = [200] /\
  released (calls_of_requests mesh_twice loaded) = [300] /\
  hmd (slot (run_requests mesh_twice loaded) 0) = NULL.
Proof. vm_compute. repeat split. Qed.

(** *** Shutdown *)

Lemma handle_open_true (g : Globals) (handle : Z) :
  handle_open g handle = true -> is_open g handle.
Proof.
  unfold handle_open, is_open. intros H. apply negb_true_iff in H.
  apply orb_false_iff in H. destruct H as [H H3].
  apply orb_false_iff in H. destruct H as [H1 H2].
  apply Z.ltb_ge in H1. rewrite Z.gtb_ltb in H2. apply Z.ltb_ge in H2.
  apply Z.eqb_neq in H3. auto.
Qed.

Lemma handle_open_false (g : Globals) (handle : Z) :
  handle_open g handle = false -> not_open g handle.
Proof.
  unfold handle_open, not_open. intros H. apply negb_false_iff in H.
  apply orb_true_iff in H. destruct H as [H | H3].
  - apply orb_true_iff in H. destruct H as [H1 | H2].
    + apply Z.ltb_lt in H1. auto.
    + rewrite Z.gtb_ltb in H2. apply Z.ltb_lt in H2. right. left. lia.
  - apply Z.eqb_eq in H3. auto.
Qed.

Lemma open_between_ext (g g' : Globals) (n : nat) :
  forall lo,
    (forall h, lo <= h < lo + Z.of_nat n -> slot g' (h - 1) = slot g (h - 1)) ->
    open_between g' lo n = open_between g lo n.
Proof.
  induction n as [| n IH]; intros lo Hs; [reflexivity |].
  cbn [open_between]. rewrite IH by (intros h Hh; apply Hs; lia).
  unfold handle_open. rewrite Hs by lia. reflexivity.
Qed.

Lemma stop_granted_ext (sdk : Sdk) (g g' : Globals) (handle : Z) :
  slot g' (handle - 1) = slot g (handle - 1) ->
  stop_granted sdk g handle -> stop_granted sdk g' handle.
Proof. unfold stop_granted. intros ->. auto. Qed.

Lemma not_open_ext (g g' : Globals) (handle : Z) :
  slot g' (handle - 1) = slot g (handle - 1) ->
  not_open g handle -> not_open g' handle.
Proof. unfold not_open. intros ->. auto. Qed.

(** The loop of [PsychOculusVRShutDown] over the handles [lo], ...,
    [lo + n - 1], when the SDK grants every stop of tracking. *)
Lemma close_range (sdk : Sdk) (n : nat) :
  forall (lo : Z) (g : Globals),
    1 <= lo ->
    well_typed g ->
    (forall h, lo <= h < lo + Z.of_nat n -> stop_granted sdk g h) ->
    exists g' l,
      for_range lo n (PsychOculusClose sdk) g =
        {| outcome := Done tt; globals := g'; calls := l |} /\
      well_typed g' /\
      (forall h, lo <= h < lo + Z.of_nat n -> not_open g' h) /\
      (forall j, 0 <= j -> ~ (lo <= j + 1 < lo + Z.of_nat n) -> slot g' j = slot g j) /\
      devicecount g' = (devicecount g - open_between g lo n) mod UINT_MOD /\
      available_devices g' = available_devices g /\
      initialized g' = initialized g.
Proof.
  induction n as [| n IH]; intros lo g Hlo Hwt Hst.
  - exists g, []. split; [reflexivity |]. split; [exact Hwt |].
    split; [intros h Hh; lia |]. split; [reflexivity |].
    split; [| split; reflexivity].
    cbn [open_between]. rewrite Z.sub_0_r. symmetry. apply Z.mod_small. apply Hwt.
  - cbn [for_range open_between].
    assert (Hstep : exists g1 l1,
               PsychOculusClose sdk lo g = {| outcome := Done tt; globals := g1; calls := l1 |} /\
               well_typed g1 /\ not_open g1 lo /\
               (forall j, 0 <= j -> j <> lo - 1 -> slot g1 j = slot g j) /\
               devicecount g1 =
                 (devicecount g - (if handle_open g lo then 1 else 0)) mod UINT_MOD /\
               available_devices g1 = available_devices g /\
               initialized g1 = initialized g).
    { destruct (handle_open g lo) eqn:Ho.
      - destruct (PsychOculusClose_open sdk g lo Hwt (handle_open_true _ _ Ho))
          as (g1 & l1 & E & Hh & _ & Hfr & Hd & Ha & Hi & Hwt1); [apply Hst; lia |].
        exists g1, l1. split; [exact E |]. split; [exact Hwt1 |].
        split; [right; right; exact Hh |]. auto.
      - exists g, []. split; [apply PsychOculusClose_not_open, handle_open_false, Ho |].
        split; [exact Hwt |]. split; [apply handle_open_false, Ho |].
        split; [reflexivity |]. split; [| split; reflexivity].
        rewrite Z.sub_0_r. symmetry. apply Z.mod_small. apply Hwt. }
    destruct Hstep as (g1 & l1 & E1 & Hwt1 & Hno1 & Hfr1 & Hd1 & Ha1 & Hi1).
    destruct (IH (lo + 1) g1) as (g' & l' & E' & Hwt' & Hno' & Hfr' & Hd' & Ha' & Hi').
    + lia.
    + exact Hwt1.
    + intros h Hh. apply (stop_granted_ext sdk g); [apply Hfr1; lia | apply Hst; lia].
    + exists g', (l1 ++ l'). split.
      { unfold bind. rewrite E1. cbn [outcome globals calls]. rewrite E'. reflexivity. }
      split; [exact Hwt' |]. split.
      { intros h Hh. destruct (Z.eq_dec h lo) as [-> | Hne].
        - apply (not_open_ext g1); [apply Hfr'; lia | exact Hno1].
        - apply Hno'. lia. }
      split.
      { intros j Hj Hout. rewrite Hfr' by lia. apply Hfr1; lia. }
      split; [| split; congruence].
      rewrite Hd', Hd1. rewrite Zminus_mod_idemp_l.
      rewrite (open_between_ext g g1) by (intros h Hh; apply Hfr1; lia).
      f_equal. lia.
Qed.

Lemma for_range_S (lo : Z) (n : nat) (body : Z -> Cmd unit) :
  for_range lo (S n) body = (body lo ;; for_range (lo + 1) n body).
Proof. reflexivity. Qed.

Lemma open_between_last (g : Globals) (n : nat) :
  forall lo,
    open_between g lo (S n) =
    open_between g lo n + (if handle_open g (lo + Z.of_nat n) then 1 else 0).
Proof.
  induction n as [| n IH]; intros lo.
  - change (Z.of_nat 0) with 0. rewrite Z.add_0_r.
    change (open_between g lo 1) with ((if handle_open g lo then 1 else 0) + 0).
    change (open_between g lo 0) with 0. lia.
  - change (open_between g lo (S (S n)))
      with ((if handle_open g lo then 1 else 0) + open_between g (lo + 1) (S n)).
    rewrite IH.
    change (open_between g lo (S n))
      with ((if handle_open g lo then 1 else 0) + open_between g (lo + 1) n).
    replace (lo + 1 + Z.of_nat n) with (lo + Z.of_nat (S n)) by lia. lia.
Qed.

Lemma not_open_handle_open (g : Globals) (handle : Z) :
  not_open g handle -> handle_open g handle = false.
Proof.
  intros H. unfold handle_open. rewrite (not_open_test _ _ H). reflexivity.
Qed.

Lemma ShutDown_initialized (sdk : Sdk) (g : Globals) :
  well_typed g -> initialized g = true ->
  (forall h, 1 <= h <= 9 -> stop_granted sdk g h) ->
  exists g' l,
    PsychOculusVRShutDown sdk g =
      {| outcome := Done PsychError_none; globals := g'; calls := l |} /\
    shut_down_from g g'.
Proof.
  intros Hwt Hi Hst.
  destruct (close_range sdk 9 1 g) as (g1 & l1 & E & Hwt1 & Hno & Hfr & Hd & Ha & Hi1);
    [lia | exact Hwt | intros h Hh; apply Hst; lia |].
  exists (with_initialized false g1), (l1 ++ [Call_ovr_Shutdown]). split.
  - unfold PsychOculusVRShutDown. step. rewrite Hi. cbn [when].
    change (Z.to_nat MAX_PSYCH_OCULUS_DEVS) with (S 9).
    rewrite for_range_S. change (0 + 1) with 1. rewrite !bind_assoc_eq.
    rewrite (bind_done _ _ g tt)
      by (rewrite PsychOculusClose_not_open by (left; lia); reflexivity).
    rewrite PsychOculusClose_not_open by (left; lia). cbn [globals calls app].
    rewrite (bind_done _ _ g tt) by (rewrite E; reflexivity).
    rewrite E. cbn [outcome globals calls].
    unfold_sdk. repeat step. finish. simpl. reflexivity.
  - split; [reflexivity |]. split.
    { intros h Hh. unfold not_open. rewrite slot_with_initialized.
      destruct (Z_lt_ge_dec h 1) as [Hlt | Hge]; [left; exact Hlt |].
      apply Hno. lia. }
    split.
    { intros H10 h. unfold not_open. rewrite slot_with_initialized.
      destruct (Z_lt_ge_dec h 1) as [Hlt | Hge]; [left; exact Hlt |].
      destruct (Z_le_gt_dec h 9) as [H9 | H9]; [apply Hno; lia |].
      destruct (Z.eq_dec h 10) as [-> | Hne].
      - apply (not_open_ext g); [apply Hfr; lia | exact H10].
      - right. left. unfold MAX_PSYCH_OCULUS_DEVS. lia. }
    split; [exact Hd |]. split; [| exact Ha].
    intros H10 Hcount. cbn [devicecount with_initialized]. rewrite Hd, Hcount.
    rewrite (open_between_last g 9 1).
    change (1 + Z.of_nat 9) with 10. rewrite (not_open_handle_open g 10 H10).
    rewrite Z.add_0_r, Z.sub_diag. reflexivity.
Qed.

(** C2 (as the driver has it): a shutdown, by the exit handler on an
    initialised runtime or by 'Close' without a handle, during which the SDK
    grants every stop of tracking, returns normally, clears the
    initialisation flag, leaves no handle up to 9 open (and no handle at all
    when handle 10 was not open), and decrements the count of open devices
    once for each device it closes (to 0, when the count was the number of
    open handles and handle 10 was not open); the count of detected devices
    is not reset. *)
Theorem C2_shutdown_effects (sdk : Sdk) (g : Globals) :
  well_typed g ->
  (forall h, 1 <= h <= 9 -> stop_granted sdk g h) ->
  (initialized g = true ->
   outcome (PsychOculusVRShutDown sdk g) = Done PsychError_none /\
   shut_down_from g (globals (PsychOculusVRShutDown sdk g))) /\
  (runtime_starts sdk g ->
   outcome (PSYCHOCULUSVRClose sdk None g) = Done tt /\
   shut_down_from (checked sdk g) (globals (PSYCHOCULUSVRClose sdk None g))).
Proof.
  intros Hwt Hst. split.
  - intros Hi. destruct (ShutDown_initialized sdk g Hwt Hi Hst) as (g' & l & -> & H).
    split; [reflexivity | exact H].
  - intros Hrt. unfold PSYCHOCULUSVRClose.
    rewrite (bind_done _ _ g tt) by (apply CheckInit_starts; exact Hrt).
    fold (checked sdk g). cbn [outcome globals default from_option].
    change (-1 >=? 1) with false. cbv iota.
    destruct (ShutDown_initialized sdk (checked sdk g)) as (g' & l & E & H).
    + apply well_typed_checked. exact Hwt.
    + apply checked_runtime_up. exact Hrt.
    + intros h Hh. apply (stop_granted_ext sdk g); [apply slot_checked | apply Hst; exact Hh].
    + unfold bind. rewrite E. cbn [outcome globals]. split; [reflexivity | exact H].
Qed.

Lemma C2_shutdown_effects_witness :
  outcome (PSYCHOCULUSVRClose (sample_sdk 100 200) None one_real) = Done tt /\
  shut_down_from (checked (sample_sdk 100 200) one_real)
    (globals (PSYCHOCULUSVRClose (sample_sdk 100 200) None one_real)).
Proof.
  assert (Hwt : well_typed one_real)
    by (split; [reflexivity | split; [vm_compute; discriminate | reflexivity]]).
  assert (Hst : forall h, 1 <= h <= 9 -> stop_granted (sample_sdk 100 200) one_real h)
    by (intros h Hh Ht; reflexivity).
  assert (Hrt : runtime_starts (sample_sdk 100 200) one_real) by (left; reflexivity).
  exact (proj2 (C2_shutdown_effects (sample_sdk 100 200) one_real Hwt Hst) Hrt).
Defined.

(** C2 as stated fails: after the shutdown of a reachable state the count of
    detected devices is 1, not the 0 of the initial state. *)
Lemma C2_detected_count_is_not_reset :
  reachable one_real /\
  outcome (PSYCHOCULUSVRClose (sample_sdk 100 200) None one_real) = Done tt /\
  available_devices (globals (PSYCHOCULUSVRClose (sample_sdk 100 200) None one_real)) = 1 /\
  available_devices startup = 0 /\
  globals (PSYCHOCULUSVRClose (sample_sdk 100 200) None one_real) <> startup.
Proof.
  split.
  { apply reachable_request; [apply reachable_loaded | vm_compute; discriminate]. }
  split; [vm_compute; reflexivity |]. split; [vm_compute; reflexivity |].
  split; [reflexivity |].
  intros H. apply (f_equal available_devices) in H. vm_compute in H. discriminate H.
Qed.

(** The loop of [PsychOculusVRShutDown] passes 0, ..., 9 to
    [PsychOculusClose], whose handles are 1, ..., 10: with the table full,
    handle 10 stays open and is counted. *)
Lemma ShutDown_skips_handle_10 :
  let full := snd (open_each ten_opens loaded) in
  let g' := globals (PSYCHOCULUSVRClose (sample_sdk 111 200) None full) in
  outcome (PSYCHOCULUSVRClose (sample_sdk 111 200) None full) = Done tt /\
  initialized g' = false /\
  hmd (slot g' 9) = 110 /\
  devicecount g' = 1.
Proof. vm_compute. repeat split. Qed.

(** *** Invariants of the globals *)

Section Keeps.

Variable I : Globals -> Prop.

Lemma keeps_ret {A : Type} (a : A) : keeps I (ret a).
Proof. intros g H. exact H. Qed.

Lemma keeps_get : keeps I get.
Proof. intros g H. exact H. Qed.

Lemma keeps_sdk_call {A : Type} (c : SdkCall) (a : A) : keeps I (sdk_call c a).
Proof. intros g H. exact H. Qed.

Lemma keeps_error {A : Type} (e : PsychError) (msg : string) :
  keeps I (@PsychErrorExitMsg A e msg).
Proof. intros g H. exact H. Qed.

Lemma keeps_fault {A : Type} : keeps I (@fault A).
Proof. intros g H. exact H. Qed.

Lemma keeps_modify (u : Globals -> Globals) :
  (forall g, I g -> I (u g)) -> keeps I (modify u).
Proof. intros Hu g H. apply Hu. exact H. Qed.

Lemma keeps_bind {A B : Type} (m : Cmd A) (f : A -> Cmd B) :
  keeps I m -> (forall a, keeps I (f a)) -> keeps I (bind m f).
Proof.
  intros Hm Hf g H. unfold bind. specialize (Hm g H).
  destruct (outcome (m g)) as [a | e msg |]; cbn [globals]; [| exact Hm | exact Hm].
  apply Hf. exact Hm.
Qed.

Lemma keeps_when (b : bool) (c : Cmd unit) : keeps I c -> keeps I (when b c).
Proof. intros Hc. destruct b; [exact Hc | apply keeps_ret]. Qed.

Lemma keeps_for_range (body : Z -> Cmd unit) (n : nat) :
  (forall i, keeps I (body i)) -> forall lo, keeps I (for_range lo n body).
Proof.
  intros Hb. induction n as [| n IH]; intros lo; cbn [for_range].
  - apply keeps_ret.
  - apply keeps_bind; [apply Hb | intros _; apply IH].
Qed.

End Keeps.

Create HintDb keeps discriminated.

#[local] Hint Resolve keeps_ret keeps_get keeps_sdk_call keeps_error keeps_fault
  keeps_when keeps_for_range : keeps.
#[local] Hint Resolve well_typed_update_slot well_typed_with_devicecount : keeps.

Lemma well_typed_with_available (n : Z) (g : Globals) :
  well_typed g -> well_typed (with_available n g).
Proof. intros H. exact H. Qed.

Lemma well_typed_with_initialized (b : bool) (g : Globals) :
  well_typed g -> well_typed (with_initialized b g).
Proof. intros H. exact H. Qed.

#[local] Hint Resolve well_typed_with_available well_typed_with_initialized : keeps.

(** Follows the command: sequencing, then each branch of a test. *)
Ltac keeps_tac :=
  repeat first
    [ apply keeps_bind; [| intro]
    | apply keeps_modify; intros; cbv beta; solve [auto with keeps]
    | solve [auto with keeps]
    | apply keeps_when
    | apply keeps_for_range; intro
    | match goal with
      | |- keeps _ (if ?b then _ else _) => destruct b
      | |- keeps _ (match ?o with Some _ => _ | None => _ end) => destruct o
      | |- keeps _ (let _ := _ in _) => cbv zeta
      end ].

Lemma keeps_well_typed_CheckInit (sdk : Sdk) : keeps well_typed (PsychOculusVRCheckInit sdk).
Proof. unfold PsychOculusVRCheckInit. unfold_sdk. keeps_tac. Qed.

Lemma keeps_well_typed_GetOculus (handle : Z) (dontfail : bool) :
  keeps well_typed (PsychGetOculus handle dontfail).
Proof. unfold PsychGetOculus. keeps_tac. Qed.

#[local] Hint Resolve keeps_well_typed_CheckInit keeps_well_typed_GetOculus : keeps.

Lemma keeps_well_typed_Stop (sdk : Sdk) (handle : Z) :
  keeps well_typed (PsychOculusStop sdk handle).
Proof. unfold PsychOculusStop. unfold_sdk. keeps_tac. Qed.

#[local] Hint Resolve keeps_well_typed_Stop : keeps.

Lemma keeps_well_typed_Close (sdk : Sdk) (handle : Z) :
  keeps well_typed (PsychOculusClose sdk handle).
Proof. unfold PsychOculusClose, release_mesh. unfold_sdk. keeps_tac. Qed.

#[local] Hint Resolve keeps_well_typed_Close : keeps.

Lemma keeps_well_typed_ShutDown (sdk : Sdk) : keeps well_typed (PsychOculusVRShutDown sdk).
Proof. unfold PsychOculusVRShutDown. unfold_sdk. keeps_tac. Qed.

#[local] Hint Resolve keeps_well_typed_ShutDown : keeps.

Lemma keeps_well_typed_dispatch (sdk : Sdk) (r : Request) :
  keeps well_typed (dispatch sdk r).
Proof.
  destruct r; cbn [dispatch];
    unfold PSYCHOCULUSVRGetCount, PSYCHOCULUSVROpen, PSYCHOCULUSVRClose, PSYCHOCULUSVRStart,
      PSYCHOCULUSVRStop, PSYCHOCULUSVRGetTrackingState, PSYCHOCULUSVRGetFovTextureSize;
    unfold_sdk; keeps_tac.
Qed.

(** Every state the driver can be in is well typed. *)
Lemma reachable_well_typed (g : Globals) : reachable g -> well_typed g.
Proof.
  induction 1 as [| g sdk r Hr IH Hout].
  - exact well_typed_loaded.
  - apply keeps_well_typed_dispatch. exact IH.
Qed.

(** ** Further properties of the driver *)

(** *** The runtime does not start *)

Lemma CheckInit_fails (sdk : Sdk) (g : Globals) :
  initialized g = false -> sdk_Initialize sdk = false ->
  PsychOculusVRCheckInit sdk g =
  {| outcome := ErrorExit PsychError_system runtime_failed_msg;
     globals := g; calls := [Call_ovr_Initialize] |}.
Proof.
  intros Hi Hs. unfold PsychOculusVRCheckInit. unfold_sdk.
  step. rewrite Hi. step. rewrite Hs. finish. reflexivity.
Qed.

Lemma bind_CheckInit_fails {A : Type} (sdk : Sdk) (g : Globals) (k : unit -> Cmd A) :
  initialized g = false -> sdk_Initialize sdk = false ->
  bind (PsychOculusVRCheckInit sdk) k g =
  {| outcome := ErrorExit PsychError_system runtime_failed_msg;
     globals := g; calls := [Call_ovr_Initialize] |}.
Proof.
  intros Hi Hs.
  rewrite (bind_error _ _ g PsychError_system runtime_failed_msg)
    by (rewrite CheckInit_fails by assumption; reflexivity).
  rewrite CheckInit_fails by assumption. reflexivity.
Qed.

(** X1: while the runtime is down and the SDK refuses to start it, every
    request, 'Close' included, ends in the same system error after the one
    call of [ovr_Initialize], and leaves the state as it was. *)
Theorem X1_no_request_without_runtime (sdk : Sdk) (g : Globals) (r : Request) :
  initialized g = false -> sdk_Initialize sdk = false ->
  dispatch sdk r g =
  {| outcome := ErrorExit PsychError_system runtime_failed_msg;
     globals := g; calls := [Call_ovr_Initialize] |}.
Proof.
  intros Hi Hs.
  destruct r; cbn [dispatch]; unfold discard, PSYCHOCULUSVRGetCount, PSYCHOCULUSVROpen,
    PSYCHOCULUSVRClose, PSYCHOCULUSVRStart, PSYCHOCULUSVRStop,
    PSYCHOCULUSVRGetTrackingState, PSYCHOCULUSVRGetFovTextureSize;
    rewrite ?bind_assoc_eq; apply bind_CheckInit_fails; assumption.
Qed.

Lemma X1_no_request_without_runtime_witness :
  dispatch no_runtime (Close None) loaded =
  {| outcome := ErrorExit PsychError_system runtime_failed_msg;
     globals := loaded; calls := [Call_ovr_Initialize] |}.
Proof. apply X1_no_request_without_runtime; reflexivity. Defined.

(** *** 'GetCount' *)

Lemma clamp_detected_max (n : Z) : clamp_detected n = Z.max 0 n.
Proof. unfold clamp_detected. destruct (n <? 0) eqn:E; [apply Z.ltb_lt in E | apply Z.ltb_ge in E]; lia. Qed.

(** X2: when the runtime is up or starts, 'GetCount' asks the SDK anew and
    returns its answer, or 0 when the answer is negative; that number
    becomes the count of detected devices, and neither the table nor the
    count of open devices changes. *)
Theorem X2_GetCount_is_never_negative (sdk : Sdk) (g : Globals) :
  runtime_starts sdk g ->
  let r := PSYCHOCULUSVRGetCount sdk g in
  outcome r = Done (Z.max 0 (sdk_Detect sdk)) /\
  available_devices (globals r) = Z.max 0 (sdk_Detect sdk) /\
  initialized (globals r) = true /\
  oculusdevices (globals r) = oculusdevices g /\
  devicecount (globals r) = devicecount g /\
  calls r = calls (PsychOculusVRCheckInit sdk g) ++ [Call_ovrHmd_Detect].
Proof.
  intros Hrt. cbv zeta. unfold PSYCHOCULUSVRGetCount.
  rewrite (bind_done _ _ g tt) by (apply CheckInit_starts; exact Hrt).
  fold (checked sdk g). unfold_sdk. repeat step. finish.
  rewrite clamp_detected_max.
  destruct (checked_table sdk g) as [Ht Hd].
  repeat split; try assumption. cbn. apply checked_runtime_up. exact Hrt.
Qed.

Lemma X2_GetCount_is_never_negative_witness :
  outcome (PSYCHOCULUSVRGetCount no_server loaded) = Done 0 /\
  available_devices (globals (PSYCHOCULUSVRGetCount no_server loaded)) = 0.
Proof.
  assert (Hrt : runtime_starts no_server loaded) by (right; reflexivity).
  pose proof (X2_GetCount_is_never_negative no_server loaded Hrt) as H.
  cbv zeta in H. destruct H as (Ho & Ha & _). exact (conj Ho Ha).
Defined.

(** *** Refused changes of tracking *)

(** X3: on an open handle, a 'Start' or a 'Stop' that the SDK refuses ends
    in a system error and leaves the state, the tracking flag included, as
    the initialisation check left it. *)
Theorem X3_refused_tracking_change (sdk : Sdk) (g : Globals) (handle : Z) :
  is_open g handle -> runtime_starts sdk g ->
  let p := hmd (slot g (handle - 1)) in
  (isTracking (slot g (handle - 1)) = false ->
   sdk_ConfigureTracking sdk p (start_caps sdk) 0 = false ->
   outcome (PSYCHOCULUSVRStart sdk handle g) =
     ErrorExit PsychError_system
       "Start of Oculus HMD tracking failed for reason given above." /\
   globals (PSYCHOCULUSVRStart sdk handle g) = checked sdk g) /\
  (isTracking (slot g (handle - 1)) = true ->
   sdk_ConfigureTracking sdk p 0 0 = false ->
   outcome (PSYCHOCULUSVRStop sdk handle g) =
     ErrorExit PsychError_system
       "Stop of Oculus HMD tracking failed for reason given above." /\
   globals (PSYCHOCULUSVRStop sdk handle g) = checked sdk g).
Proof.
  intros Hopen Hrt. cbv zeta.
  pose proof (Start_open sdk g handle Hopen Hrt) as HS.
  pose proof (Stop_open sdk g handle Hopen Hrt) as HT.
  cbv zeta in HS, HT. rewrite !slot_checked in HS, HT.
  split; intros Ht Hno.
  - rewrite Ht, Hno in HS. rewrite HS. split; reflexivity.
  - rewrite Ht, Hno in HT. cbn [negb] in HT. rewrite HT. split; reflexivity.
Qed.

Lemma is_open_one_open : is_open one_open 1.
Proof. split; [unfold MAX_PSYCH_OCULUS_DEVS; lia | vm_compute; discriminate]. Defined.

Lemma well_typed_one_open : well_typed one_open.
Proof. split; [reflexivity | split; [vm_compute; discriminate | reflexivity]]. Defined.

Lemma X3_refused_tracking_change_witness :
  outcome (PSYCHOCULUSVRStart refusing 1 one_open) =
    ErrorExit PsychError_system
      "Start of Oculus HMD tracking failed for reason given above." /\
  globals (PSYCHOCULUSVRStart refusing 1 one_open) = checked refusing one_open.
Proof.
  assert (Hrt : runtime_starts refusing one_open) by (left; reflexivity).
  pose proof (X3_refused_tracking_change refusing one_open 1 is_open_one_open Hrt) as H.
  cbv zeta in H. exact (proj1 H eq_refl eq_refl).
Defined.

(** *** 'Start' followed by 'Stop' *)

Lemma with_devices_same (g : Globals) : with_devices (oculusdevices g) g = g.
Proof. destruct g. reflexivity. Qed.

Lemma update_slot_twice (g : Globals) (i : Z) (f f' : PsychOculusDevice -> PsychOculusDevice) :
  (Z.to_nat i < length (oculusdevices g))%nat ->
  update_slot i f (update_slot i f' g) = update_slot i (fun d => f (f' d)) g.
Proof.
  intros Hi. unfold update_slot at 1. rewrite slot_update_slot_same by exact Hi.
  unfold update_slot, with_devices. cbn. rewrite list_insert_insert_eq. reflexivity.
Qed.

Lemma update_slot_fixed (g : Globals) (i : Z) (f : PsychOculusDevice -> PsychOculusDevice) :
  (Z.to_nat i < length (oculusdevices g))%nat ->
  f (slot g i) = slot g i ->
  update_slot i f g = g.
Proof.
  intros Hi Hf. unfold update_slot. rewrite Hf.
  rewrite list_insert_id; [apply with_devices_same |].
  unfold slot. destruct (oculusdevices g !! Z.to_nat i) as [d |] eqn:E; [reflexivity |].
  apply lookup_ge_None in E. lia.
Qed.

Lemma set_isTracking_back (d : PsychOculusDevice) :
  isTracking d = false -> set_isTracking false (set_isTracking true d) = d.
Proof. destruct d. cbn. intros ->. reflexivity. Qed.

(** X4: on an open device that is not tracking, with the runtime up, a
    'Start' and then a 'Stop', both granted by the SDK, return normally and
    leave the whole state exactly as it was before the 'Start'. *)
Theorem X4_start_then_stop_restores (sdk sdk' : Sdk) (g : Globals) (handle : Z) :
  well_typed g -> is_open g handle -> initialized g = true ->
  isTracking (slot g (handle - 1)) = false ->
  sdk_ConfigureTracking sdk (hmd (slot g (handle - 1))) (start_caps sdk) 0 = true ->
  sdk_ConfigureTracking sdk' (hmd (slot g (handle - 1))) 0 0 = true ->
  let started := globals (PSYCHOCULUSVRStart sdk handle g) in
  outcome (PSYCHOCULUSVRStart sdk handle g) = Done tt /\
  isTracking (slot started (handle - 1)) = true /\
  outcome (PSYCHOCULUSVRStop sdk' handle started) = Done tt /\
  globals (PSYCHOCULUSVRStop sdk' handle started) = g.
Proof.
  intros Hwt Hopen Hi Ht Hstart Hstop. cbv zeta.
  assert (Hr : (Z.to_nat (handle - 1) < length (oculusdevices g))%nat)
    by (apply in_range; [exact Hwt | unfold is_open in Hopen; lia]).
  pose proof (Start_open sdk g handle Hopen (or_introl Hi)) as HS.
  cbv zeta in HS. rewrite (checked_initialized sdk g Hi) in HS.
  rewrite Ht, Hstart in HS. rewrite HS. cbn [outcome globals].
  set (g1 := update_slot (handle - 1) (set_isTracking true) g).
  assert (Hs1 : slot g1 (handle - 1) = set_isTracking true (slot g (handle - 1)))
    by (apply slot_update_slot_same; exact Hr).
  assert (Hopen1 : is_open g1 handle).
  { split; [apply Hopen |]. rewrite Hs1. apply Hopen. }
  assert (Hi1 : initialized g1 = true) by exact Hi.
  pose proof (Stop_open sdk' g1 handle Hopen1 (or_introl Hi1)) as HT.
  cbv zeta in HT. rewrite (checked_initialized sdk' g1 Hi1) in HT.
  rewrite Hs1 in HT. cbn [isTracking set_isTracking negb hmd] in HT.
  rewrite Hstop in HT. rewrite HT. cbn [outcome globals].
  split; [reflexivity |]. split; [rewrite Hs1; reflexivity |]. split; [reflexivity |].
  unfold g1. rewrite update_slot_twice by exact Hr.
  apply update_slot_fixed; [exact Hr | apply set_isTracking_back; exact Ht].
Qed.

Lemma X4_start_then_stop_restores_witness :
  globals (PSYCHOCULUSVRStop (sample_sdk 100 200) 1
             (globals (PSYCHOCULUSVRStart (sample_sdk 100 200) 1 one_open))) = one_open.
Proof.
  pose proof (X4_start_then_stop_restores (sample_sdk 100 200) (sample_sdk 100 200)
                one_open 1 well_typed_one_open is_open_one_open
                eq_refl eq_refl eq_refl eq_refl) as H.
  cbv zeta in H. exact (proj2 (proj2 (proj2 H))).
Defined.

(** *** 'Open': the checks of the device index *)

(** X5: with a slot free and the runtime up or starting, 'Open' with a
    device index below -1 ends in a user error before the SDK is asked
    anything more, and 'Open' with an index of 0 or more that is not below
    the number of detected headsets (0 when the SDK's answer is negative)
    ends in a user error after the detection and before any device is
    built; in both cases the table and the count of open devices are
    untouched. *)
Theorem X5_Open_rejects_bad_index (sdk : Sdk) (arg : option Z) (g : Globals) (k : Z) :
  runtime_starts sdk g -> first_free g k ->
  (default 0 arg < -1 ->
   PSYCHOCULUSVROpen sdk arg g =
   {| outcome := ErrorExit PsychError_user
                   "Invalid 'deviceIndex' provided. Must be greater or equal to zero!";
      globals := checked sdk g;
      calls := calls (PsychOculusVRCheckInit sdk g) |}) /\
  (0 <= default 0 arg -> Z.max 0 (sdk_Detect sdk) <= default 0 arg ->
   PSYCHOCULUSVROpen sdk arg g =
   {| outcome := ErrorExit PsychError_user
                   "Invalid 'deviceIndex' provided. Not enough HMDs available!";
      globals := with_available (Z.max 0 (sdk_Detect sdk)) (checked sdk g);
      calls := calls (PsychOculusVRCheckInit sdk g) ++ [Call_ovrHmd_Detect] |}).
Proof.
  intros Hrt Hff.
  assert (Hff1 : first_free (checked sdk g) k)
    by (unfold first_free in *; setoid_rewrite slot_checked; exact Hff).
  unfold PSYCHOCULUSVROpen.
  rewrite (bind_done _ _ g tt) by (apply CheckInit_starts; exact Hrt).
  fold (checked sdk g). set (g1 := checked sdk g) in *.
  unfold_sdk. step. rewrite (find_free_slot_first_free g1 k Hff1).
  rewrite (first_free_test g1 k Hff1). repeat step.
  set (idx := default 0 arg).
  split.
  - intros Hlt. apply Z.ltb_lt in Hlt. rewrite Hlt. repeat step.
    rewrite app_nil_r. reflexivity.
  - intros H0 Hge.
    assert (E1 : (idx <? -1) = false) by (apply Z.ltb_ge; lia).
    rewrite E1. repeat step.
    assert (E2 : (idx >=? 0) = true) by (apply Z.geb_le; exact H0).
    cbn [available_devices with_available]. rewrite <- clamp_detected_max in *.
    assert (E3 : (idx >=? clamp_detected (sdk_Detect sdk)) = true) by (apply Z.geb_le; lia).
    rewrite E2, E3. cbn [andb]. repeat step. rewrite app_nil_r. reflexivity.
Qed.

Lemma X5_Open_rejects_bad_index_witness :
  outcome (PSYCHOCULUSVROpen no_server (Some 0) loaded) =
    ErrorExit PsychError_user
      "Invalid 'deviceIndex' provided. Not enough HMDs available!" /\
  outcome (PSYCHOCULUSVROpen no_server (Some (-2)) loaded) =
    ErrorExit PsychError_user
      "Invalid 'deviceIndex' provided. Must be greater or equal to zero!".
Proof.
  assert (Hrt : runtime_starts no_server loaded) by (right; reflexivity).
  split.
  - rewrite (proj2 (X5_Open_rejects_bad_index no_server (Some 0) loaded 0 Hrt
                      first_free_loaded)); [reflexivity | simpl; lia | simpl; lia].
  - rewrite (proj1 (X5_Open_rejects_bad_index no_server (Some (-2)) loaded 0 Hrt
                      first_free_loaded)); [reflexivity | simpl; lia].
Defined.

(** *** 'Open': a headset the SDK cannot connect to *)

(** X6: with a slot free, the runtime up or starting and a device index
    the checks accept, an 'Open' of a real headset for which
    [ovrHmd_Create] answers [NULL] ends in a user error; the record of the
    first free slot has been zeroed by then, the slot is still free, and the
    count of open devices is the one before. *)
Theorem X6_Open_of_a_busy_headset (sdk : Sdk) (arg : option Z) (g : Globals) (k : Z) :
  well_typed g -> runtime_starts sdk g -> first_free g k ->
  0 <= default 0 arg < Z.max 0 (sdk_Detect sdk) ->
  sdk_Create sdk (default 0 arg) = NULL ->
  let r := PSYCHOCULUSVROpen sdk arg g in
  outcome r = ErrorExit PsychError_user
    "Could not connect to Rift device with given 'deviceIndex'! [ovrHmd_Create() failed]" /\
  slot (globals r) k = zero_device /\
  first_free (globals r) k /\
  devicecount (globals r) = devicecount g /\
  calls r = calls (PsychOculusVRCheckInit sdk g)
            ++ [Call_ovrHmd_Detect; Call_ovrHmd_Create (default 0 arg)].
Proof.
  intros Hwt Hrt Hff Hidx Hnull. cbv zeta.
  assert (Hff1 : first_free (checked sdk g) k)
    by (unfold first_free in *; setoid_rewrite slot_checked; exact Hff).
  pose proof (well_typed_checked sdk g Hwt) as Hwt1.
  pose proof (proj2 (checked_table sdk g)) as Hcount.
  assert (Hslots : forall j, slot (checked sdk g) j = slot g j)
    by (intros j; apply slot_checked).
  unfold PSYCHOCULUSVROpen.
  rewrite (bind_done _ _ g tt) by (apply CheckInit_starts; exact Hrt).
  fold (checked sdk g). set (g1 := checked sdk g) in *.
  set (idx := default 0 arg) in *.
  assert (Hr : (Z.to_nat k < length (oculusdevices g1))%nat)
    by (apply (in_range g1); [exact Hwt1 | apply Hff1]).
  unfold_sdk. step. rewrite (find_free_slot_first_free g1 k Hff1).
  rewrite (first_free_test g1 k Hff1). repeat step.
  assert (E1 : (idx <? -1) = false) by (apply Z.ltb_ge; lia).
  rewrite E1. repeat step.
  assert (E2 : (idx >=? 0) = true) by (apply Z.geb_le; lia).
  rewrite <- clamp_detected_max in Hidx.
  assert (E3 : (idx >=? available_devices
                  (with_available (clamp_detected (sdk_Detect sdk)) g1)) = false).
  { cbn [available_devices with_available]. rewrite Z.geb_leb. apply Z.leb_gt. lia. }
  rewrite E2, E3. cbn [andb]. repeat step.
  rewrite Hnull. change (NULL =? NULL) with true. repeat step. finish.
  assert (Hk : slot (update_slot k (set_hmd NULL)
                       (update_slot k (fun _ => zero_device)
                          (with_available (clamp_detected (sdk_Detect sdk)) g1))) k
               = zero_device).
  { rewrite slot_update_slot_same by (rewrite length_update_slot; exact Hr).
    rewrite slot_update_slot_same by exact Hr. reflexivity. }
  split; [reflexivity |]. split; [exact Hk |]. split.
  - split; [apply Hff |]. split; [rewrite Hk; reflexivity |].
    intros j Hj. rewrite !slot_update_slot_other by (apply to_nat_neq; lia).
    rewrite slot_with_available, Hslots. apply Hff. exact Hj.
  - split; [exact Hcount |]. rewrite app_nil_r. reflexivity.
Qed.

Lemma X6_Open_of_a_busy_headset_witness :
  outcome (PSYCHOCULUSVROpen in_use None loaded) =
    ErrorExit PsychError_user
      "Could not connect to Rift device with given 'deviceIndex'! [ovrHmd_Create() failed]" /\
  devicecount (globals (PSYCHOCULUSVROpen in_use None loaded)) = 0.
Proof.
  assert (Hrt : runtime_starts in_use loaded) by (right; reflexivity).
  assert (Hidx : 0 <= default 0 None < Z.max 0 (sdk_Detect in_use)) by (simpl; lia).
  pose proof (X6_Open_of_a_busy_headset in_use None loaded 0 well_typed_loaded Hrt
                first_free_loaded Hidx eq_refl) as H.
  cbv zeta in H. exact (conj (proj1 H) (proj1 (proj2 (proj2 (proj2 H))))).
Defined.

(** *** 'Open': the handle returned *)

Lemma first_free_not_open (g : Globals) (k : Z) : first_free g k -> not_open g (k + 1).
Proof. intros (_ & H & _). right. right. rewrite Z.add_simpl_r. exact H. Qed.

(** X7: a handle returned by 'Open' is the lowest handle that was not
    open: it lies in 1..10, was not open before while every lower handle
    was, and designates afterwards an open device that is not tracking,
    holds no mesh, and whose record is zero but for the device pointer; the
    records of all other slots are as before and the count of open devices
    is one more (modulo 2^32). *)
Theorem X7_Open_returns_the_lowest_free_handle (sdk : Sdk) (arg : option Z)
  (g : Globals) (handle : Z) :
  well_typed g ->
  outcome (PSYCHOCULUSVROpen sdk arg g) = Done handle ->
  let g' := globals (PSYCHOCULUSVROpen sdk arg g) in
  1 <= handle <= MAX_PSYCH_OCULUS_DEVS /\
  not_open g handle /\
  (forall h, 1 <= h < handle -> is_open g h) /\
  is_open g' handle /\
  slot g' (handle - 1) = set_hmd (created sdk (default 0 arg)) zero_device /\
  (forall j, 0 <= j -> j <> handle - 1 -> slot g' j = slot g j) /\
  devicecount g' = (devicecount g + 1) mod UINT_MOD.
Proof.
  intros Hwt Hdone. cbv zeta.
  destruct (Open_done_inv sdk arg g handle Hwt Hdone) as (Hrt & Hff & Hadm).
  rewrite (Open_succeeds sdk arg g (handle - 1) Hwt Hrt Hff Hadm). cbn [globals].
  pose proof Hff as (Hk & Hnull & Hbelow).
  unfold MAX_PSYCH_OCULUS_DEVS in *.
  assert (Hs := after_open_slot sdk arg (handle - 1) g Hwt Hk).
  split; [lia |]. split; [right; right; exact Hnull |]. split.
  { intros h Hh. split; [unfold MAX_PSYCH_OCULUS_DEVS; lia | apply Hbelow; lia]. }
  split.
  { split; [unfold MAX_PSYCH_OCULUS_DEVS; lia |]. rewrite Hs. apply Hadm. }
  split; [exact Hs |]. split.
  { intros j Hj Hne. apply after_open_other; lia. }
  apply after_open_devicecount.
Qed.

Lemma X7_Open_returns_the_lowest_free_handle_witness :
  is_open one_open 1 /\ not_open loaded 1.
Proof.
  pose proof (X7_Open_returns_the_lowest_free_handle (sample_sdk 100 200) (Some (-1))
                loaded 1 well_typed_loaded eq_refl) as H.
  cbv zeta in H. exact (conj (proj1 (proj2 (proj2 (proj2 H)))) (proj1 (proj2 H))).
Defined.

(** *** 'Open': requests that return no handle *)

Lemma Open_failed_slots (sdk : Sdk) (arg : option Z) (g : Globals) :
  well_typed g ->
  (forall handle, outcome (PSYCHOCULUSVROpen sdk arg g) <> Done handle) ->
  let g' := globals (PSYCHOCULUSVROpen sdk arg g) in
  (forall j, 0 <= j ->
     slot g' j = slot g j \/ (hmd (slot g j) = NULL /\ slot g' j = zero_device)) /\
  devicecount g' = devicecount g.
Proof.
  intros Hwt Hfail. cbv zeta. revert Hfail.
  unfold PSYCHOCULUSVROpen, PsychOculusVRCheckInit. unfold_sdk.
  change (verbosity >=? 3) with true.
  run; fold_slots; intros Hfail; try (exfalso; eapply Hfail; reflexivity).
  all: split; [| reflexivity]; intros j Hj; try (left; reflexivity).
  all: match goal with
       | Hk : find_free_slot _ _ _ = Some ?k, Hc : _ || _ = false |- _ =>
           pose proof (free_slot_checked _ _ Hk Hc) as (Hr & Hnull & _);
           pose proof (in_range g k Hwt Hr) as Hlen;
           destruct (Z.eq_dec j k) as [-> | Hne]
       end.
  all: repeat match goal with
         | H : (_ =? NULL) = true |- _ => apply Z.eqb_eq in H
         | H : (_ =? NULL) = false |- _ => apply Z.eqb_neq in H
         end.
  all: rewrite ?slot_with_devicecount in *.
  all: rewrite ?slot_update_slot_other by (apply to_nat_neq; lia).
  all: rewrite ?slot_update_slot_same in * by (rewrite ?length_update_slot; exact Hlen).
  all: rewrite ?slot_with_available, ?slot_with_initialized in *.
  all: first [ left; reflexivity
             | right; split; [exact Hnull |]; cbn [hmd set_hmd zero_device] in *;
               first [ reflexivity
                     | congruence
                     | match goal with H : _ = NULL |- _ => rewrite H; reflexivity end ] ].
Qed.

(** X8: an 'Open' that returns no handle, whatever stopped it, leaves
    every slot that held a device untouched, every free slot free, and the
    count of open devices as it was. *)
Theorem X8_failed_Open_opens_nothing (sdk : Sdk) (arg : option Z) (g : Globals) :
  well_typed g ->
  (forall handle, outcome (PSYCHOCULUSVROpen sdk arg g) <> Done handle) ->
  let g' := globals (PSYCHOCULUSVROpen sdk arg g) in
  (forall j, 0 <= j -> hmd (slot g j) <> NULL -> slot g' j = slot g j) /\
  (forall j, 0 <= j -> hmd (slot g j) = NULL -> hmd (slot g' j) = NULL) /\
  devicecount g' = devicecount g.
Proof.
  intros Hwt Hfail. cbv zeta.
  destruct (Open_failed_slots sdk arg g Hwt Hfail) as [Hs Hd]. cbv zeta in Hs.
  split; [| split; [| exact Hd]].
  - intros j Hj Hopen. destruct (Hs j Hj) as [E | [E _]]; [exact E | contradiction].
  - intros j Hj Hnull. destruct (Hs j Hj) as [E | [_ E]]; rewrite E; [exact Hnull | reflexivity].
Qed.

Lemma X8_failed_Open_opens_nothing_witness :
  devicecount (globals (PSYCHOCULUSVROpen in_use None one_open)) = devicecount one_open.
Proof.
  assert (Hfail : forall handle, outcome (PSYCHOCULUSVROpen in_use None one_open) <> Done handle)
    by (intros handle; vm_compute; discriminate).
  exact (proj2 (proj2 (X8_failed_Open_opens_nothing in_use None one_open well_typed_one_open Hfail))).
Defined.

(** *** 'Close' of an open device *)

Lemma PsychOculusStop_open (sdk : Sdk) (g : Globals) (handle : Z) :
  is_open g handle ->
  PsychOculusStop sdk handle g =
  let d := slot g (handle - 1) in
  if negb (isTracking d) then {| outcome := Done tt; globals := g; calls := [] |}
  else if sdk_ConfigureTracking sdk (hmd d) 0 0 then
    {| outcome := Done tt;
       globals := update_slot (handle - 1) (set_isTracking false) g;
       calls := [Call_ovrHmd_ConfigureTracking (hmd d) 0 0] |}
  else
    {| outcome := ErrorExit PsychError_system
                    "Stop of Oculus HMD tracking failed for reason given above.";
       globals := g;
       calls := [Call_ovrHmd_ConfigureTracking (hmd d) 0 0] |}.
Proof.
  intros Hopen. pose proof (is_open_test _ _ Hopen) as Htest.
  unfold PsychOculusStop, PsychGetOculus. unfold_sdk.
  repeat step. rewrite Htest. repeat step.
  destruct (isTracking (slot g (handle - 1))); cbn [negb]; [| reflexivity].
  repeat step.
  destruct (sdk_ConfigureTracking sdk (hmd (slot g (handle - 1))) 0 0);
    repeat step; finish; reflexivity.
Qed.

Lemma PsychOculusClose_refused (sdk : Sdk) (g : Globals) (handle : Z) :
  is_open g handle ->
  isTracking (slot g (handle - 1)) = true ->
  sdk_ConfigureTracking sdk (hmd (slot g (handle - 1))) 0 0 = false ->
  PsychOculusClose sdk handle g =
  {| outcome := ErrorExit PsychError_system
                  "Stop of Oculus HMD tracking failed for reason given above.";
     globals := g;
     calls := [Call_ovrHmd_ConfigureTracking (hmd (slot g (handle - 1))) 0 0] |}.
Proof.
  intros Hopen Ht Hno. pose proof (is_open_test _ _ Hopen) as Htest.
  unfold PsychOculusClose. unfold PsychGetOculus at 1.
  repeat step. rewrite Htest. repeat step.
  rewrite bind_error with (e := PsychError_system)
    (msg := "Stop of Oculus HMD tracking failed for reason given above."%string);
    rewrite (PsychOculusStop_open sdk g handle Hopen); cbv zeta; rewrite Ht, Hno;
    reflexivity.
Qed.

(** X9: 'Close' of an open handle that is tracking, when the SDK refuses
    to stop the tracking, ends in a system error after that one call: no
    mesh is released, the device is not destroyed, and the handle stays open
    and tracking with the count of open devices unchanged. *)
Theorem X9_Close_with_a_refused_stop (sdk : Sdk) (g : Globals) (handle : Z) :
  is_open g handle -> runtime_starts sdk g ->
  isTracking (slot g (handle - 1)) = true ->
  sdk_ConfigureTracking sdk (hmd (slot g (handle - 1))) 0 0 = false ->
  PSYCHOCULUSVRClose sdk (Some handle) g =
  {| outcome := ErrorExit PsychError_system
                  "Stop of Oculus HMD tracking failed for reason given above.";
     globals := checked sdk g;
     calls := calls (PsychOculusVRCheckInit sdk g)
              ++ [Call_ovrHmd_ConfigureTracking (hmd (slot g (handle - 1))) 0 0] |}.
Proof.
  intros Hopen Hrt Ht Hno.
  assert (Hopen1 : is_open (checked sdk g) handle)
    by (unfold is_open; rewrite slot_checked; exact Hopen).
  unfold PSYCHOCULUSVRClose.
  rewrite (bind_done _ _ g tt) by (apply CheckInit_starts; exact Hrt).
  fold (checked sdk g). cbn [default from_option]. unfold id.
  assert (E : (handle >=? 1) = true) by (apply Z.geb_le; apply Hopen).
  rewrite E.
  rewrite (PsychOculusClose_refused sdk (checked sdk g) handle Hopen1)
    by (rewrite slot_checked; assumption).
  rewrite slot_checked. reflexivity.
Qed.

Lemma X9_Close_with_a_refused_stop_witness :
  outcome (PSYCHOCULUSVRClose refusing (Some 1) one_tracking) =
    ErrorExit PsychError_system
      "Stop of Oculus HMD tracking failed for reason given above." /\
  is_open (globals (PSYCHOCULUSVRClose refusing (Some 1) one_tracking)) 1.
Proof.
  assert (Hopen : is_open one_tracking 1)
    by (split; [unfold MAX_PSYCH_OCULUS_DEVS; lia | vm_compute; discriminate]).
  assert (Hrt : runtime_starts refusing one_tracking) by (left; reflexivity).
  rewrite (X9_Close_with_a_refused_stop refusing one_tracking 1 Hopen Hrt eq_refl eq_refl).
  split; [reflexivity | exact Hopen].
Defined.

Lemma mesh_update_isTracking (g : Globals) (i j : Z) (v : bool) :
  eyeDistortionMesh (slot (update_slot i (set_isTracking v) g) j)
  = eyeDistortionMesh (slot g j).
Proof. apply (slot_update_slot_field eyeDistortionMesh). reflexivity. Qed.

Lemma hmd_update_isTracking (g : Globals) (i j : Z) (v : bool) :
  hmd (slot (update_slot i (set_isTracking v) g) j) = hmd (slot g j).
Proof. apply (slot_update_slot_field hmd). reflexivity. Qed.

Lemma hmd_update_mesh (g : Globals) (i j e : Z) (m : ovrDistortionMesh) :
  hmd (slot (update_slot i (set_eyeDistortionMesh e m) g) j) = hmd (slot g j).
Proof. apply (slot_update_slot_field hmd). reflexivity. Qed.

Lemma right_mesh_update_left (g : Globals) (i j : Z) (m : ovrDistortionMesh) :
  get2 (eyeDistortionMesh (slot (update_slot i (set_eyeDistortionMesh 0 m) g) j)) 1
  = get2 (eyeDistortionMesh (slot g j)) 1.
Proof.
  apply (slot_update_slot_field (fun d => get2 (eyeDistortionMesh d) 1)). reflexivity.
Qed.

(** X10: 'Close' of an open handle, the SDK granting the stop of
    tracking, returns normally after exactly these calls, in this order:
    the stop of tracking if the device is tracking, the release of the
    left eye's mesh if it holds a vertex buffer, the same for the right eye,
    and the destruction of the device. *)
Theorem X10_calls_of_Close (sdk : Sdk) (g : Globals) (handle : Z) :
  is_open g handle -> stop_granted sdk g handle ->
  outcome (PsychOculusClose sdk handle g) = Done tt /\
  calls (PsychOculusClose sdk handle g) =
    stop_calls g handle ++ release_calls g handle 0 ++ release_calls g handle 1
    ++ [Call_ovrHmd_Destroy (hmd (slot g (handle - 1)))].
Proof.
  intros Hopen Hstop.
  pose proof (is_open_test _ _ Hopen) as Htest.
  unfold stop_granted in Hstop.
  unfold stop_calls, release_calls, cached_mesh.
  unfold PsychOculusClose, PsychOculusStop, PsychGetOculus, release_mesh. unfold_sdk.
  repeat step. rewrite Htest. repeat step. rewrite Htest. repeat step.
  destruct (isTracking (slot g (handle - 1))) eqn:Et;
    [rewrite (Hstop eq_refl) |]; cbn [negb]; repeat step;
    rewrite ?mesh_update_isTracking;
    destruct (pVertexData (get2 (eyeDistortionMesh (slot g (handle - 1))) 0) =? NULL) eqn:E0;
    cbn [negb]; repeat step;
    rewrite ?right_mesh_update_left, ?mesh_update_isTracking;
    destruct (pVertexData (get2 (eyeDistortionMesh (slot g (handle - 1))) 1) =? NULL) eqn:E1;
    cbn [negb]; repeat step; finish;
    rewrite ?hmd_update_mesh, ?hmd_update_isTracking; split; reflexivity.
Qed.

Lemma X10_calls_of_Close_witness :
  calls (PsychOculusClose (sample_sdk 100 200) 1 one_busy) =
    [ Call_ovrHmd_ConfigureTracking 100 0 0;
      Call_ovrHmd_DestroyDistortionMesh (cached_mesh one_busy 1 0);
      Call_ovrHmd_Destroy 100 ].
Proof.
  assert (Hopen : is_open one_busy 1)
    by (split; [unfold MAX_PSYCH_OCULUS_DEVS; lia | vm_compute; discriminate]).
  assert (Hstop : stop_granted (sample_sdk 100 200) one_busy 1) by (intros _; reflexivity).
  rewrite (proj2 (X10_calls_of_Close (sample_sdk 100 200) one_busy 1 Hopen Hstop)).
  vm_compute. reflexivity.
Defined.

(** *** The count of open devices *)

Lemma handle_open_hmd (g g' : Globals) (h : Z) :
  hmd (slot g' (h - 1)) = hmd (slot g (h - 1)) -> handle_open g' h = handle_open g h.
Proof. unfold handle_open. intros ->. reflexivity. Qed.

Lemma open_between_bounds (g : Globals) (n : nat) :
  forall lo, 0 <= open_between g lo n <= Z.of_nat n.
Proof.
  induction n as [| n IH]; intros lo.
  - change (open_between g lo 0) with 0. lia.
  - change (open_between g lo (S n))
      with ((if handle_open g lo then 1 else 0) + open_between g (lo + 1) n).
    specialize (IH (lo + 1)). destruct (handle_open g lo); lia.
Qed.

Lemma open_between_hmd (g g' : Globals) (n : nat) :
  forall lo,
    (forall h, lo <= h < lo + Z.of_nat n -> hmd (slot g' (h - 1)) = hmd (slot g (h - 1))) ->
    open_between g' lo n = open_between g lo n.
Proof.
  induction n as [| n IH]; intros lo Hs; [reflexivity |].
  change (open_between g' lo (S n))
    with ((if handle_open g' lo then 1 else 0) + open_between g' (lo + 1) n).
  change (open_between g lo (S n))
    with ((if handle_open g lo then 1 else 0) + open_between g (lo + 1) n).
  rewrite IH by (intros h Hh; apply Hs; lia).
  rewrite (handle_open_hmd g g' lo) by (apply Hs; lia). reflexivity.
Qed.

(** Two tables that differ in the slot of one handle only. *)
Lemma open_between_flip (g g' : Globals) (h0 : Z) (n : nat) :
  forall lo,
    lo <= h0 < lo + Z.of_nat n ->
    (forall h, lo <= h < lo + Z.of_nat n -> h <> h0 ->
               hmd (slot g' (h - 1)) = hmd (slot g (h - 1))) ->
    open_between g' lo n - (if handle_open g' h0 then 1 else 0)
    = open_between g lo n - (if handle_open g h0 then 1 else 0).
Proof.
  induction n as [| n IH]; intros lo Hh0 Hs; [lia |].
  change (open_between g' lo (S n))
    with ((if handle_open g' lo then 1 else 0) + open_between g' (lo + 1) n).
  change (open_between g lo (S n))
    with ((if handle_open g lo then 1 else 0) + open_between g (lo + 1) n).
  destruct (Z.eq_dec lo h0) as [-> | Hne].
  - rewrite (open_between_hmd g g' n (h0 + 1)) by (intros h Hh; apply Hs; lia). lia.
  - rewrite (handle_open_hmd g g' lo) by (apply Hs; lia).
    specialize (IH (lo + 1)). rewrite <- Z.add_sub_assoc. rewrite IH; [lia | lia |].
    intros h Hh Hn. apply Hs; lia.
Qed.

Lemma is_open_handle_open (g : Globals) (handle : Z) :
  is_open g handle -> handle_open g handle = true.
Proof. intros H. unfold handle_open. rewrite (is_open_test _ _ H). reflexivity. Qed.

Lemma sound_same (g g' : Globals) :
  well_typed g' ->
  (forall j, 0 <= j -> hmd (slot g' j) = hmd (slot g j)) ->
  (forall j, 0 <= j -> hmd (slot g j) = NULL -> isTracking (slot g j) = false ->
             isTracking (slot g' j) = false) ->
  devicecount g' = devicecount g ->
  sound g -> sound g'.
Proof.
  intros Hwt Hh Ht Hd (_ & Hc & Hi). split; [exact Hwt |]. split.
  - unfold counted in *. rewrite Hd, Hc. symmetry. apply open_between_hmd.
    intros h Hh'. apply Hh. lia.
  - intros j Hj Hnull. rewrite Hh in Hnull by exact Hj. apply Ht; auto.
Qed.

Lemma sound_with_available (n : Z) (g : Globals) : sound g -> sound (with_available n g).
Proof.
  intros H. apply (sound_same g); [apply H | reflexivity | auto | reflexivity | exact H].
Qed.

Lemma sound_with_initialized (b : bool) (g : Globals) :
  sound g -> sound (with_initialized b g).
Proof.
  intros H. apply (sound_same g); [apply H | reflexivity | auto | reflexivity | exact H].
Qed.

(** A write to fields other than the device pointer that does not set the
    tracking flag. *)
Lemma sound_update_fields (g : Globals) (i : Z) (f : PsychOculusDevice -> PsychOculusDevice) :
  (forall d, hmd (f d) = hmd d) ->
  (forall d, isTracking (f d) = isTracking d \/ isTracking (f d) = false) ->
  sound g -> sound (update_slot i f g).
Proof.
  intros Hh Ht H. apply (sound_same g).
  - apply well_typed_update_slot, H.
  - intros j _. apply (slot_update_slot_field hmd). exact Hh.
  - intros j Hj Hnull Hidle.
    destruct (Nat.eq_dec (Z.to_nat i) (Z.to_nat j)) as [E | Hne].
    + assert (Hs : slot g j = slot g i) by (unfold slot; rewrite E; reflexivity).
      assert (Hs' : slot (update_slot i f g) j = slot (update_slot i f g) i)
        by (unfold slot; rewrite E; reflexivity).
      rewrite Hs in *. rewrite Hs'.
      destruct (lt_dec (Z.to_nat i) (length (oculusdevices g))) as [Hr | Hr].
      * rewrite slot_update_slot_same by exact Hr.
        destruct (Ht (slot g i)); congruence.
      * unfold update_slot, slot in *. cbn [oculusdevices with_devices].
        rewrite list_insert_ge by lia. exact Hidle.
    + rewrite slot_update_slot_other by exact Hne. exact Hidle.
  - reflexivity.
  - exact H.
Qed.

(** The tracking flag set on an open device. *)
Lemma sound_tracking (g : Globals) (i : Z) :
  0 <= i -> hmd (slot g i) <> NULL ->
  sound g -> sound (update_slot i (set_isTracking true) g).
Proof.
  intros Hi Hopen H. apply (sound_same g).
  - apply well_typed_update_slot, H.
  - intros j _. apply (slot_update_slot_field hmd). reflexivity.
  - intros j Hj Hnull Hidle.
    assert (Hne : i <> j) by congruence.
    rewrite slot_update_slot_other by (apply to_nat_neq; lia). exact Hidle.
  - reflexivity.
  - exact H.
Qed.

(** A device closed. *)
Lemma sound_closed (g g' : Globals) (handle : Z) :
  is_open g handle -> closed_from g handle g' -> sound g -> sound g'.
Proof.
  intros Hopen (Hnull & Htr & Hfr & Hd & _ & _ & Hwt) (_ & Hc & Hi).
  pose proof Hopen as [Hrange _]. unfold MAX_PSYCH_OCULUS_DEVS in Hrange.
  split; [exact Hwt |]. split.
  - unfold counted in *. change (Z.to_nat MAX_PSYCH_OCULUS_DEVS) with 10%nat in *.
    pose proof (open_between_flip g g' handle 10 1) as Hflip.
    rewrite (is_open_handle_open g handle Hopen) in Hflip.
    rewrite (not_open_handle_open g' handle) in Hflip by (right; right; exact Hnull).
    pose proof (open_between_bounds g' 10 1) as Hb'.
    pose proof (open_between_bounds g 10 1) as Hb.
    rewrite Hd, Hc.
    assert (E : open_between g' 1 10 - 0 = open_between g 1 10 - 1).
    { apply Hflip; [lia |]. intros h Hh Hne. rewrite Hfr by lia. reflexivity. }
    rewrite Z.mod_small by (unfold UINT_MOD; lia). lia.
  - intros j Hj Hn. destruct (Z.eq_dec j (handle - 1)) as [-> | Hne]; [exact Htr |].
    rewrite Hfr in * by assumption. apply Hi; assumption.
Qed.

(** A device opened in the first free slot. *)
Lemma sound_opened (sdk : Sdk) (arg : option Z) (g : Globals) (k : Z) :
  first_free g k -> created sdk (default 0 arg) <> NULL ->
  sound g -> sound (after_open sdk arg k g).
Proof.
  intros (Hk & Hnull & _) Hp (Hwt & Hc & Hi).
  pose proof (after_open_slot sdk arg k g Hwt Hk) as Hs.
  assert (Hfr : forall j, 0 <= j -> j <> k -> slot (after_open sdk arg k g) j = slot g j)
    by (intros j Hj Hne; apply after_open_other; lia).
  unfold MAX_PSYCH_OCULUS_DEVS in Hk.
  split; [apply after_open_well_typed; exact Hwt |]. split.
  - unfold counted in *. change (Z.to_nat MAX_PSYCH_OCULUS_DEVS) with 10%nat in *.
    rewrite after_open_devicecount, Hc.
    pose proof (open_between_flip g (after_open sdk arg k g) (k + 1) 10 1) as Hflip.
    rewrite (not_open_handle_open g (k + 1)) in Hflip
      by (right; right; rewrite Z.add_simpl_r; exact Hnull).
    rewrite (is_open_handle_open (after_open sdk arg k g) (k + 1)) in Hflip
      by (split; [unfold MAX_PSYCH_OCULUS_DEVS; lia | rewrite Z.add_simpl_r, Hs; exact Hp]).
    pose proof (open_between_bounds (after_open sdk arg k g) 10 1) as Hb'.
    pose proof (open_between_bounds g 10 1) as Hb.
    assert (E : open_between (after_open sdk arg k g) 1 10 - 1 = open_between g 1 10 - 0).
    { apply Hflip; [lia |]. intros h Hh Hne. rewrite Hfr by lia. reflexivity. }
    rewrite Z.mod_small by (unfold UINT_MOD; lia). lia.
  - intros j Hj Hn. destruct (Z.eq_dec j k) as [-> | Hne].
    + rewrite Hs. reflexivity.
    + rewrite Hfr in * by assumption. apply Hi; assumption.
Qed.

(** An 'Open' that returns no handle. *)
Lemma sound_failed_open (sdk : Sdk) (arg : option Z) (g : Globals) :
  (forall handle, outcome (PSYCHOCULUSVROpen sdk arg g) <> Done handle) ->
  sound g -> sound (globals (PSYCHOCULUSVROpen sdk arg g)).
Proof.
  intros Hfail H. pose proof H as (Hwt & _).
  destruct (Open_failed_slots sdk arg g Hwt Hfail) as [Hs Hd]. cbv zeta in Hs, Hd.
  apply (sound_same g).
  - rewrite <- (globals_discard (PSYCHOCULUSVROpen sdk arg) g).
    apply (keeps_well_typed_dispatch sdk (Open arg) g Hwt).
  - intros j Hj. destruct (Hs j Hj) as [E | [Hn E]]; rewrite E; [reflexivity |].
    symmetry. exact Hn.
  - intros j Hj _ Hidle. destruct (Hs j Hj) as [E | [_ E]]; rewrite E; [exact Hidle |].
    reflexivity.
  - exact Hd.
  - exact H.
Qed.

(** Follows the command, as [keeps_tac] does, for the invariant [sound]. *)
Ltac keeps_sound_step :=
  match goal with
    | |- keeps _ (bind _ _) => apply keeps_bind; [| intro]
    | |- keeps _ (modify _) =>
        apply keeps_modify; intros; cbv beta;
        first [ apply sound_with_available; assumption
              | apply sound_with_initialized; assumption
              | apply sound_update_fields;
                [ intros; reflexivity
                | intros; first [left; reflexivity | right; reflexivity]
                | assumption ] ]
    | |- keeps _ (when _ _) => apply keeps_when
    | |- keeps _ (for_range _ _ _) => apply keeps_for_range; intro
    | |- keeps _ (if ?b then _ else _) => destruct b
    | |- keeps _ (match ?o with Some _ => _ | None => _ end) => destruct o
    | |- keeps _ (let _ := _ in _) => cbv zeta
    | |- keeps _ _ => solve [auto with keeps]
  end.

Ltac keeps_sound := repeat keeps_sound_step.

Lemma keeps_sound_CheckInit (sdk : Sdk) : keeps sound (PsychOculusVRCheckInit sdk).
Proof. unfold PsychOculusVRCheckInit. unfold_sdk. keeps_sound. Qed.

Lemma keeps_sound_GetOculus (handle : Z) (dontfail : bool) :
  keeps sound (PsychGetOculus handle dontfail).
Proof. unfold PsychGetOculus. keeps_sound. Qed.

#[local] Hint Resolve keeps_sound_CheckInit keeps_sound_GetOculus : keeps.

Lemma keeps_sound_Stop (sdk : Sdk) (handle : Z) : keeps sound (PsychOculusStop sdk handle).
Proof. unfold PsychOculusStop. unfold_sdk. keeps_sound. Qed.

Lemma keeps_sound_Close (sdk : Sdk) (handle : Z) : keeps sound (PsychOculusClose sdk handle).
Proof.
  intros g H. pose proof H as (Hwt & _).
  destruct (handle_open g handle) eqn:Ho.
  - apply handle_open_true in Ho.
    destruct (isTracking (slot g (handle - 1))) eqn:Et.
    + destruct (sdk_ConfigureTracking sdk (hmd (slot g (handle - 1))) 0 0) eqn:Ec.
      * destruct (PsychOculusClose_open sdk g handle Hwt Ho) as (g' & l & E & Hcl);
          [intros _; exact Ec |].
        rewrite E. exact (sound_closed g g' handle Ho Hcl H).
      * rewrite (PsychOculusClose_refused sdk g handle Ho Et Ec). exact H.
    + destruct (PsychOculusClose_open sdk g handle Hwt Ho) as (g' & l & E & Hcl);
        [intros Ht; congruence |].
      rewrite E. exact (sound_closed g g' handle Ho Hcl H).
  - rewrite PsychOculusClose_not_open by (apply handle_open_false; exact Ho). exact H.
Qed.

#[local] Hint Resolve keeps_sound_Stop keeps_sound_Close : keeps.

Lemma keeps_sound_ShutDown (sdk : Sdk) : keeps sound (PsychOculusVRShutDown sdk).
Proof. unfold PsychOculusVRShutDown. unfold_sdk. keeps_sound. Qed.

#[local] Hint Resolve keeps_sound_ShutDown : keeps.

Lemma keeps_sound_Start (sdk : Sdk) (handle : Z) : keeps sound (PSYCHOCULUSVRStart sdk handle).
Proof.
  intros g H.
  unfold PSYCHOCULUSVRStart, PsychOculusVRCheckInit, PsychGetOculus. unfold_sdk.
  run; fold_slots.
  all: repeat first [ exact H | apply sound_with_initialized | apply sound_with_available ].
  all: match goal with
       | Ht : _ || _ || (hmd (slot _ _) =? NULL) = false |- _ =>
           pose proof (PsychGetOculus_test_ge _ _ Ht);
           apply orb_false_iff in Ht; destruct Ht as [_ Ht]; apply Z.eqb_neq in Ht
       end.
  all: apply sound_tracking; [lia | assumption |].
  all: repeat first [ exact H | apply sound_with_initialized | apply sound_with_available ].
Qed.

Lemma keeps_sound_Open (sdk : Sdk) (arg : option Z) : keeps sound (PSYCHOCULUSVROpen sdk arg).
Proof.
  intros g H. pose proof H as (Hwt & _).
  destruct (outcome (PSYCHOCULUSVROpen sdk arg g)) as [handle | e msg |] eqn:E.
  - destruct (Open_done_inv sdk arg g handle Hwt E) as (Hrt & Hff & Hadm).
    rewrite (Open_succeeds sdk arg g (handle - 1) Hwt Hrt Hff Hadm). cbn [globals].
    apply sound_opened; [exact Hff | apply Hadm | exact H].
  - apply sound_failed_open; [rewrite E; discriminate | exact H].
  - apply sound_failed_open; [rewrite E; discriminate | exact H].
Qed.

Lemma keeps_sound_dispatch (sdk : Sdk) (r : Request) : keeps sound (dispatch sdk r).
Proof.
  destruct r; cbn [dispatch]; unfold discard.
  - unfold PSYCHOCULUSVRGetCount. unfold_sdk. keeps_sound.
  - apply keeps_bind; [apply keeps_sound_Open | intro; apply keeps_ret].
  - unfold PSYCHOCULUSVRClose. keeps_sound.
  - apply keeps_sound_Start.
  - unfold PSYCHOCULUSVRStop. keeps_sound.
  - unfold PSYCHOCULUSVRGetTrackingState. unfold_sdk. keeps_sound.
  - unfold PSYCHOCULUSVRGetFovTextureSize. unfold_sdk. keeps_sound.
Qed.

Lemma sound_loaded : sound loaded.
Proof.
  split; [exact well_typed_loaded |]. split; [reflexivity |].
  intros j Hj _. unfold slot.
  destruct (Z.to_nat j) as [| [| [| [| [| [| [| [| [| [| n]]]]]]]]]]; reflexivity.
Qed.

Lemma reachable_sound (g : Globals) : reachable g -> sound g.
Proof.
  induction 1 as [| g sdk r Hr IH Hout].
  - exact sound_loaded.
  - apply keeps_sound_dispatch. exact IH.
Qed.

Lemma counted_bound (g : Globals) : counted g -> 0 <= devicecount g <= 10.
Proof.
  unfold counted. intros ->. change (Z.to_nat MAX_PSYCH_OCULUS_DEVS) with 10%nat.
  apply (open_between_bounds g 10 1).
Qed.

(** X11: in every state the driver can be in, the count of open devices
    is the number of handles among 1..10 that are open; it never exceeds
    10, so its increments and decrements never wrap around. *)
Theorem X11_devicecount_counts_the_open_handles (g : Globals) :
  reachable g ->
  devicecount g = open_between g 1 (Z.to_nat MAX_PSYCH_OCULUS_DEVS) /\
  0 <= devicecount g <= MAX_PSYCH_OCULUS_DEVS.
Proof.
  intros H. destruct (reachable_sound g H) as (_ & Hc & _).
  split; [exact Hc | apply counted_bound; exact Hc].
Qed.

Lemma one_open_dispatch :
  one_open = globals (dispatch (sample_sdk 100 200) (Open (Some (-1))) loaded).
Proof. vm_compute. reflexivity. Qed.

Lemma reachable_one_open : reachable one_open.
Proof.
  rewrite one_open_dispatch.
  apply reachable_request; [apply reachable_loaded | vm_compute; discriminate].
Defined.

Lemma X11_devicecount_counts_the_open_handles_witness : devicecount one_open = 1.
Proof.
  assert (E : open_between one_open 1 (Z.to_nat MAX_PSYCH_OCULUS_DEVS) = 1)
    by (vm_compute; reflexivity).
  pose proof (X11_devicecount_counts_the_open_handles one_open reachable_one_open) as [H _].
  rewrite E in H. exact H.
Defined.

(** X12: in every state the driver can be in, a handle that is not open
    is not tracking: the tracking flag of a free slot is clear. *)
Theorem X12_closed_handles_do_not_track (g : Globals) (handle : Z) :
  reachable g -> 1 <= handle -> not_open g handle ->
  isTracking (slot g (handle - 1)) = false.
Proof.
  intros H Hh Hno. destruct (reachable_sound g H) as (Hwt & _ & Hi).
  destruct Hno as [Hlt | [Hgt | Hnull]]; [lia | | apply Hi; [lia | exact Hnull]].
  unfold slot. rewrite lookup_ge_None_2; [reflexivity |].
  destruct Hwt as [-> _]. unfold MAX_PSYCH_OCULUS_DEVS in *. lia.
Qed.

Lemma X12_closed_handles_do_not_track_witness :
  isTracking (slot one_open 1) = false.
Proof.
  assert (Hno : not_open one_open 2) by (right; right; vm_compute; reflexivity).
  assert (Hh : 1 <= 2) by lia.
  exact (X12_closed_handles_do_not_track one_open 2 reachable_one_open Hh Hno).
Defined.

(** *** The calls of a command *)

Section Emits.

Variable P : SdkCall -> Prop.

Lemma emits_ret {A : Type} (a : A) : emits P (ret a).
Proof. intros g. constructor. Qed.

Lemma emits_get : emits P get.
Proof. intros g. constructor. Qed.

Lemma emits_modify (u : Globals -> Globals) : emits P (modify u).
Proof. intros g. constructor. Qed.

Lemma emits_error {A : Type} (e : PsychError) (msg : string) :
  emits P (@PsychErrorExitMsg A e msg).
Proof. intros g. constructor. Qed.

Lemma emits_fault {A : Type} : emits P (@fault A).
Proof. intros g. constructor. Qed.

Lemma emits_sdk_call {A : Type} (c : SdkCall) (a : A) : P c -> emits P (sdk_call c a).
Proof. intros H g. constructor; [exact H | constructor]. Qed.

Lemma emits_bind {A B : Type} (m : Cmd A) (f : A -> Cmd B) :
  emits P m -> (forall a, emits P (f a)) -> emits P (bind m f).
Proof.
  intros Hm Hf g. unfold bind. specialize (Hm g).
  destruct (outcome (m g)) as [a | e msg |]; cbn [calls]; [| exact Hm | exact Hm].
  apply Forall_app. split; [exact Hm | apply Hf].
Qed.

Lemma emits_when (b : bool) (c : Cmd unit) : emits P c -> emits P (when b c).
Proof. intros Hc. destruct b; [exact Hc | apply emits_ret]. Qed.

Lemma emits_for_range (body : Z -> Cmd unit) (n : nat) :
  (forall i, emits P (body i)) -> forall lo, emits P (for_range lo n body).
Proof.
  intros Hb. induction n as [| n IH]; intros lo; cbn [for_range].
  - apply emits_ret.
  - apply emits_bind; [apply Hb | intros _; apply IH].
Qed.

End Emits.

(** Follows the command; a call of the SDK is checked by computation. *)
Ltac emits_step :=
  match goal with
  | |- emits _ (bind _ _) => apply emits_bind; [| intro]
  | |- emits _ (ret _) => apply emits_ret
  | |- emits _ get => apply emits_get
  | |- emits _ (modify _) => apply emits_modify
  | |- emits _ (PsychErrorExitMsg _ _) => apply emits_error
  | |- emits _ fault => apply emits_fault
  | |- emits _ (sdk_call _ _) => apply emits_sdk_call; first [reflexivity | discriminate]
  | |- emits _ (when _ _) => apply emits_when
  | |- emits _ (for_range _ _ _) => apply emits_for_range; intro
  | |- emits _ (if ?b then _ else _) => destruct b
  | |- emits _ (match ?o with Some _ => _ | None => _ end) => destruct o
  | |- emits _ (let _ := _ in _) => cbv zeta
  end.

Ltac emits_tac := repeat emits_step.

Ltac unfold_driver :=
  unfold PSYCHOCULUSVRGetCount, PSYCHOCULUSVROpen, PSYCHOCULUSVRClose, PSYCHOCULUSVRStart,
    PSYCHOCULUSVRStop, PSYCHOCULUSVRGetTrackingState, PSYCHOCULUSVRGetFovTextureSize,
    PsychOculusVRShutDown, PsychOculusClose, release_mesh, PsychOculusStop,
    PsychOculusVRCheckInit, PsychGetOculus;
  unfold_sdk.

(** X13: no request other than 'Close' ends the life of an object of the
    SDK: whatever their arguments, the state and the answers of the SDK,
    'GetCount', 'Open', 'Start', 'Stop', 'GetTrackingState' and
    'GetFovTextureSize' never call [ovrHmd_Destroy],
    [ovrHmd_DestroyDistortionMesh] or [ovr_Shutdown]. *)
Theorem X13_only_Close_releases (sdk : Sdk) (r : Request) (g : Globals) :
  (forall handle, r <> Close handle) ->
  Forall (fun c => releases c = false) (calls (dispatch sdk r g)).
Proof.
  intros Hr. revert g. change (emits (fun c => releases c = false) (dispatch sdk r)).
  destruct r; try (exfalso; eapply Hr; reflexivity); cbn [dispatch]; unfold discard;
    unfold_driver; emits_tac.
Qed.

Lemma X13_only_Close_releases_witness :
  Forall (fun c => releases c = false)
    (calls (dispatch (sample_sdk 100 200) (GetFovTextureSize 1 0 None None) one_open)).
Proof.
  apply X13_only_Close_releases. intros handle. discriminate.
Defined.

(** *** A shutdown that the SDK interrupts *)

Lemma bind_ext {A B : Type} (m : Cmd A) (f f' : A -> Cmd B) (g : Globals) :
  (forall a g', f a g' = f' a g') -> bind m f g = bind m f' g.
Proof.
  intros H. unfold bind. destruct (outcome (m g)); [rewrite H | |]; reflexivity.
Qed.

Lemma for_range_app (body : Z -> Cmd unit) (n m : nat) :
  forall lo g,
    for_range lo (n + m) body g
    = (for_range lo n body ;; for_range (lo + Z.of_nat n) m body) g.
Proof.
  induction n as [| n IH]; intros lo g.
  - cbn [for_range Nat.add]. rewrite bind_ret_eq. rewrite Z.add_0_r. reflexivity.
  - cbn [for_range Nat.add]. rewrite bind_assoc_eq. apply bind_ext. intros _ g'.
    rewrite IH. replace (lo + 1 + Z.of_nat n) with (lo + Z.of_nat (S n)) by lia.
    reflexivity.
Qed.

Lemma emits_Close (sdk : Sdk) (handle : Z) :
  emits (fun c => c <> Call_ovr_Shutdown) (PsychOculusClose sdk handle).
Proof. unfold_driver. emits_tac. Qed.

(** X14: a shutdown with the runtime up, during which the SDK refuses to
    stop the tracking of handle [h] (at most 9) after granting the stops of
    the lower handles, ends in a system error with the runtime still marked
    as up and [ovr_Shutdown] not called; the handles below [h] are closed,
    the records of [h] and of all higher handles are untouched. *)
Theorem X14_refused_stop_aborts_the_shutdown (sdk : Sdk) (g : Globals) (h : Z) :
  well_typed g -> initialized g = true ->
  is_open g h -> h <= 9 ->
  isTracking (slot g (h - 1)) = true ->
  sdk_ConfigureTracking sdk (hmd (slot g (h - 1))) 0 0 = false ->
  (forall h', 1 <= h' < h -> stop_granted sdk g h') ->
  let r := PsychOculusVRShutDown sdk g in
  outcome r = ErrorExit PsychError_system
                "Stop of Oculus HMD tracking failed for reason given above." /\
  initialized (globals r) = true /\
  (forall h', 1 <= h' < h -> not_open (globals r) h') /\
  (forall j, h - 1 <= j -> slot (globals r) j = slot g j) /\
  ~ In Call_ovr_Shutdown (calls r).
Proof.
  intros Hwt Hi Hopen H9 Ht Hno Hst. cbv zeta.
  pose proof Hopen as [[H1 _] _].
  destruct (close_range sdk (Z.to_nat (h - 1)) 1 g) as (g1 & l1 & E1 & Hwt1 & Hcl & Hfr & _ & _ & Hi1);
    [lia | exact Hwt | intros h' Hh'; apply Hst; lia |].
  assert (Hs : slot g1 (h - 1) = slot g (h - 1)) by (apply Hfr; lia).
  assert (Hopen1 : is_open g1 h) by (unfold is_open; rewrite Hs; exact Hopen).
  pose proof (PsychOculusClose_refused sdk g1 h Hopen1) as E2.
  rewrite Hs in E2. specialize (E2 Ht Hno).
  assert (Hl1 : Forall (fun c => c <> Call_ovr_Shutdown) l1).
  { pose proof (emits_for_range _ (PsychOculusClose sdk) (Z.to_nat (h - 1))
                  (emits_Close sdk) 1 g) as Hl.
    rewrite E1 in Hl. exact Hl. }
  assert (E : for_range 0 (Z.to_nat MAX_PSYCH_OCULUS_DEVS) (PsychOculusClose sdk) g
              = {| outcome := ErrorExit PsychError_system
                                "Stop of Oculus HMD tracking failed for reason given above.";
                   globals := g1;
                   calls := l1 ++ [Call_ovrHmd_ConfigureTracking (hmd (slot g (h - 1))) 0 0] |}).
  { change (Z.to_nat MAX_PSYCH_OCULUS_DEVS) with (S 9).
    rewrite for_range_S. change (0 + 1) with 1.
    rewrite (bind_done _ _ g tt)
      by (rewrite PsychOculusClose_not_open by (left; lia); reflexivity).
    rewrite PsychOculusClose_not_open by (left; lia). cbn [globals calls app].
    replace 9%nat with (Z.to_nat (h - 1) + S (Z.to_nat (9 - h)))%nat by lia.
    rewrite for_range_app.
    rewrite (bind_done _ _ g tt) by (rewrite E1; reflexivity).
    rewrite E1. cbn [outcome globals calls].
    replace (1 + Z.of_nat (Z.to_nat (h - 1))) with h by lia.
    rewrite for_range_S.
    rewrite (bind_error _ _ g1 PsychError_system
               "Stop of Oculus HMD tracking failed for reason given above.")
      by (rewrite E2; reflexivity).
    rewrite E2. reflexivity. }
  unfold PsychOculusVRShutDown. rewrite bind_get_eq. rewrite Hi. cbn [when].
  rewrite !bind_assoc_eq.
  rewrite (bind_error _ _ g PsychError_system
             "Stop of Oculus HMD tracking failed for reason given above.")
    by (rewrite E; reflexivity).
  rewrite E. cbn [outcome globals calls].
  split; [reflexivity |]. split; [congruence |]. split.
  { intros h' Hh'. apply Hcl. lia. }
  split.
  { intros j Hj. apply Hfr; lia. }
  rewrite in_app_iff. intros [Hin | [Hin | []]]; [| discriminate Hin].
  rewrite Forall_forall in Hl1. exact (Hl1 _ (proj2 (list_elem_of_In _ _) Hin) eq_refl).
Qed.

Lemma well_typed_two_open : well_typed two_open.
Proof. split; [reflexivity | split; [vm_compute; discriminate | reflexivity]]. Defined.

Lemma is_open_two_open : is_open two_open 2.
Proof. split; [unfold MAX_PSYCH_OCULUS_DEVS; lia | vm_compute; discriminate]. Defined.

Lemma X14_refused_stop_aborts_the_shutdown_witness :
  outcome (PsychOculusVRShutDown refusing two_open)
  = ErrorExit PsychError_system "Stop of Oculus HMD tracking failed for reason given above." /\
  initialized (globals (PsychOculusVRShutDown refusing two_open)) = true.
Proof.
  assert (H9 : 2 <= 9) by lia.
  assert (Hst : forall h', 1 <= h' < 2 -> stop_granted refusing two_open h').
  { intros h' Hh'. assert (h' = 1) as -> by lia. intros Ht. vm_compute in Ht. discriminate Ht. }
  pose proof (X14_refused_stop_aborts_the_shutdown refusing two_open 2 well_typed_two_open
                eq_refl is_open_two_open H9 eq_refl eq_refl Hst) as H.
  cbv zeta in H. exact (conj (proj1 H) (proj1 (proj2 H))).
Defined.

(** *** Module load and exit *)

Lemma clear_range (n : nat) :
  forall lo g,
    0 <= lo ->
    (Z.to_nat lo + n <= length (oculusdevices g))%nat ->
    exists g',
      for_range lo n (fun handle => modify (update_slot handle (set_hmd NULL))) g
        = {| outcome := Done tt; globals := g'; calls := [] |} /\
      length (oculusdevices g') = length (oculusdevices g) /\
      (forall j, lo <= j < lo + Z.of_nat n -> slot g' j = set_hmd NULL (slot g j)) /\
      (forall j, 0 <= j -> ~ (lo <= j < lo + Z.of_nat n) -> slot g' j = slot g j) /\
      available_devices g' = available_devices g /\
      devicecount g' = devicecount g /\
      initialized g' = initialized g.
Proof.
  induction n as [| n IH]; intros lo g Hlo Hlen.
  - exists g. split; [reflexivity |]. split; [reflexivity |].
    split; [intros j Hj; lia |]. repeat split; reflexivity.
  - cbn [for_range]. rewrite bind_modify_eq.
    destruct (IH (lo + 1) (update_slot lo (set_hmd NULL) g)) as
      (g' & E & Hl & Hin & Hout & Ha & Hd & Hi);
      [lia | rewrite length_update_slot; lia |].
    exists g'. split; [exact E |]. rewrite length_update_slot in Hl.
    split; [exact Hl |]. split.
    { intros j Hj. destruct (Z.eq_dec j lo) as [-> | Hne].
      - rewrite Hout by lia. apply slot_update_slot_same. lia.
      - rewrite Hin by lia. rewrite slot_update_slot_other by (apply to_nat_neq; lia).
        reflexivity. }
    split.
    { intros j Hj Hn. rewrite Hout by lia.
      apply slot_update_slot_other. apply to_nat_neq; lia. }
    repeat split; assumption.
Qed.

(** X15: run on any table of ten records, [PsychOculusVRInit] returns
    after clearing the device pointer of every record, so that no handle is
    open, and resets the three counters; it makes no call to the SDK (a
    device open at that time is not destroyed) and leaves the other fields
    of the records as they are. *)
Theorem X15_Init_clears_the_table (g : Globals) :
  well_typed g ->
  let r := PsychOculusVRInit g in
  outcome r = Done tt /\ calls r = [] /\
  (forall j, 0 <= j < MAX_PSYCH_OCULUS_DEVS ->
             slot (globals r) j = set_hmd NULL (slot g j)) /\
  (forall handle, not_open (globals r) handle) /\
  available_devices (globals r) = 0 /\
  devicecount (globals r) = 0 /\
  initialized (globals r) = false.
Proof.
  intros [Hlen _]. cbv zeta.
  destruct (clear_range (Z.to_nat MAX_PSYCH_OCULUS_DEVS) 0 g) as
    (g' & E & _ & Hin & _ & _ & _ & _); [lia | rewrite Hlen; simpl; lia |].
  unfold PsychOculusVRInit.
  rewrite (bind_done _ _ g tt) by (rewrite E; reflexivity).
  rewrite E. cbn [outcome globals calls]. repeat step. finish.
  assert (Hs : forall j, 0 <= j < MAX_PSYCH_OCULUS_DEVS -> slot g' j = set_hmd NULL (slot g j))
    by (intros j Hj; apply Hin; unfold MAX_PSYCH_OCULUS_DEVS in *; lia).
  split; [reflexivity |]. split; [reflexivity |]. split.
  { intros j Hj. rewrite slot_with_initialized, slot_with_devicecount, slot_with_available.
    apply Hs. exact Hj. }
  split.
  { intros handle. unfold not_open.
    rewrite slot_with_initialized, slot_with_devicecount, slot_with_available.
    destruct (Z_lt_ge_dec handle 1) as [Hlt | Hge]; [left; exact Hlt |].
    destruct (Z_le_gt_dec handle MAX_PSYCH_OCULUS_DEVS) as [Hle | Hgt];
      [| right; left; exact Hgt].
    right. right. rewrite Hs by lia. reflexivity. }
  repeat split; reflexivity.
Qed.

Lemma X15_Init_clears_the_table_witness :
  not_open (globals (PsychOculusVRInit one_open)) 1 /\
  devicecount (globals (PsychOculusVRInit one_open)) = 0.
Proof.
  pose proof (X15_Init_clears_the_table one_open well_typed_one_open) as H.
  cbv zeta in H.
  exact (conj (proj1 (proj2 (proj2 (proj2 H))) 1)
              (proj1 (proj2 (proj2 (proj2 (proj2 (proj2 H))))))).
Defined.

Lemma with_initialized_same (g : Globals) : with_initialized (initialized g) g = g.
Proof. destruct g. reflexivity. Qed.

Lemma ShutDown_down (sdk : Sdk) (g : Globals) :
  initialized g = false ->
  PsychOculusVRShutDown sdk g
  = {| outcome := Done PsychError_none; globals := g; calls := [] |}.
Proof.
  intros Hi. unfold PsychOculusVRShutDown. rewrite bind_get_eq. rewrite Hi.
  repeat step. finish. rewrite <- Hi. rewrite with_initialized_same. reflexivity.
Qed.

Lemma ShutDown_done_down (sdk : Sdk) (g : Globals) (e : PsychError) :
  outcome (PsychOculusVRShutDown sdk g) = Done e ->
  initialized (globals (PsychOculusVRShutDown sdk g)) = false.
Proof.
  unfold PsychOculusVRShutDown. rewrite bind_get_eq.
  set (c := when (initialized g) _).
  destruct (outcome (c g)) as [a | e' msg |] eqn:E.
  - rewrite (bind_done _ _ g a E). cbn [outcome globals]. intros _.
    rewrite bind_modify_eq. reflexivity.
  - rewrite (bind_error _ _ g e' msg E). discriminate.
  - unfold bind. rewrite E. discriminate.
Qed.

(** X16: a shutdown is idempotent: after a shutdown that returned,
    whatever state it started from, a second one returns at once, without a
    call to the SDK and without a change of the state; in particular a
    shutdown of a driver whose runtime is down does nothing. *)
Theorem X16_second_shutdown_does_nothing (sdk sdk' : Sdk) (g : Globals) (e : PsychError) :
  outcome (PsychOculusVRShutDown sdk g) = Done e ->
  PsychOculusVRShutDown sdk' (globals (PsychOculusVRShutDown sdk g))
  = {| outcome := Done PsychError_none;
       globals := globals (PsychOculusVRShutDown sdk g);
       calls := [] |}.
Proof.
  intros H. apply ShutDown_down. apply (ShutDown_done_down sdk g e). exact H.
Qed.

Lemma one_open_shut_down :
  outcome (PsychOculusVRShutDown (sample_sdk 100 200) one_open) = Done PsychError_none.
Proof. vm_compute. reflexivity. Defined.

Lemma X16_second_shutdown_does_nothing_witness :
  calls (PsychOculusVRShutDown (sample_sdk 100 200)
           (globals (PsychOculusVRShutDown (sample_sdk 100 200) one_open))) = [].
Proof.
  rewrite (X16_second_shutdown_does_nothing (sample_sdk 100 200) (sample_sdk 100 200)
             one_open PsychError_none one_open_shut_down).
  reflexivity.
Defined.

(** *** 'GetFovTextureSize' on an open device *)

Lemma open_in_range (g : Globals) (i : Z) :
  hmd (slot g i) <> NULL -> (Z.to_nat i < length (oculusdevices g))%nat.
Proof.
  unfold slot. intros H. destruct (oculusdevices g !! Z.to_nat i) as [d |] eqn:E.
  - apply lookup_lt_Some in E. exact E.
  - exfalso. apply H. reflexivity.
Qed.

Lemma get2_set2_same {A : Type} (a : A * A) (e : Z) (v : A) : get2 (set2 a e v) e = v.
Proof. unfold get2, set2. destruct (e =? 0); reflexivity. Qed.

Lemma get2_set2 {A : Type} (a : A * A) (e e' : Z) (v : A) :
  0 <= e <= 1 -> 0 <= e' <= 1 ->
  get2 (set2 a e' v) e = if e' =? e then v else get2 a e.
Proof.
  intros He He'. unfold get2, set2.
  destruct (e' =? 0) eqn:E1; destruct (e =? 0) eqn:E2; destruct (e' =? e) eqn:E3;
    try reflexivity; exfalso;
    rewrite ?Z.eqb_eq, ?Z.eqb_neq in *; lia.
Qed.

(** Length of the table of a state built by writes to records. *)
Ltac table_length Hr :=
  repeat match goal with
    | |- (_ < length (oculusdevices ?s))%nat =>
        first [ exact Hr | unfold s; cbv beta; rewrite length_update_slot ]
    end.

(** A field that the writes leading to a state do not touch. *)
Ltac untouched proj :=
  repeat match goal with
    | |- context [slot ?s _] =>
        is_var s; unfold s; cbv beta;
        rewrite (slot_update_slot_field proj) by (intros; reflexivity)
    end.

Lemma GetFovTextureSize_done (sdk : Sdk) (handle eye : Z) (fov : option (list double))
  (ppd : option double) (g : Globals) (res : FovTextureSizeResult) :
  is_open g handle -> runtime_starts sdk g ->
  outcome (PSYCHOCULUSVRGetFovTextureSize sdk handle eye fov ppd g) = Done res ->
  let d := slot g (handle - 1) in
  let p := hmd d in
  let ofov := fov_port sdk p eye fov in
  let rd := sdk_GetRenderDesc sdk p eye ofov in
  let old := get2 (eyeDistortionMesh d) eye in
  let mesh := snd (sdk_CreateDistortionMesh sdk p (Eye rd) (Fov rd) 0 old) in
  let uv := sdk_GetRenderScaleAndOffset sdk (Fov rd) fixed_size fixed_viewport in
  let order := hmd_EyeRenderOrder sdk p eye in
  let tw := sdk_GetEyeTimewarpMatrices sdk p eye (timewarp_pose sdk d eye) in
  res = {| out_width := 1080; out_height := 1920;
           out_viewPx := 0; out_viewPy := 0; out_viewPw := 1080; out_viewPh := 1920;
           out_pptax := x2 (PixelsPerTanAngleAtCenter rd);
           out_pptay := y2 (PixelsPerTanAngleAtCenter rd);
           out_hmdShiftx := x3 (HmdToEyeViewOffset rd);
           out_hmdShifty := y3 (HmdToEyeViewOffset rd);
           out_hmdShiftz := z3 (HmdToEyeViewOffset rd);
           out_meshVertices :=
             vertex_loop (firstn (Z.to_nat (VertexCount mesh))
                            (mem_vertices sdk (pVertexData mesh)));
           out_meshIndices :=
             firstn (Z.to_nat (IndexCount mesh)) (mem_indices sdk (pIndexData mesh));
           out_uvScaleX := x2 (fst uv); out_uvScaleY := y2 (fst uv);
           out_uvOffsetX := x2 (snd uv); out_uvOffsetY := y2 (snd uv);
           out_eyeRotStartMatrix := M (fst tw);
           out_eyeRotEndMatrix := M (snd tw) |} /\
  calls (PSYCHOCULUSVRGetFovTextureSize sdk handle eye fov ppd g) =
    calls (PsychOculusVRCheckInit sdk g)
    ++ [ Call_ovrHmd_GetFovTextureSize p eye ofov (default 1%float ppd);
         Call_ovrHmd_GetRenderDesc p eye ofov;
         Call_ovrHmd_CreateDistortionMesh p (Eye rd) (Fov rd) 0 old mesh;
         Call_ovrHmd_GetRenderScaleAndOffset (Fov rd) fixed_size fixed_viewport;
         Call_ovrHmd_GetHmdPosePerEye p order;
         Call_ovrHmd_GetEyeTimewarpMatrices p eye (timewarp_pose sdk d eye) ] /\
  texSize (slot (globals (PSYCHOCULUSVRGetFovTextureSize sdk handle eye fov ppd g))
             (handle - 1)) = fixed_size.
Proof.
  intros Hopen Hrt. cbv zeta.
  rewrite <- (slot_checked sdk g (handle - 1)).
  apply (is_open_checked sdk) in Hopen.
  unfold PSYCHOCULUSVRGetFovTextureSize.
  rewrite (bind_done _ _ g tt) by (apply CheckInit_starts; exact Hrt).
  fold (checked sdk g). set (g1 := checked sdk g) in *.
  rewrite (bind_done _ _ g1 (Some (handle - 1)))
    by (rewrite PsychGetOculus_open by exact Hopen; reflexivity).
  rewrite PsychGetOculus_open by exact Hopen. cbn [outcome globals calls app].
  pose proof (open_in_range g1 (handle - 1) (proj2 Hopen)) as Hr.
  set (i := handle - 1) in *.
  set (l0 := calls (PsychOculusVRCheckInit sdk g)).
  unfold fov_port, timewarp_pose, fixed_viewport, fixed_size.
  match goal with
  | |- outcome ?c = _ -> _ /\ l0 ++ calls ?c = _ /\ _ =>
      generalize (eq_refl c); generalize c at 2 3 4 5
  end.
  unfold_sdk.
  run_named.
  all: intros r <-; cbn [outcome globals calls]; intros Hres; try discriminate Hres.
  all: assert (Hp3 : hmd (slot st3 i) = hmd (slot g1 i)) by (untouched hmd; reflexivity).
  all: assert (Hp8 : hmd (slot st8 i) = hmd (slot g1 i)) by (untouched hmd; reflexivity).
  all: assert (Hp9 : hmd (slot st9 i) = hmd (slot g1 i)) by (untouched hmd; reflexivity).
  all: assert (Hp11 : hmd (slot st11 i) = hmd (slot g1 i)) by (untouched hmd; reflexivity).
  all: assert (HT3 : texSize (slot st3 i) = {| w := 1080; h := 1920 |})
         by (unfold st3; rewrite slot_update_slot_same by table_length Hr;
             cbn [texSize set_texSize];
             unfold st2; rewrite slot_update_slot_same by table_length Hr;
             reflexivity).
  all: assert (HT9 : texSize (slot st9 i) = texSize (slot st3 i))
         by (untouched texSize; reflexivity).
  all: assert (HT12 : texSize (slot st12 i) = texSize (slot st3 i))
         by (untouched texSize; reflexivity).
  all: assert (HM8 : eyeDistortionMesh (slot st8 i) = eyeDistortionMesh (slot g1 i))
         by (untouched eyeDistortionMesh; reflexivity).
  all: assert (HH10 : headPose (slot st10 i) = headPose (slot g1 i))
         by (untouched headPose; reflexivity).
  all: assert (HD8 : get2 (eyeRenderDesc (slot st8 i)) eye
                     = set_Size_h 1920 (set_Size_w 1080 (set_Pos_y 0 (set_Pos_x 0
                         (get2 (eyeRenderDesc (slot st4 i)) eye)))))
         by (unfold st8; cbv beta; rewrite slot_update_slot_same by table_length Hr;
             cbn [eyeRenderDesc set_eyeRenderDesc]; rewrite get2_set2_same;
             unfold st7; cbv beta; rewrite slot_update_slot_same by table_length Hr;
             cbn [eyeRenderDesc set_eyeRenderDesc]; rewrite get2_set2_same;
             unfold st6; cbv beta; rewrite slot_update_slot_same by table_length Hr;
             cbn [eyeRenderDesc set_eyeRenderDesc]; rewrite get2_set2_same;
             unfold st5; cbv beta; rewrite slot_update_slot_same by table_length Hr;
             cbn [eyeRenderDesc set_eyeRenderDesc]; rewrite get2_set2_same;
             rewrite HT3; reflexivity).
  all: assert (HD4 : get2 (eyeRenderDesc (slot st4 i)) eye
                     = sdk_GetRenderDesc sdk (hmd (slot g1 i)) eye
                         match fov with
                         | Some fov =>
                             {| LeftTan := c_tan sdk (deg2rad (nth 0 fov 0%float));
                                RightTan := c_tan sdk (deg2rad (nth 1 fov 0%float));
                                UpTan := c_tan sdk (deg2rad (nth 2 fov 0%float));
                                DownTan := c_tan sdk (deg2rad (nth 3 fov 0%float)) |}
                         | None => hmd_DefaultEyeFov sdk (hmd (slot g1 i)) eye
                         end)
         by (unfold st4; rewrite slot_update_slot_same by table_length Hr;
             cbn [eyeRenderDesc set_eyeRenderDesc]; rewrite get2_set2_same;
             rewrite Hp3; subst fov; reflexivity).
  all: assert (HM9 : get2 (eyeDistortionMesh (slot st9 i)) eye
                     = snd (sdk_CreateDistortionMesh sdk (hmd (slot st8 i))
                              (Eye (get2 (eyeRenderDesc (slot st8 i)) eye))
                              (Fov (get2 (eyeRenderDesc (slot st8 i)) eye)) 0
                              (get2 (eyeDistortionMesh (slot st8 i)) eye)))
         by (unfold st9; rewrite slot_update_slot_same by table_length Hr;
             cbn [eyeDistortionMesh set_eyeDistortionMesh]; apply get2_set2_same).
  all: assert (Heye : 0 <= eye <= 1)
         by (apply orb_false_iff in Heqb; destruct Heqb as [E1 E2];
             apply Z.ltb_ge in E1; apply Z.gtb_ltb in E2 || idtac; lia).
  all: assert (Horder : 0 <= hmd_EyeRenderOrder sdk (hmd (slot g1 i)) eye <= 1)
         by (rewrite Hp9 in *; lia).
  all: assert (HH11 : get2 (headPose (slot st11 i)) eye
                      = if hmd_EyeRenderOrder sdk (hmd (slot g1 i)) eye =? eye
                        then sdk_GetHmdPosePerEye sdk (hmd (slot g1 i))
                               (hmd_EyeRenderOrder sdk (hmd (slot g1 i)) eye)
                        else get2 (headPose (slot g1 i)) eye)
         by (unfold st11; rewrite slot_update_slot_same by table_length Hr;
             cbn [headPose set_headPose]; rewrite Hp9;
             rewrite get2_set2 by assumption; rewrite HH10; reflexivity).
  all: apply (f_equal (fun o => match o with Done x => x | _ => res end)) in Hres;
    cbv beta iota in Hres; rewrite <- Hres; clear Hres.
  all: rewrite ?HH11, ?HM9, ?HT12, ?HT9, ?HD8, ?HM8, ?HD4, ?HT3, ?Hp11, ?Hp9, ?Hp8, ?Hp3.
  all: rewrite ?Heqb1.
  all: cbn [set_Size_h set_Size_w set_Pos_x set_Pos_y Eye Fov DistortedViewport Pos Size
            ix iy w h PixelsPerTanAngleAtCenter HmdToEyeViewOffset].
  all: subst fov.
  all: split; [reflexivity | split; reflexivity].
Qed.

Lemma GetFovTextureSize_done_inv (sdk : Sdk) (handle eye : Z) (fov : option (list double))
  (ppd : option double) (g : Globals) (res : FovTextureSizeResult) :
  outcome (PSYCHOCULUSVRGetFovTextureSize sdk handle eye fov ppd g) = Done res ->
  is_open g handle /\ runtime_starts sdk g.
Proof.
  intros Hres.
  assert (Hrt : runtime_starts sdk g).
  { destruct (initialized g) eqn:Hi; [left; exact Hi |].
    destruct (sdk_Initialize sdk) eqn:Hs; [right; exact Hs |].
    unfold PSYCHOCULUSVRGetFovTextureSize in Hres.
    rewrite bind_CheckInit_fails in Hres by assumption. discriminate Hres. }
  split; [| exact Hrt].
  destruct (handle_open g handle) eqn:Ho; [apply handle_open_true; exact Ho |].
  apply handle_open_false in Ho.
  destruct (rejected_after_CheckInit sdk g handle
              (fun oculus =>
                 match oculus with
                 | Some _ => PSYCHOCULUSVRGetFovTextureSize sdk handle eye fov ppd
                 | None => fault
                 end) Ho Hrt) as (E & _).
  exfalso. revert Hres E. unfold PSYCHOCULUSVRGetFovTextureSize.
  rewrite (bind_done _ _ g tt) by (apply CheckInit_starts; exact Hrt).
  rewrite (bind_done _ _ g tt) by (apply CheckInit_starts; exact Hrt).
  cbn [outcome].
  rewrite (bind_error _ _ _ PsychError_user "Invalid Oculus handle.")
    by (rewrite PsychGetOculus_not_open_fail by (apply not_open_checked; exact Ho);
        reflexivity).
  discriminate.
Qed.

(** X17: whenever 'GetFovTextureSize' returns, the width and height it
    reports are 1080 and 1920 and the viewport it reports is (0, 0, 1080,
    1920), whatever size and render description the SDK answered; the same
    size is what it leaves in the record of the device and what it hands,
    with that viewport, to [ovrHmd_GetRenderScaleAndOffset]. *)
Theorem X17_reported_size_is_fixed (sdk : Sdk) (handle eye : Z) (fov : option (list double))
  (ppd : option double) (g : Globals) (res : FovTextureSizeResult) :
  outcome (PSYCHOCULUSVRGetFovTextureSize sdk handle eye fov ppd g) = Done res ->
  let r := PSYCHOCULUSVRGetFovTextureSize sdk handle eye fov ppd g in
  (out_width res, out_height res) = (1080, 1920) /\
  (out_viewPx res, out_viewPy res, out_viewPw res, out_viewPh res) = (0, 0, 1080, 1920) /\
  texSize (slot (globals r) (handle - 1)) = {| w := 1080; h := 1920 |} /\
  exists f, In (Call_ovrHmd_GetRenderScaleAndOffset f fixed_size fixed_viewport) (calls r).
Proof.
  intros Hres. cbv zeta.
  destruct (GetFovTextureSize_done_inv sdk handle eye fov ppd g res Hres) as [Hopen Hrt].
  destruct (GetFovTextureSize_done sdk handle eye fov ppd g res Hopen Hrt Hres)
    as (-> & Hc & Ht).
  cbn [out_width out_height out_viewPx out_viewPy out_viewPw out_viewPh].
  split; [reflexivity |]. split; [reflexivity |]. split; [exact Ht |].
  eexists. rewrite Hc. apply in_or_app. right.
  right. right. right. left. reflexivity.
Qed.

Lemma X17_reported_size_is_fixed_witness :
  exists res,
    outcome (PSYCHOCULUSVRGetFovTextureSize (sample_sdk 100 200) 1 0 None None one_open)
      = Done res /\
    (out_width res, out_height res) = (1080, 1920).
Proof.
  assert (Hex : exists res,
             outcome (PSYCHOCULUSVRGetFovTextureSize (sample_sdk 100 200) 1 0 None None
                        one_open) = Done res)
    by (eexists; vm_compute; reflexivity).
  destruct Hex as [res Hres]. exists res. split; [exact Hres |].
  exact (proj1 (X17_reported_size_is_fixed (sample_sdk 100 200) 1 0 None None one_open res
                  Hres)).
Defined.

Lemma last_two_of_six {A : Type} (l0 : list A) (a b c d e f : A) :
  exists l, l0 ++ [a; b; c; d; e; f] = l ++ [e; f].
Proof. exists (l0 ++ [a; b; c; d]). rewrite <- app_assoc. reflexivity. Qed.

(** X18: whenever 'GetFovTextureSize' returns, its last two calls fetch
    the head pose of the eye [EyeRenderOrder[eye]] of the headset and then
    compute the time-warp matrices of [eye]; the pose handed to the latter
    is the one just fetched only when [EyeRenderOrder[eye]] is [eye], and
    otherwise the pose the record held for [eye] before the call. *)
Theorem X18_pose_of_the_timewarp_matrices (sdk : Sdk) (handle eye : Z)
  (fov : option (list double)) (ppd : option double) (g : Globals)
  (res : FovTextureSizeResult) :
  outcome (PSYCHOCULUSVRGetFovTextureSize sdk handle eye fov ppd g) = Done res ->
  let d := slot g (handle - 1) in
  let order := hmd_EyeRenderOrder sdk (hmd d) eye in
  let pose := if order =? eye then sdk_GetHmdPosePerEye sdk (hmd d) order
              else get2 (headPose d) eye in
  0 <= eye <= 1 /\
  (exists l,
     calls (PSYCHOCULUSVRGetFovTextureSize sdk handle eye fov ppd g)
     = l ++ [ Call_ovrHmd_GetHmdPosePerEye (hmd d) order;
              Call_ovrHmd_GetEyeTimewarpMatrices (hmd d) eye pose ]) /\
  out_eyeRotStartMatrix res = M (fst (sdk_GetEyeTimewarpMatrices sdk (hmd d) eye pose)) /\
  out_eyeRotEndMatrix res = M (snd (sdk_GetEyeTimewarpMatrices sdk (hmd d) eye pose)).
Proof.
  intros Hres. cbv zeta.
  destruct (GetFovTextureSize_done_inv sdk handle eye fov ppd g res Hres) as [Hopen Hrt].
  destruct (GetFovTextureSize_done sdk handle eye fov ppd g res Hopen Hrt Hres)
    as (-> & Hc & _).
  unfold timewarp_pose in Hc. cbv zeta in Hc.
  cbn [out_eyeRotStartMatrix out_eyeRotEndMatrix]. unfold timewarp_pose. cbv zeta.
  split; [| split; [| split; reflexivity]].
  - revert Hres. unfold PSYCHOCULUSVRGetFovTextureSize.
    rewrite (bind_done _ _ g tt) by (apply CheckInit_starts; exact Hrt).
    cbn [outcome].
    rewrite (bind_done _ _ _ (Some (handle - 1)))
      by (rewrite PsychGetOculus_open by (apply is_open_checked; exact Hopen); reflexivity).
    cbn [outcome]. rewrite PsychGetOculus_open by (apply is_open_checked; exact Hopen).
    cbn [globals]. destruct ((eye <? 0) || (eye >? 1)) eqn:E; [| intros _; lia].
    cbn [when]. rewrite bind_error_eq. discriminate.
  - rewrite Hc. apply last_two_of_six.
Qed.

Lemma X18_pose_of_the_timewarp_matrices_witness :
  exists res,
    outcome (PSYCHOCULUSVRGetFovTextureSize (sample_sdk 100 200) 1 0 None None one_open)
      = Done res /\
    out_eyeRotStartMatrix res = M zero_matrix.
Proof.
  assert (Hex : exists res,
             outcome (PSYCHOCULUSVRGetFovTextureSize (sample_sdk 100 200) 1 0 None None
                        one_open) = Done res)
    by (eexists; vm_compute; reflexivity).
  destruct Hex as [res Hres]. exists res. split; [exact Hres |].
  pose proof (X18_pose_of_the_timewarp_matrices (sample_sdk 100 200) 1 0 None None one_open
                res Hres) as H.
  cbv zeta in H. exact (proj1 (proj2 (proj2 H))).
Defined.

(** X19: whenever 'GetFovTextureSize' returns, the outputs other than
    the sizes and the vertices are what the SDK answered during the call:
    the pixel density and the eye offset of the render description of
    [eye], the first [IndexCount] entries of the index buffer of the mesh
    (built for the eye and field of view of that description), and the
    scale and offset of [ovrHmd_GetRenderScaleAndOffset]. *)
Theorem X19_outputs_are_the_answers_of_the_SDK (sdk : Sdk) (handle eye : Z)
  (fov : option (list double)) (ppd : option double) (g : Globals)
  (res : FovTextureSizeResult) :
  outcome (PSYCHOCULUSVRGetFovTextureSize sdk handle eye fov ppd g) = Done res ->
  let p := hmd (slot g (handle - 1)) in
  exists ofov,
    let rd := sdk_GetRenderDesc sdk p eye ofov in
    let mesh := snd (sdk_CreateDistortionMesh sdk p (Eye rd) (Fov rd) 0
                       (cached_mesh g handle eye)) in
    let uv := sdk_GetRenderScaleAndOffset sdk (Fov rd) fixed_size fixed_viewport in
    In (Call_ovrHmd_GetRenderDesc p eye ofov)
       (calls (PSYCHOCULUSVRGetFovTextureSize sdk handle eye fov ppd g)) /\
    (out_pptax res, out_pptay res)
      = (x2 (PixelsPerTanAngleAtCenter rd), y2 (PixelsPerTanAngleAtCenter rd)) /\
    (out_hmdShiftx res, out_hmdShifty res, out_hmdShiftz res)
      = (x3 (HmdToEyeViewOffset rd), y3 (HmdToEyeViewOffset rd),
         z3 (HmdToEyeViewOffset rd)) /\
    out_meshIndices res
      = firstn (Z.to_nat (IndexCount mesh)) (mem_indices sdk (pIndexData mesh)) /\
    (out_uvScaleX res, out_uvScaleY res, out_uvOffsetX res, out_uvOffsetY res)
      = (x2 (fst uv), y2 (fst uv), x2 (snd uv), y2 (snd uv)).
Proof.
  intros Hres. cbv zeta.
  destruct (GetFovTextureSize_done_inv sdk handle eye fov ppd g res Hres) as [Hopen Hrt].
  destruct (GetFovTextureSize_done sdk handle eye fov ppd g res Hopen Hrt Hres)
    as (-> & Hc & _).
  exists (fov_port sdk (hmd (slot g (handle - 1))) eye fov).
  cbn [out_pptax out_pptay out_hmdShiftx out_hmdShifty out_hmdShiftz out_meshIndices
       out_uvScaleX out_uvScaleY out_uvOffsetX out_uvOffsetY].
  split; [| repeat split; reflexivity].
  rewrite Hc. apply in_or_app. right. right. left. reflexivity.
Qed.

Lemma X19_outputs_are_the_answers_of_the_SDK_witness :
  exists res,
    outcome (PSYCHOCULUSVRGetFovTextureSize (sample_sdk 100 200) 1 0 None None one_open)
      = Done res /\
    out_meshIndices res = [0; 1; 2].
Proof.
  assert (Hex : exists res,
             outcome (PSYCHOCULUSVRGetFovTextureSize (sample_sdk 100 200) 1 0 None None
                        one_open) = Done res)
    by (eexists; vm_compute; reflexivity).
  destruct Hex as [res Hres]. exists res. split; [exact Hres |].
  destruct (X19_outputs_are_the_answers_of_the_SDK (sample_sdk 100 200) 1 0 None None
              one_open res Hres) as (ofov & _ & _ & _ & Hidx & _).
  exact Hidx.
Defined.

(** *** 'GetFovTextureSize': the checks of the arguments *)

(** X20: on an open handle, with the runtime up or starting,
    'GetFovTextureSize' with an eye other than 0 and 1 ends in a user
    error, whatever the other arguments; with a valid eye and a 'fov'
    argument that has not exactly four elements it ends in a user error,
    whatever 'pixelsPerDisplay'.  In both cases the SDK is not called beyond
    the start of the runtime and the state is the one the initialisation
    check left. *)
Theorem X20_eye_and_fov_are_checked (sdk : Sdk) (handle eye : Z)
  (fov : option (list double)) (ppd : option double) (g : Globals) :
  is_open g handle -> runtime_starts sdk g ->
  ((eye < 0 \/ eye > 1) ->
   PSYCHOCULUSVRGetFovTextureSize sdk handle eye fov ppd g =
   {| outcome := ErrorExit PsychError_user
                   "Invalid 'eye' specified. Must be 0 or 1 for left- or right eye.";
      globals := checked sdk g;
      calls := calls (PsychOculusVRCheckInit sdk g) |}) /\
  (0 <= eye <= 1 ->
   forall l, fov = Some l -> length l <> 4%nat ->
   PSYCHOCULUSVRGetFovTextureSize sdk handle eye fov ppd g =
   {| outcome := ErrorExit PsychError_user
                   "Invalid 'fov' specified. Must be a 4-component vector of form [leftdeg, rightdeg, updeg, downdeg].";
      globals := checked sdk g;
      calls := calls (PsychOculusVRCheckInit sdk g) |}).
Proof.
  intros Hopen Hrt.
  apply (is_open_checked sdk) in Hopen.
  unfold PSYCHOCULUSVRGetFovTextureSize.
  rewrite (bind_done _ _ g tt) by (apply CheckInit_starts; exact Hrt).
  fold (checked sdk g). set (g1 := checked sdk g) in *.
  rewrite (bind_done _ _ g1 (Some (handle - 1)))
    by (rewrite PsychGetOculus_open by exact Hopen; reflexivity).
  rewrite PsychGetOculus_open by exact Hopen. cbn [outcome globals calls app].
  split.
  - intros Heye.
    assert (E : (eye <? 0) || (eye >? 1) = true) by lia.
    rewrite E. cbn [when]. rewrite bind_error_eq. cbn [outcome globals calls].
    rewrite app_nil_r. reflexivity.
  - intros Heye l -> Hlen.
    assert (E : (eye <? 0) || (eye >? 1) = false) by lia.
    assert (E4 : negb (Z.of_nat (length l) =? 4) = true) by lia.
    rewrite E. cbn [when]. repeat step. rewrite E4. cbn [when]. repeat step. finish.
    rewrite app_nil_r. reflexivity.
Qed.

Lemma X20_eye_and_fov_are_checked_witness :
  outcome (PSYCHOCULUSVRGetFovTextureSize (sample_sdk 100 200) 1 2 None None one_open)
  = ErrorExit PsychError_user
      "Invalid 'eye' specified. Must be 0 or 1 for left- or right eye." /\
  outcome (PSYCHOCULUSVRGetFovTextureSize (sample_sdk 100 200) 1 0
             (Some [45%float; 45%float]) None one_open)
  = ErrorExit PsychError_user
      "Invalid 'fov' specified. Must be a 4-component vector of form [leftdeg, rightdeg, updeg, downdeg].".
Proof.
  assert (Hrt : runtime_starts (sample_sdk 100 200) one_open) by (left; reflexivity).
  assert (Heye : 2 < 0 \/ 2 > 1) by lia.
  assert (Heye0 : 0 <= 0 <= 1) by lia.
  assert (Hlen : length [45%float; 45%float] <> 4%nat) by (simpl; lia).
  split.
  - rewrite (proj1 (X20_eye_and_fov_are_checked (sample_sdk 100 200) 1 2 None None one_open
                      is_open_one_open Hrt) Heye).
    reflexivity.
  - rewrite (proj2 (X20_eye_and_fov_are_checked (sample_sdk 100 200) 1 0
                      (Some [45%float; 45%float]) None one_open is_open_one_open Hrt)
               Heye0 _ eq_refl Hlen).
    reflexivity.
Defined.

(** *** 'GetFovTextureSize': the mesh cannot be built *)

(** X21: a 'GetFovTextureSize' that ends in the system error of a failed
    [ovrHmd_CreateDistortionMesh] has changed the record of the device all
    the same: the size in the record is 1080 by 1920, and the mesh cached
    for [eye] is what the SDK left in place of the mesh the record held,
    which was handed to the SDK without being released. *)
Theorem X21_failed_mesh_still_changes_the_record (sdk : Sdk) (handle eye : Z)
  (fov : option (list double)) (ppd : option double) (g : Globals) :
  is_open g handle -> runtime_starts sdk g ->
  outcome (PSYCHOCULUSVRGetFovTextureSize sdk handle eye fov ppd g)
    = ErrorExit PsychError_system "Failed to compute distortion mesh for eye." ->
  let r := PSYCHOCULUSVRGetFovTextureSize sdk handle eye fov ppd g in
  texSize (slot (globals r) (handle - 1)) = fixed_size /\
  exists l e f caps,
    calls r = l ++ [Call_ovrHmd_CreateDistortionMesh (hmd (slot g (handle - 1))) e f caps
                      (cached_mesh g handle eye) (cached_mesh (globals r) handle eye)] /\
    sdk_CreateDistortionMesh sdk (hmd (slot g (handle - 1))) e f caps
      (cached_mesh g handle eye) = (false, cached_mesh (globals r) handle eye).
Proof.
  intros Hopen Hrt. cbv zeta.
  rewrite <- (slot_checked sdk g (handle - 1)).
  unfold cached_mesh. rewrite <- (slot_checked sdk g (handle - 1)).
  apply (is_open_checked sdk) in Hopen.
  unfold PSYCHOCULUSVRGetFovTextureSize.
  rewrite (bind_done _ _ g tt) by (apply CheckInit_starts; exact Hrt).
  fold (checked sdk g). set (g1 := checked sdk g) in *.
  rewrite (bind_done _ _ g1 (Some (handle - 1)))
    by (rewrite PsychGetOculus_open by exact Hopen; reflexivity).
  rewrite PsychGetOculus_open by exact Hopen. cbn [outcome globals calls app].
  pose proof (open_in_range g1 (handle - 1) (proj2 Hopen)) as Hr.
  set (i := handle - 1) in *.
  set (l0 := calls (PsychOculusVRCheckInit sdk g)).
  unfold fixed_size.
  match goal with
  | |- outcome ?c = _ -> _ =>
      generalize (eq_refl c); generalize c at 2 3 4 5 6
  end.
  unfold_sdk.
  run_named.
  all: intros r <-; cbn [outcome globals calls]; intros Hres; try discriminate Hres.
  all: clear Hres.
  all: assert (Hp8 : hmd (slot st8 i) = hmd (slot g1 i)) by (untouched hmd; reflexivity).
  all: assert (HT3 : texSize (slot st3 i) = {| w := 1080; h := 1920 |})
         by (unfold st3; rewrite slot_update_slot_same by table_length Hr;
             cbn [texSize set_texSize];
             unfold st2; rewrite slot_update_slot_same by table_length Hr;
             reflexivity).
  all: assert (HT9 : texSize (slot st9 i) = texSize (slot st3 i))
         by (untouched texSize; reflexivity).
  all: assert (HM8 : eyeDistortionMesh (slot st8 i) = eyeDistortionMesh (slot g1 i))
         by (untouched eyeDistortionMesh; reflexivity).
  all: assert (HM9 : get2 (eyeDistortionMesh (slot st9 i)) eye
                     = snd (sdk_CreateDistortionMesh sdk (hmd (slot st8 i))
                              (Eye (get2 (eyeRenderDesc (slot st8 i)) eye))
                              (Fov (get2 (eyeRenderDesc (slot st8 i)) eye)) 0
                              (get2 (eyeDistortionMesh (slot st8 i)) eye)))
         by (unfold st9; rewrite slot_update_slot_same by table_length Hr;
             cbn [eyeDistortionMesh set_eyeDistortionMesh]; apply get2_set2_same).
  all: split; [rewrite HT9; exact HT3 |].
  all: rewrite HM9; clear HM9.
  all: match goal with
       | H : negb (fst _) = true |- _ => rewrite HM8, Hp8 in H
       end.
  all: rewrite HM8, Hp8.
  all: match goal with
       | |- context [Call_ovrHmd_CreateDistortionMesh _ ?e ?f ?caps _ _] =>
           eexists _, e, f, caps
       end.
  all: split;
    [ rewrite app_nil_r, !app_assoc; reflexivity
    | match goal with
      | H : negb (fst ?x) = true |- ?x = _ =>
          destruct x as [ok m]; cbn [fst snd negb] in *;
          apply negb_true_iff in H; rewrite H; reflexivity
      end ].
Qed.

Lemma X21_failed_mesh_still_changes_the_record_witness :
  texSize (slot (globals (PSYCHOCULUSVRGetFovTextureSize no_mesh 1 0 None None one_open)) 0)
  = fixed_size.
Proof.
  assert (Hrt : runtime_starts no_mesh one_open) by (left; reflexivity).
  assert (Hfail : outcome (PSYCHOCULUSVRGetFovTextureSize no_mesh 1 0 None None one_open)
                  = ErrorExit PsychError_system "Failed to compute distortion mesh for eye.")
    by (vm_compute; reflexivity).
  pose proof (X21_failed_mesh_still_changes_the_record no_mesh 1 0 None None one_open
                is_open_one_open Hrt Hfail) as H.
  cbv zeta in H. exact (proj1 H).
Defined.

(** *** The calls of a shutdown *)

Lemma PsychOculusClose_calls (sdk : Sdk) (g : Globals) (handle : Z) :
  (handle_open g handle = true -> stop_granted sdk g handle) ->
  calls (PsychOculusClose sdk handle g) = close_calls g handle.
Proof.
  intros Hstop. unfold close_calls. destruct (handle_open g handle) eqn:Ho.
  - apply handle_open_true in Ho. specialize (Hstop eq_refl).
    pose proof (is_open_test _ _ Ho) as Htest.
    unfold stop_granted in Hstop.
    unfold stop_calls, release_calls, cached_mesh.
    unfold PsychOculusClose, PsychOculusStop, PsychGetOculus, release_mesh. unfold_sdk.
    repeat step. rewrite Htest. repeat step. rewrite Htest. repeat step.
    destruct (isTracking (slot g (handle - 1))) eqn:Et;
      [rewrite (Hstop eq_refl) |]; cbn [negb]; repeat step;
      rewrite ?mesh_update_isTracking;
      destruct (pVertexData (get2 (eyeDistortionMesh (slot g (handle - 1))) 0) =? NULL) eqn:E0;
      cbn [negb]; repeat step;
      rewrite ?right_mesh_update_left, ?mesh_update_isTracking;
      destruct (pVertexData (get2 (eyeDistortionMesh (slot g (handle - 1))) 1) =? NULL) eqn:E1;
      cbn [negb]; repeat step; finish;
      rewrite ?hmd_update_mesh, ?hmd_update_isTracking; reflexivity.
  - rewrite PsychOculusClose_not_open by (apply handle_open_false; exact Ho). reflexivity.
Qed.

Lemma close_calls_ext (g g' : Globals) (handle : Z) :
  slot g' (handle - 1) = slot g (handle - 1) ->
  close_calls g' handle = close_calls g handle.
Proof.
  intros E. unfold close_calls, handle_open, stop_calls, release_calls, cached_mesh.
  rewrite E. reflexivity.
Qed.

Lemma close_calls_between_ext (g g' : Globals) (n : nat) :
  forall lo,
    (forall h, lo <= h < lo + Z.of_nat n -> slot g' (h - 1) = slot g (h - 1)) ->
    close_calls_between g' lo n = close_calls_between g lo n.
Proof.
  induction n as [| n IH]; intros lo Hs; [reflexivity |].
  cbn [close_calls_between]. rewrite IH by (intros h Hh; apply Hs; lia).
  rewrite (close_calls_ext g g' lo) by (apply Hs; lia). reflexivity.
Qed.

Lemma close_range_calls (sdk : Sdk) (n : nat) :
  forall (lo : Z) (g : Globals),
    1 <= lo -> well_typed g ->
    (forall h, lo <= h < lo + Z.of_nat n -> stop_granted sdk g h) ->
    outcome (for_range lo n (PsychOculusClose sdk) g) = Done tt /\
    calls (for_range lo n (PsychOculusClose sdk) g) = close_calls_between g lo n.
Proof.
  induction n as [| n IH]; intros lo g Hlo Hwt Hst; [split; reflexivity |].
  cbn [for_range close_calls_between].
  destruct (close_range sdk 1 lo g Hlo Hwt) as (g1 & l1 & E1 & Hwt1 & _ & Hfr & _);
    [intros h Hh; apply Hst; lia |].
  cbn [for_range] in E1.
  assert (E1' : PsychOculusClose sdk lo g = {| outcome := Done tt; globals := g1; calls := l1 |}).
  { revert E1. unfold bind. destruct (PsychOculusClose sdk lo g) as [[[] | e msg |] g2 l2];
      cbn [outcome globals calls ret]; [| discriminate | discriminate].
    rewrite app_nil_r. intros [= -> ->]. reflexivity. }
  assert (Hl1 : l1 = close_calls g lo).
  { rewrite <- (PsychOculusClose_calls sdk g lo) by (intros _; apply Hst; lia).
    rewrite E1'. reflexivity. }
  destruct (IH (lo + 1) g1) as [Ho Hc]; [lia | exact Hwt1 | |].
  { intros h Hh. apply (stop_granted_ext sdk g); [apply Hfr; lia | apply Hst; lia]. }
  rewrite (bind_done _ _ g tt) by (rewrite E1'; reflexivity).
  rewrite E1'. cbn [outcome globals calls]. split; [exact Ho |].
  rewrite Hc, Hl1. f_equal. apply close_calls_between_ext.
  intros h Hh. apply Hfr; lia.
Qed.

(** X22: a shutdown with the runtime up, the SDK granting every stop of
    tracking, makes the calls of closing each open handle from 1 to 9, in
    ascending order and with the records as they were at the start, and
    then, as its last call, [ovr_Shutdown]; handle 10 contributes no
    call. *)
Theorem X22_calls_of_a_shutdown (sdk : Sdk) (g : Globals) :
  well_typed g -> initialized g = true ->
  (forall h, 1 <= h <= 9 -> stop_granted sdk g h) ->
  calls (PsychOculusVRShutDown sdk g) = close_calls_between g 1 9 ++ [Call_ovr_Shutdown].
Proof.
  intros Hwt Hi Hst.
  destruct (close_range_calls sdk 9 1 g) as [Ho Hc];
    [lia | exact Hwt | intros h Hh; apply Hst; lia |].
  unfold PsychOculusVRShutDown. rewrite bind_get_eq. rewrite Hi. cbn [when].
  change (Z.to_nat MAX_PSYCH_OCULUS_DEVS) with (S 9).
  rewrite for_range_S. change (0 + 1) with 1. rewrite !bind_assoc_eq.
  rewrite (bind_done _ _ g tt)
    by (rewrite PsychOculusClose_not_open by (left; lia); reflexivity).
  rewrite PsychOculusClose_not_open by (left; lia). cbn [globals calls app].
  rewrite (bind_done _ _ g tt) by exact Ho.
  cbn [calls]. rewrite Hc. unfold_sdk. repeat step. finish. reflexivity.
Qed.

Lemma X22_calls_of_a_shutdown_witness :
  calls (PsychOculusVRShutDown (sample_sdk 100 200) one_busy)
  = [ Call_ovrHmd_ConfigureTracking 100 0 0;
      Call_ovrHmd_DestroyDistortionMesh (cached_mesh one_busy 1 0);
      Call_ovrHmd_Destroy 100;
      Call_ovr_Shutdown ].
Proof.
  assert (Hwt : well_typed one_busy)
    by (split; [reflexivity | split; [vm_compute; discriminate | reflexivity]]).
  assert (Hst : forall h, 1 <= h <= 9 -> stop_granted (sample_sdk 100 200) one_busy h)
    by (intros h Hh Ht; reflexivity).
  rewrite (X22_calls_of_a_shutdown (sample_sdk 100 200) one_busy Hwt eq_refl Hst).
  vm_compute. reflexivity.
Defined.

(** *** The synopsis *)

(** X23: [PsychOculusVRDisplaySynopsis] prints the entries of the table
    that come before its first [NULL] entry, each followed by a line break,
    and nothing else; it reads beyond the table exactly when no entry is
    [NULL]. *)
Theorem X23_synopsis_is_printed_up_to_the_first_NULL (t : Synopsis) :
  (forall out,
     PsychOculusVRDisplaySynopsis t = Some out <->
     exists lines rest,
       t = map Some lines ++ None :: rest /\
       out = map (fun s => (s ++ newline)%string) lines) /\
  (PsychOculusVRDisplaySynopsis t = None <-> ~ In None t).
Proof.
  induction t as [| [s |] t [IH1 IH2]].
  - split.
    + intros out. split; [discriminate |].
      intros (lines & rest & E & _). destruct lines; discriminate E.
    + split; [intros _ [] | reflexivity].
  - cbn [PsychOculusVRDisplaySynopsis]. split.
    + intros out. split.
      * destruct (PsychOculusVRDisplaySynopsis t) as [out' |]; [| discriminate].
        intros [= <-]. destruct (proj1 (IH1 out') eq_refl) as (lines & rest & -> & ->).
        exists (s :: lines), rest. split; reflexivity.
      * intros (lines & rest & E & ->). destruct lines as [| s' lines]; [discriminate E |].
        cbn [map app] in E. injection E as <- ->.
        rewrite (proj2 (IH1 _) (ex_intro _ lines (ex_intro _ rest (conj eq_refl eq_refl)))).
        reflexivity.
    + split.
      * destruct (PsychOculusVRDisplaySynopsis t); [discriminate |].
        intros _ [H | H]; [discriminate H | exact (proj1 IH2 eq_refl H)].
      * intros H. rewrite (proj2 IH2); [reflexivity |]. intros Hin. apply H. right. exact Hin.
  - cbn [PsychOculusVRDisplaySynopsis]. split.
    + intros out. split.
      * intros [= <-]. exists [], t. split; reflexivity.
      * intros (lines & rest & E & ->). destruct lines; [reflexivity | discriminate E].
    + split; [discriminate |]. intros H. exfalso. apply H. left. reflexivity.
Qed.

Lemma fold_put_length (l : list (option string)) :
  forall st, length (fst (fold_left put l st)) = length (fst st).
Proof.
  induction l as [| s l IH]; intros st; [reflexivity |].
  cbn [fold_left]. rewrite IH. unfold put. cbn [fst]. apply length_insert.
Qed.

Lemma fold_put_index (l : list (option string)) :
  forall st, snd (fold_left put l st) = snd st + Z.of_nat (length l).
Proof.
  induction l as [| s l IH]; intros st; [cbn; lia |].
  cbn [fold_left length]. rewrite IH. unfold put. cbn [snd]. lia.
Qed.

Lemma fold_put_prefix (l : list (option string)) :
  forall (before after : Synopsis),
    (length l <= length after)%nat ->
    fst (fold_left put l (before ++ after, Z.of_nat (length before)))
    = before ++ l ++ drop (length l) after.
Proof.
  induction l as [| s l IH]; intros before after Hlen.
  - cbn [fold_left fst length app]. rewrite drop_0. reflexivity.
  - destruct after as [| a after]; [cbn in Hlen; lia |].
    cbn [fold_left length]. unfold put at 2. cbn [fst snd].
    rewrite Nat2Z.id.
    replace (<[length before := s]> (before ++ a :: after)) with ((before ++ [s]) ++ after).
    2:{ rewrite insert_app_r_alt by lia. rewrite Nat.sub_diag. cbn [insert list_insert].
        rewrite <- app_assoc. reflexivity. }
    replace (Z.of_nat (length before) + 1) with (Z.of_nat (length (before ++ [s])))
      by (rewrite length_app; cbn [length]; lia).
    rewrite IH by (cbn [length] in Hlen; lia).
    rewrite <- app_assoc. reflexivity.
Qed.

(** X24: on a table of 40 entries, whatever they hold, [InitializeSynopsis]
    passes its check of the size, writes the 15 entries of the usage text,
    the last one [NULL], and leaves the other 25 as they were; the synopsis
    then printed is the 14 strings of the usage text, and the loop stays
    inside the table. *)
Theorem X24_synopsis_after_initialisation (t : Synopsis) :
  length t = Z.to_nat MAX_SYNOPSIS_STRINGS ->
  InitializeSynopsis t = Some (usage ++ drop 15 t) /\
  PsychOculusVRDisplaySynopsis (usage ++ drop 15 t)
  = Some (map (fun s => (default EmptyString s ++ newline)%string) (take 14 usage)).
Proof.
  intros Hlen. split.
  - unfold InitializeSynopsis. cbv zeta. rewrite fold_put_index.
    change (0 + Z.of_nat (length usage) >? MAX_SYNOPSIS_STRINGS) with false. cbv iota.
    f_equal. apply (fold_put_prefix usage [] t). rewrite Hlen.
    change (15 <= 40)%nat. lia.
  - reflexivity.
Qed.

Lemma X24_synopsis_after_initialisation_witness :
  InitializeSynopsis (repeat None 40) = Some (usage ++ repeat None 25).
Proof.
  exact (proj1 (X24_synopsis_after_initialisation (repeat None 40) eq_refl)).
Defined.
